(** * douban_notion_core: a shallow embedding of the Douban-to-Notion importer

    The development follows [douban_notion_core.py] function by function.
    Python [str] values are sequences of Unicode code points, Python [int]
    values are unbounded integers, exceptions are values of an inductive type
    and the two network calls ([requests.get], [requests.post]) together with
    [time.sleep] are recorded in an explicit trace. *)

From Stdlib Require Import String Ascii List ZArith NArith Lia Bool.
Import ListNotations.

Local Open Scope N_scope.

(** ** Python strings *)

(** A character is a Unicode code point; a [str] is a sequence of them. *)
Definition char := N.
Definition str := list char.

(** ASCII literals of the source, written as Rocq strings. *)
Definition lit (s : string) : str :=
  map N_of_ascii (list_ascii_of_string s).

(** [a == b] on strings *)
Fixpoint str_eqb (a b : str) : bool :=
  match a, b with
  | [], [] => true
  | x :: a', y :: b' => (x =? y) && str_eqb a' b'
  | _, _ => false
  end.

(** Truthiness of a string: [if text:] holds for non-empty strings. *)
Definition truthy (s : str) : bool :=
  match s with [] => false | _ :: _ => true end.

(** Truthiness of an [Optional[str]]: [None] and [""] are both falsy. *)
Definition truthy_opt (o : option str) : bool :=
  match o with None => false | Some s => truthy s end.

(** [ch.isspace()], which is also the class [\s] of [re] on [str] patterns and
    the set removed by [str.strip()] without argument. *)
Definition isspace (c : char) : bool :=
  ((0x09 <=? c) && (c <=? 0x0D)) || ((0x1C <=? c) && (c <=? 0x20))
  || (c =? 0x85) || (c =? 0xA0) || (c =? 0x1680)
  || ((0x2000 <=? c) && (c <=? 0x200A))
  || (c =? 0x2028) || (c =? 0x2029) || (c =? 0x202F) || (c =? 0x205F)
  || (c =? 0x3000).

Definition space : char := 0x20.

(** [s.lstrip(...)], [s.rstrip(...)] for a set of characters given as a
    predicate. *)
Fixpoint lstrip_by (p : char -> bool) (s : str) : str :=
  match s with
  | [] => []
  | c :: t => if p c then lstrip_by p t else s
  end.

Definition rstrip_by (p : char -> bool) (s : str) : str :=
  rev (lstrip_by p (rev s)).

Definition in_chars (cs : str) (c : char) : bool :=
  existsb (N.eqb c) cs.

(** [s.strip()] *)
Definition strip (s : str) : str :=
  rstrip_by isspace (lstrip_by isspace s).

(** [s.lstrip(chars)] and [s.rstrip(chars)] *)
Definition lstrip_chars (cs s : str) : str := lstrip_by (in_chars cs) s.
Definition rstrip_chars (cs s : str) : str := rstrip_by (in_chars cs) s.

(** [re.sub(r"\s+", " ", s)]: every maximal run of whitespace becomes one
    space.  [in_run] tells that the previous character was whitespace, so the
    run it belongs to has already been replaced. *)
Fixpoint sub_spaces_from (in_run : bool) (s : str) : str :=
  match s with
  | [] => []
  | c :: t =>
      if isspace c
      then (if in_run then sub_spaces_from true t
            else space :: sub_spaces_from true t)
      else c :: sub_spaces_from false t
  end.

Definition sub_spaces (s : str) : str := sub_spaces_from false s.

(** [collapse_spaces(text)] *)
Definition collapse_spaces (text : option str) : str :=
  if negb (truthy_opt text) then []
  else match text with
       | Some t => strip (sub_spaces t)
       | None => []
       end.

(** [s.startswith(prefix)] *)
Fixpoint startswith (prefix s : str) : bool :=
  match prefix, s with
  | [], _ => true
  | _ :: _, [] => false
  | p :: ps, c :: t => (c =? p) && startswith ps t
  end.

(** [s.split(sep)] for a separator of one character, which is what both call
    sites use (["-"] and ["/"]).  The result is never empty. *)
Fixpoint split (sep : char) (s : str) : list str :=
  match s with
  | [] => [[]]
  | c :: t =>
      if c =? sep then [] :: split sep t
      else match split sep t with
           | w :: ws => (c :: w) :: ws
           | [] => [[c]]
           end
  end.

(** [s.replace(old, new)] for a non-empty [old] (the call sites use [" / "]
    and ["&nbsp;"]): occurrences are replaced from left to right without
    overlap.  [skip] counts the characters of a matched occurrence that are
    still to be consumed. *)
Fixpoint replace_from (old new : str) (skip : nat) (s : str) : str :=
  match s with
  | [] => []
  | c :: t =>
      match skip with
      | S k => replace_from old new k t
      | O =>
          if startswith old s
          then new ++ replace_from old new (Nat.pred (length old)) t
          else c :: replace_from old new O t
      end
  end.

Definition replace (old new s : str) : str := replace_from old new O s.

(** [sep.join(parts)] *)
Fixpoint join (sep : str) (parts : list str) : str :=
  match parts with
  | [] => []
  | [p] => p
  | p :: rest => p ++ sep ++ join sep rest
  end.

(** ** Decimal digits *)

(** Code points of the zero digit of every block of Unicode decimal digits
    (general category Nd, Unicode 14.0); each block holds the ten digits
    0..9 in order. *)
Definition decimal_zeros : list char :=
  [0x30; 0x660; 0x6F0; 0x7C0; 0x966; 0x9E6; 0xA66; 0xAE6; 0xB66; 0xBE6;
   0xC66; 0xCE6; 0xD66; 0xDE6; 0xE50; 0xED0; 0xF20; 0x1040; 0x1090; 0x17E0;
   0x1810; 0x1946; 0x19D0; 0x1A80; 0x1A90; 0x1B50; 0x1BB0; 0x1C40; 0x1C50;
   0xA620; 0xA8D0; 0xA900; 0xA9D0; 0xA9F0; 0xAA50; 0xABF0; 0xFF10; 0x104A0;
   0x10D30; 0x11066; 0x110F0; 0x11136; 0x111D0; 0x112F0; 0x11450; 0x114D0;
   0x11650; 0x116C0; 0x11730; 0x118E0; 0x11950; 0x11C50; 0x11D50; 0x11DA0;
   0x16A60; 0x16AC0; 0x16B50; 0x1D7CE; 0x1D7D8; 0x1D7E2; 0x1D7EC; 0x1D7F6;
   0x1E140; 0x1E2F0; 0x1E950; 0x1FBF0].

(** The value of a decimal digit character, [None] for any other character. *)
Definition decimal_value (c : char) : option N :=
  match find (fun z => (z <=? c) && (c <? z + 10)) decimal_zeros with
  | Some z => Some (c - z)
  | None => None
  end.

(** The class [\d] of [re] on [str] patterns. *)
Definition isdecimal (c : char) : bool :=
  match decimal_value c with Some _ => true | None => false end.

(** [re.sub(r"\D+", "", s)]: every run of non-digits is deleted. *)
Definition sub_nondigits (s : str) : str := filter isdecimal s.

(** ** Exceptions *)

(** The messages of the [RuntimeError]s the module raises, one constructor
    per [raise] statement, with the values interpolated into the message. *)
Inductive Message : Type :=
| DoubanNetworkError (e : str)
| DoubanNotFound (url : str)
| DoubanBadStatus (status : Z) (snippet : str)
| TitleTagMissing
| InfoDivMissing
| NotionTokenEmpty
| NotionDatabaseIdEmpty
| NotionTimeout (last_error : option str)
| NotionCreateFailed (status : Z) (snippet : str)
| IsbnEmpty.

(** Python exceptions.  [ReadTimeout] is [requests.exceptions.ReadTimeout];
    [RequestException] stands for every other exception of the [requests]
    hierarchy and [OtherException] for one outside it; each carries [str(e)]. *)
Inductive exn : Type :=
| ValueError
| IndexError
| ReadTimeout (detail : str)
| RequestException (detail : str)
| OtherException (detail : str)
| RuntimeError (msg : Message).

(** [isinstance(e, requests.RequestException)] *)
Definition is_RequestException (e : exn) : bool :=
  match e with
  | ReadTimeout _ | RequestException _ => true
  | _ => false
  end.

Definition str_of_exn (e : exn) : str :=
  match e with
  | ReadTimeout d | RequestException d | OtherException d => d
  | _ => []
  end.

(** The outcome of a computation that may raise. *)
Inductive result (A : Type) : Type :=
| Ok (a : A)
| Raise (e : exn).
Arguments Ok {A} a.
Arguments Raise {A} e.

Definition rbind {A B} (m : result A) (k : A -> result B) : result B :=
  match m with
  | Ok a => k a
  | Raise e => Raise e
  end.

Declare Scope result_scope.
Delimit Scope result_scope with result.
Notation "x <- m ;; k" := (rbind m (fun x => k))
  (at level 61, m at next level, right associativity) : result_scope.

(** [try: m except ValueError: handler] *)
Definition except_ValueError {A} (m : result A) (handler : result A) : result A :=
  match m with
  | Raise ValueError => handler
  | other => other
  end.

(** [parts[i]] on a list *)
Definition getitem {A} (l : list A) (i : nat) : result A :=
  match nth_error l i with
  | Some a => Ok a
  | None => Raise IndexError
  end.

(** ** [int(s)] and decimal formatting *)

(** The interpreter's cap on the number of digits of a conversion between
    [int] and [str] ([sys.get_int_max_str_digits()], CPython's default). *)
Definition int_max_str_digits : nat := 4300.

(** [int] first maps every non-ASCII character of its argument: whitespace
    to a space, a decimal digit to the ASCII digit of its value, anything
    else to a character that cannot be parsed. *)
Definition to_ascii_decimal (c : char) : char :=
  if c <? 127 then c
  else if isspace c then space
  else match decimal_value c with
       | Some d => 0x30 + d
       | None => 0x3F
       end.

(** The ASCII whitespace skipped around the number. *)
Definition is_ascii_space (c : char) : bool :=
  ((0x09 <=? c) && (c <=? 0x0D)) || (c =? 0x20).

Definition is_ascii_digit (c : char) : bool := (0x30 <=? c) && (c <=? 0x39).

Definition underscore : char := 0x5F.

(** Scans [digit ("_"? digit)*]: returns the digit values read (most
    significant first) and the rest of the input, or [None] on a doubled or
    trailing underscore.  [prev_us] tells that the previous character was an
    underscore. *)
Fixpoint scan_digits (prev_us : bool) (s : str) : option (list N * str) :=
  match s with
  | [] => if prev_us then None else Some ([], [])
  | c :: t =>
      if is_ascii_digit c then
        match scan_digits false t with
        | Some (ds, rest) => Some ((c - 0x30) :: ds, rest)
        | None => None
        end
      else if c =? underscore then
        (if prev_us then None else scan_digits true t)
      else if prev_us then None else Some ([], s)
  end.

(** The number written by a sequence of decimal digits. *)
Definition digits_value (ds : list N) : N :=
  fold_left (fun acc d => 10 * acc + d) ds 0.

(** [int(s)] in base 10: optional whitespace, an optional sign, digits
    with single underscores between them, optional whitespace. *)
Definition py_int (s : str) : result Z :=
  let buf := lstrip_by is_ascii_space (map to_ascii_decimal s) in
  let '(negative, body) :=
    match buf with
    | c :: t => if c =? 0x2B then (false, t)
                else if c =? 0x2D then (true, t)
                else (false, buf)
    | [] => (false, buf)
    end in
  match body with
  | c :: _ =>
      if c =? underscore then Raise ValueError
      else
        match scan_digits false body with
        | Some (d :: ds, rest) =>
            if Nat.ltb int_max_str_digits (length (d :: ds)) then Raise ValueError
            else
              match lstrip_by is_ascii_space rest with
              | [] => let n := Z.of_N (digits_value (d :: ds)) in
                      Ok (if negative then (- n)%Z else n)
              | _ :: _ => Raise ValueError
              end
        | _ => Raise ValueError
        end
  | [] => Raise ValueError
  end.

(** The decimal digits of a natural number, most significant first. *)
Fixpoint to_digits_aux (fuel : nat) (n : N) (acc : str) : str :=
  match fuel with
  | O => acc
  | S f =>
      if n <? 10 then (0x30 + n) :: acc
      else to_digits_aux f (n / 10) ((0x30 + n mod 10) :: acc)
  end.

Definition to_digits (n : N) : str :=
  to_digits_aux (S (N.to_nat (N.log2 n))) n [].

(** The text of [f"{z:0{width}d}"]: the sign first, then zeros up to [width]
    characters in all, then the digits. *)
Definition zero_padded (width : nat) (z : Z) : str :=
  let ds := to_digits (Z.abs_N z) in
  let sign := if (z <? 0)%Z then [0x2D] else [] in
  sign ++ repeat 0x30 (width - length sign - length ds) ++ ds.

(** [f"{z:0{width}d}"]; the conversion is refused beyond the digit cap. *)
Definition format_0d (width : nat) (z : Z) : result str :=
  if Nat.ltb int_max_str_digits (length (to_digits (Z.abs_N z)))
  then Raise ValueError
  else Ok (zero_padded width z).

(** ** Python values sent to and received from Notion *)

#[local] Set Warnings "-register-all".

(** The JSON-like values the module builds: [None], integers, strings, lists
    and dicts (in insertion order). *)
Inductive value : Type :=
| VNone
| VInt (z : Z)
| VStr (s : str)
| VList (items : list value)
| VDict (fields : list (str * value)).

(** [list(d.keys())] *)
Definition keys (v : value) : list str :=
  match v with
  | VDict fields => map fst fields
  | _ => []
  end.

(** [d.get(key)] on a dict value: the first binding of [key]. *)
Definition dict_get (v : value) (key : str) : option value :=
  match v with
  | VDict fields =>
      match find (fun kv => str_eqb (fst kv) key) fields with
      | Some kv => Some (snd kv)
      | None => None
      end
  | _ => None
  end.

(** Column names of the Notion database. *)
Definition col_title : str := [0x4E66; 0x540D].
Definition col_publisher : str := [0x51FA; 0x7248; 0x793E].
Definition col_author : str := [0x4F5C; 0x8005].
Definition col_translator : str := [0x8BD1; 0x8005].
Definition col_pubdate : str := [0x51FA; 0x7248; 0x65E5; 0x671F].
Definition col_producer : str := [0x51FA; 0x54C1; 0x65B9].
Definition col_binding : str := [0x5C01; 0x9762; 0x7C7B; 0x578B].
Definition col_pages : str := [0x9875; 0x6570].

(** ** Date conversion *)

Definition dash : char := 0x2D.

(** [convert_pubdate(raw_pubdate)] *)
Definition convert_pubdate (raw_pubdate : option str) : result (option str) :=
  if negb (truthy_opt raw_pubdate) then Ok None
  else
    match raw_pubdate with
    | None => Ok None
    | Some rp =>
        let raw := strip rp in
        let parts := split dash raw in
        match (p0 <- getitem parts 0 ;; py_int p0)%result with
        | Raise ValueError | Raise IndexError => Ok None
        | Raise e => Raise e
        | Ok year =>
            (month <-
               (if Nat.leb 2 (length parts)
                then except_ValueError
                       (p1 <- getitem parts 1 ;; py_int p1) (Ok 1%Z)
                else Ok 1%Z) ;;
             day <-
               (if Nat.eqb (length parts) 3
                then except_ValueError
                       (p2 <- getitem parts 2 ;; py_int p2) (Ok 1%Z)
                else Ok 1%Z) ;;
             let month := Z.max 1 (Z.min month 12) in
             let day := Z.max 1 (Z.min day 31) in
             y <- format_0d 4 year ;;
             m <- format_0d 2 month ;;
             d <- format_0d 2 day ;;
             Ok (Some (y ++ [dash] ++ m ++ [dash] ++ d)))%result
        end
    end.

(** ** Notion property wrappers *)

(** [rich_text_property(text)] *)
Definition rich_text_property (text : option str) : value :=
  match text with
  | Some (c :: t) =>
      VDict [(lit "rich_text",
              VList [VDict [(lit "text",
                             VDict [(lit "content", VStr (c :: t))])]])]
  | _ => VDict [(lit "rich_text", VList [])]
  end.

(** [title_property(text)] *)
Definition title_property (text : option str) : value :=
  let text := match text with Some (c :: t) => c :: t | _ => [] end in
  VDict [(lit "title",
          VList [VDict [(lit "text", VDict [(lit "content", VStr text)])]])].

(** [date_property(date_str)] *)
Definition date_property (date_str : option str) : value :=
  match date_str with
  | Some (c :: t) => VDict [(lit "date", VDict [(lit "start", VStr (c :: t))])]
  | _ => VDict [(lit "date", VNone)]
  end.

(** [number_property(value)] *)
Definition number_property (v : option str) : result value :=
  match v with
  | Some (c :: t) =>
      except_ValueError
        (n <- py_int (c :: t) ;; Ok (VDict [(lit "number", VInt n)]))%result
        (Ok (VDict [(lit "number", VNone)]))
  | _ => Ok (VDict [(lit "number", VNone)])
  end.

(** [select_property(value)] *)
Definition select_property (v : option str) : value :=
  match v with
  | Some (c :: t) => VDict [(lit "select", VDict [(lit "name", VStr (c :: t))])]
  | _ => VDict [(lit "select", VNone)]
  end.

(** ** The book record *)

(** The dict returned by [fetch_book_from_douban] and read by
    [build_notion_properties] through [book.get(key)]: a field is [None] when
    the key is missing or bound to [None]. *)
Record Book : Type := mkBook {
  title : option str;
  publisher : option str;
  author : option (list str);
  translator : option (list str);
  pubdate : option str;
  producer : option str;
  binding : option str;
  pages : option str
}.

(** [x or ""] *)
Definition or_empty (x : option str) : str :=
  match x with
  | Some (c :: t) => c :: t
  | _ => []
  end.

(** [x or []] *)
Definition or_nil (x : option (list str)) : list str :=
  match x with
  | Some l => l
  | None => []
  end.

(** [collapse_spaces(", ".join(names)) if names else ""] *)
Definition names_str (names : list str) : str :=
  match names with
  | [] => []
  | _ :: _ => collapse_spaces (Some (join (lit ", ") names))
  end.

(** [build_notion_properties(book)] *)
Definition build_notion_properties (book : Book) : result value :=
  let title := or_empty book.(title) in
  let authors := or_nil book.(author) in
  let translators := or_nil book.(translator) in
  let author_str := names_str authors in
  let translator_str := names_str translators in
  let publisher := collapse_spaces (Some (or_empty book.(publisher))) in
  let pubdate_raw := book.(pubdate) in
  (pubdate <- convert_pubdate pubdate_raw ;;
   let pages_raw := book.(pages) in
   let pages_str := match pages_raw with
                    | Some p => strip p
                    | None => []
                    end in
   number <- number_property (Some pages_str) ;;
   Ok (VDict
         [(col_title, title_property (Some title));
          (col_publisher, rich_text_property (Some publisher));
          (col_author, rich_text_property (Some author_str));
          (col_translator, rich_text_property (Some translator_str));
          (col_pubdate, date_property pubdate);
          (col_producer, rich_text_property (Some (or_empty book.(producer))));
          (col_binding, select_property (Some (or_empty book.(binding))));
          (col_pages, number)]))%result.

(** ** The outside world *)

(** What the module reads of a [requests.Response]: [resp.status_code],
    [resp.text] and the outcome of [resp.json()]. *)
Record Response : Type := mkResponse {
  status_code : Z;
  text : str;
  json : result value
}.

(** A sibling node of a label in the parsed page: an element, with its tag
    name, its [get_text(strip=True)] and its markup [str(tag)], or a text
    node, which has no [name]. *)
Inductive Node : Type :=
| Tag (name : str) (get_text_strip : str) (markup : str)
| NavigableString (s : str).

(** A [<span class="pl">] of the info block: [span.get_text(strip=True)] and
    [span.next_siblings]. *)
Record LabelSpan : Type := mkLabelSpan {
  label_text : str;
  next_siblings : list Node
}.

(** What the module reads of the parsed page: the [get_text(strip=True)] of
    the element found by [soup.find("span", property="v:itemreviewed")] and
    the labels found in [soup.find("div", id="info")]; [None] when [find]
    returns [None]. *)
Record Soup : Type := mkSoup {
  title_tag : option str;
  info_div : option (list LabelSpan)
}.

(** The environment of one run: the answer of the catalog to a GET of a URL,
    the HTML parser, and the answer of the store to the n-th POST (counted
    from 0). *)
Record World : Type := mkWorld {
  requests_get : str -> result Response;
  BeautifulSoup : str -> Soup;
  requests_post : nat -> result Response
}.

(** The observable actions, in the order they happen. *)
Inductive event : Type :=
| Get (url : str) (headers : list (str * str)) (timeout : Z)
| Post (url : str) (headers : list (str * str)) (body : value) (timeout : Z)
| Warn (attempt : nat)
| Sleep (seconds : Z).

Definition is_Post (e : event) : bool :=
  match e with Post _ _ _ _ => true | _ => false end.

Definition is_Sleep (e : event) : bool :=
  match e with Sleep _ => true | _ => false end.

Definition posts_sent (tr : list event) : nat := length (filter is_Post tr).
Definition sleeps (tr : list event) : list event := filter is_Sleep tr.

(** A computation that acts on the world: it extends the trace of events and
    returns or raises; the trace survives an exception. *)
Definition IO (A : Type) : Type := list event -> result A * list event.

Definition io_ret {A} (a : A) : IO A := fun tr => (Ok a, tr).
Definition io_raise {A} (e : exn) : IO A := fun tr => (Raise e, tr).
Definition io_lift {A} (r : result A) : IO A := fun tr => (r, tr).

Definition io_bind {A B} (m : IO A) (k : A -> IO B) : IO B :=
  fun tr =>
    match m tr with
    | (Ok a, tr') => k a tr'
    | (Raise e, tr') => (Raise e, tr')
    end.

Declare Scope io_scope.
Delimit Scope io_scope with io.
Notation "x <- m ;; k" := (io_bind m (fun x => k))
  (at level 61, m at next level, right associativity) : io_scope.
Notation "m ;;; k" := (io_bind m (fun _ => k))
  (at level 61, right associativity) : io_scope.

(** [try: m except C as e: handler(e)] where [catches e] tells whether [e] is
    an instance of [C]. *)
Definition io_except {A} (m : IO A) (catches : exn -> bool)
  (handler : exn -> IO A) : IO A :=
  fun tr =>
    match m tr with
    | (Raise e, tr') => if catches e then handler e tr' else (Raise e, tr')
    | ok => ok
    end.

Definition get (w : World) (url : str) (headers : list (str * str))
  (timeout : Z) : IO Response :=
  fun tr => (requests_get w url, tr ++ [Get url headers timeout]).

Definition post (w : World) (url : str) (headers : list (str * str))
  (body : value) (timeout : Z) : IO Response :=
  fun tr => (requests_post w (posts_sent tr),
             tr ++ [Post url headers body timeout]).

Definition sleep (seconds : Z) : IO unit :=
  fun tr => (Ok tt, tr ++ [Sleep seconds]).

Definition warn (attempt : nat) : IO unit :=
  fun tr => (Ok tt, tr ++ [Warn attempt]).

(** ** Fetching a book from Douban *)

(** Labels of the info block, matched by prefix. *)
Definition label_author : str := [0x4F5C; 0x8005].
Definition label_translator : str := [0x8BD1; 0x8005].
Definition label_publisher : str := [0x51FA; 0x7248; 0x793E].
Definition label_pubdate : str := [0x51FA; 0x7248; 0x5E74].
Definition label_producer : str := [0x51FA; 0x54C1; 0x65B9].
Definition label_binding : str := [0x88C5; 0x5E27].
Definition label_pages : str := [0x9875; 0x6570].

(** The ASCII colon and the full-width colon. *)
Definition colons : str := [0xFF1A; 0x3A].

Definition slash : char := 0x2F.

(** [getattr(sibling, "name", None)] *)
Definition node_name (n : Node) : option str :=
  match n with
  | Tag name _ _ => Some name
  | NavigableString _ => None
  end.

(** [str(sibling)] *)
Definition node_str (n : Node) : str :=
  match n with
  | Tag _ _ markup => markup
  | NavigableString s => s
  end.

Definition name_is (n : Node) (tag : str) : bool :=
  match node_name n with
  | Some name => str_eqb name tag
  | None => false
  end.

(** The loop over [span.next_siblings] that fills [value_parts], up to the
    first [<br>]. *)
Fixpoint collect_value_parts (siblings : list Node) : list str :=
  match siblings with
  | [] => []
  | sibling :: rest =>
      if name_is sibling (lit "br") then []
      else if name_is sibling (lit "a") then
        match sibling with
        | Tag _ (c :: t) _ => (c :: t) :: collect_value_parts rest
        | _ => collect_value_parts rest
        end
      else
        let text := strip (node_str sibling) in
        if truthy text then
          let cleaned := strip (replace (lit "&nbsp;") (lit " ") text) in
          if truthy cleaned && negb (str_eqb cleaned (lit "/"))
          then cleaned :: collect_value_parts rest
          else collect_value_parts rest
        else collect_value_parts rest
  end.

(** The list built for an author or translator value:
    [[collapse_spaces(v) for v in raw_value.replace(" / ", "/").split("/")
      if v.strip()]] *)
Definition split_names (raw_value : str) : list str :=
  let cleaned := replace (lit " / ") (lit "/") raw_value in
  map (fun v => collapse_spaces (Some v))
      (filter (fun v => truthy (strip v)) (split slash cleaned)).

(** The page count kept for a ["页数"] value. *)
Definition extract_pages (raw_value : str) : str :=
  let pages_text := collapse_spaces (Some raw_value) in
  sub_nondigits pages_text.

(** The local variables filled by the loop over the labels. *)
Record Fields : Type := mkFields {
  f_publisher : str;
  f_pubdate_raw : option str;
  f_authors : list str;
  f_translators : list str;
  f_pages : option str;
  f_producer : option str;
  f_binding : option str
}.

Definition initial_fields : Fields :=
  mkFields [] None [] [] None None None.

(** The [if]/[elif] chain on the label. *)
Definition route (label raw_value : str) (f : Fields) : Fields :=
  if startswith label_author label then
    mkFields f.(f_publisher) f.(f_pubdate_raw) (split_names raw_value)
             f.(f_translators) f.(f_pages) f.(f_producer) f.(f_binding)
  else if startswith label_translator label then
    mkFields f.(f_publisher) f.(f_pubdate_raw) f.(f_authors)
             (split_names raw_value) f.(f_pages) f.(f_producer) f.(f_binding)
  else if startswith label_publisher label then
    mkFields (collapse_spaces (Some raw_value)) f.(f_pubdate_raw) f.(f_authors)
             f.(f_translators) f.(f_pages) f.(f_producer) f.(f_binding)
  else if startswith label_pubdate label then
    mkFields f.(f_publisher) (Some raw_value) f.(f_authors)
             f.(f_translators) f.(f_pages) f.(f_producer) f.(f_binding)
  else if startswith label_producer label then
    mkFields f.(f_publisher) f.(f_pubdate_raw) f.(f_authors)
             f.(f_translators) f.(f_pages)
             (Some (collapse_spaces (Some raw_value))) f.(f_binding)
  else if startswith label_binding label then
    mkFields f.(f_publisher) f.(f_pubdate_raw) f.(f_authors)
             f.(f_translators) f.(f_pages) f.(f_producer)
             (Some (collapse_spaces (Some raw_value)))
  else if startswith label_pages label then
    mkFields f.(f_publisher) f.(f_pubdate_raw) f.(f_authors)
             f.(f_translators) (Some (extract_pages raw_value))
             f.(f_producer) f.(f_binding)
  else f.

(** The value of a label: the parts joined by a space, without a leading
    colon. *)
Definition raw_value_of (span : LabelSpan) : str :=
  let value_parts := collect_value_parts span.(next_siblings) in
  let raw_value := strip (join (lit " ") value_parts) in
  strip (lstrip_chars colons raw_value).

(** One iteration of [for span in labels]. *)
Definition process_label (f : Fields) (span : LabelSpan) : Fields :=
  let label := rstrip_chars colons span.(label_text) in
  let raw_value := raw_value_of span in
  if negb (truthy raw_value) then f
  else route label raw_value f.

(** The part of [fetch_book_from_douban] after the request. *)
Definition book_of_response (w : World) (url : str) (resp : Response)
  : result Book :=
  if (resp.(status_code) =? 404)%Z then
    Raise (RuntimeError (DoubanNotFound url))
  else if negb (resp.(status_code) =? 200)%Z then
    Raise (RuntimeError
             (DoubanBadStatus resp.(status_code) (firstn 200 resp.(text))))
  else
    let soup := BeautifulSoup w resp.(text) in
    match soup.(title_tag) with
    | None => Raise (RuntimeError TitleTagMissing)
    | Some title_text =>
        let title := collapse_spaces (Some title_text) in
        match soup.(info_div) with
        | None => Raise (RuntimeError InfoDivMissing)
        | Some labels =>
            let f := fold_left process_label labels initial_fields in
            Ok (mkBook (Some title) (Some f.(f_publisher))
                       (Some f.(f_authors)) (Some f.(f_translators))
                       f.(f_pubdate_raw) f.(f_producer) f.(f_binding)
                       f.(f_pages))
        end
    end.

Definition douban_url (isbn : str) : str :=
  lit "https://book.douban.com/isbn/" ++ isbn ++ lit "/".

Definition douban_headers : list (str * str) :=
  [(lit "User-Agent",
    lit "Mozilla/5.0 (Windows NT 10.0; Win64; x64) AppleWebKit/537.36 (KHTML, like Gecko) Chrome/120.0.0.0 Safari/537.36");
   (lit "Referer", lit "https://book.douban.com/")].

(** [fetch_book_from_douban(isbn)] *)
Definition fetch_book_from_douban (w : World) (isbn : str) : IO Book :=
  let url := douban_url isbn in
  (resp <- io_except (get w url douban_headers 10)
             is_RequestException
             (fun e => io_raise
                         (RuntimeError (DoubanNetworkError (str_of_exn e)))) ;;
   io_lift (book_of_response w url resp))%io.

(** ** Writing to Notion *)

Definition NOTION_VERSION : str := lit "2022-06-28".
Definition NOTION_BASE_URL : str := lit "https://api.notion.com/v1".

(** [notion_headers(token)] *)
Definition notion_headers (token : str) : result (list (str * str)) :=
  if negb (truthy token) then Raise (RuntimeError NotionTokenEmpty)
  else Ok [(lit "Authorization", lit "Bearer " ++ token);
           (lit "Notion-Version", NOTION_VERSION);
           (lit "Content-Type", lit "application/json")].

Definition is_ReadTimeout (e : exn) : bool :=
  match e with ReadTimeout _ => true | _ => false end.

(** The [for attempt in range(3)] loop with its [else] branch, over the
    attempts still to be made.  Leaving the loop by [break] returns the
    response. *)
Fixpoint post_attempts (w : World) (url token : str) (payload : value)
  (attempts : list nat) (last_error : option str) : IO Response :=
  match attempts with
  | [] => io_raise (RuntimeError (NotionTimeout last_error))
  | attempt :: rest =>
      io_except
        (headers <- io_lift (notion_headers token) ;;
         post w url headers payload 30)%io
        is_ReadTimeout
        (fun e =>
           (warn (attempt + 1) ;;;
            sleep 2 ;;;
            post_attempts w url token payload rest (Some (str_of_exn e)))%io)
  end.

(** [create_notion_page(token, database_id, properties)] *)
Definition create_notion_page (w : World) (token database_id : str)
  (properties : value) : IO value :=
  if negb (truthy database_id) then
    io_raise (RuntimeError NotionDatabaseIdEmpty)
  else
    let url := NOTION_BASE_URL ++ lit "/pages" in
    let payload :=
      VDict [(lit "parent", VDict [(lit "database_id", VStr database_id)]);
             (lit "properties", properties)] in
    (resp <- post_attempts w url token payload (seq 0 3) None ;;
     if negb (resp.(status_code) =? 200)%Z then
       io_raise (RuntimeError
                   (NotionCreateFailed resp.(status_code)
                                       (firstn 500 resp.(text))))
     else io_lift resp.(json))%io.

(** ** The entry point *)

Record ImportResult : Type := mkImportResult {
  book : Book;
  properties : value;
  page : value
}.

(** [run_import(token, database_id, isbn)] *)
Definition run_import (w : World) (token database_id isbn : str)
  : IO ImportResult :=
  if negb (truthy isbn) then io_raise (RuntimeError IsbnEmpty)
  else
    (book <- fetch_book_from_douban w isbn ;;
     properties <- io_lift (build_notion_properties book) ;;
     page <- create_notion_page w token database_id properties ;;
     io_ret (mkImportResult book properties page))%io.

(** ** Words

    The maximal runs of non-whitespace characters of a string, in order
    (what [s.split()] returns); used to state what [collapse_spaces]
    computes. *)
Fixpoint words (s : str) : list str :=
  match s with
  | [] => []
  | c :: t =>
      if isspace c then words t
      else match t with
           | [] => [[c]]
           | c' :: _ =>
               if isspace c' then [c] :: words t
               else match words t with
                    | w :: ws => (c :: w) :: ws
                    | [] => [[c]]
                    end
           end
  end.

(** A word is a non-empty string without whitespace. *)
Definition is_word (w : str) : Prop :=
  w <> [] /\ forallb (fun c => negb (isspace c)) w = true.

Definition head_is_space (s : str) : bool :=
  match s with c :: _ => isspace c | [] => false end.

(** ** A sample page and sample worlds

    Concrete inputs on which the functions are run in the examples below. *)

Definition br : Node := Tag (lit "br") [] (lit "<br/>").

(** A page whose info block reads: author ["A//B/"], translator ["C / D"]
    (one linked name and one text node), publisher ["P"], publication year
    ["2018-8"], page count ["338页"]. *)
Definition sample_soup : Soup :=
  mkSoup (Some (lit "The  Title"))
    (Some
       [mkLabelSpan (label_author ++ lit ":")
          [NavigableString (lit " A//B/ "); br];
        mkLabelSpan label_translator
          [NavigableString (lit ": "); Tag (lit "a") (lit "C") (lit "<a>C</a>");
           NavigableString (lit " / D "); br];
        mkLabelSpan (label_publisher ++ lit ":")
          [NavigableString (lit " P "); br];
        mkLabelSpan (label_pubdate ++ lit ":")
          [NavigableString (lit " 2018-8"); br];
        mkLabelSpan (label_pages ++ lit ":")
          [NavigableString (lit " 338" ++ [0x9875]); br]]).

Definition sample_book : Book :=
  mkBook (Some (lit "The Title")) (Some (lit "P"))
         (Some [lit "A"; lit "B"]) (Some [lit "C"; lit "D"])
         (Some (lit "2018-8")) None None (Some (lit "338")).

Definition page_response (status : Z) : Response :=
  mkResponse status (lit "<html>") (Raise ValueError).

Definition created_page : value := VDict [(lit "object", VStr (lit "page"))].

Definition created_response : Response :=
  mkResponse 200 (lit "{}") (Ok created_page).

(** A world whose catalog answers [get_outcome] and whose store answers the
    n-th POST with [post_outcome n]. *)
Definition sample_world (get_outcome : result Response)
  (post_outcome : nat -> result Response) : World :=
  mkWorld (fun _ => get_outcome) (fun _ => sample_soup) post_outcome.

(** The store times out on the first [k] POSTs and creates the page on the
    next one. *)
Definition timeouts_then_created (k : nat) (n : nat) : result Response :=
  if Nat.ltb n k then Raise (ReadTimeout (lit "read timed out"))
  else Ok created_response.

Definition sample_isbn : str := lit "9787020002207".

(** ** Invariants *)

(** The names gathered so far are all non-empty. *)
Definition names_nonempty (f : Fields) : Prop :=
  Forall (fun n => n <> []) f.(f_authors)
  /\ Forall (fun n => n <> []) f.(f_translators).

(** ** The date rule, in the words of the specification

    The second segment, if present, parses as the month; the third, if there
    are exactly three segments, parses as the day; an unparseable segment
    defaults to 1; the month is clamped to [1,12] and the day to [1,31]. *)

Definition int_or (default : Z) (s : str) : Z :=
  match py_int s with
  | Ok z => z
  | Raise _ => default
  end.

Definition spec_month (parts : list str) : Z :=
  Z.max 1 (Z.min (match parts with
                  | _ :: p1 :: _ => int_or 1 p1
                  | _ => 1%Z
                  end) 12).

Definition spec_day (parts : list str) : Z :=
  Z.max 1 (Z.min (match parts with
                  | [_; _; p2] => int_or 1 p2
                  | _ => 1%Z
                  end) 31).

(** The columns of the payload, in the order the dict literal lists them. *)
Definition payload_columns : list str :=
  [col_title; col_publisher; col_author; col_translator; col_pubdate;
   col_producer; col_binding; col_pages].

(** A record whose fields are all absent. *)
Definition empty_book : Book :=
  mkBook None None None None None None None None.

(** The digit values of a string of decimal digits. *)
Definition decimal_values (ds : str) : list N :=
  map (fun c => match decimal_value c with Some d => d | None => 0 end) ds.

(** A field of a date: ASCII digits that write [z] in base ten. *)
Definition reads_as (field : str) (z : Z) : Prop :=
  Forall (fun c => is_ascii_digit c = true) field
  /\ Z.of_N (digits_value (map (fun c => c - 0x30) field)) = z.

(** ** The retry loop, described from outside *)

(** The request [create_notion_page] sends. *)
Definition notion_post (token database_id : str) (properties : value) : event :=
  Post (NOTION_BASE_URL ++ lit "/pages")
       [(lit "Authorization", lit "Bearer " ++ token);
        (lit "Notion-Version", NOTION_VERSION);
        (lit "Content-Type", lit "application/json")]
       (VDict [(lit "parent", VDict [(lit "database_id", VStr database_id)]);
               (lit "properties", properties)])
       30.

(** What a timed-out attempt leaves in the trace: the request, the warning
    with the number of the attempt, and the two-second pause. *)
Definition timed_out_attempt (request : event) (attempt : nat) : list event :=
  [request; Warn (attempt + 1); Sleep 2].

Definition timed_out_attempts (request : event) (first count : nat)
  : list event :=
  flat_map (timed_out_attempt request) (seq first count).

(** How many of the next [budget] POSTs, starting with the [start]-th, time
    out in a row. *)
Fixpoint leading_timeouts (outcomes : nat -> result Response)
  (start budget : nat) : nat :=
  match budget with
  | O => O
  | S b =>
      match outcomes start with
      | Raise (ReadTimeout _) => S (leading_timeouts outcomes (S start) b)
      | _ => O
      end
  end.

(** What [create_notion_page] makes of the answer that ends the loop. *)
Definition finish (outcome : result Response) : result value :=
  match outcome with
  | Ok resp =>
      if negb (resp.(status_code) =? 200)%Z
      then Raise (RuntimeError
                    (NotionCreateFailed resp.(status_code)
                                        (firstn 500 resp.(text))))
      else resp.(json)
  | Raise e => Raise e
  end.

(** [str(e)] of the exception an outcome raised. *)
Definition str_of_outcome (outcome : result Response) : str :=
  match outcome with
  | Raise e => str_of_exn e
  | Ok _ => []
  end.

(** The value of [last_error] after [k] timeouts. *)
Definition last_error_after (outcomes : nat -> result Response)
  (start : nat) (initial : option str) (k : nat) : option str :=
  match k with
  | O => initial
  | S j => Some (str_of_outcome (outcomes (start + j)%nat))
  end.

(** [outcome] is a read timeout. *)
Definition timed_out (outcome : result Response) : bool :=
  match outcome with
  | Raise e => is_ReadTimeout e
  | Ok _ => false
  end.

(** ** What a fetched book looks like *)

(** The prefixes the [if]/[elif] chain of the fetcher tests, in its order. *)
Definition label_prefixes : list str :=
  [label_author; label_translator; label_publisher; label_pubdate;
   label_producer; label_binding; label_pages].

(** A label some branch of the chain accepts. *)
Definition known_label (label : str) : bool :=
  existsb (fun p => startswith p label) label_prefixes.

(** A string [collapse_spaces] leaves as it is. *)
Definition collapsed (s : str) : Prop := collapse_spaces (Some s) = s.

(** [P] holds of the value of an optional field, if there is one. *)
Definition opt_all {A} (P : A -> Prop) (o : option A) : Prop :=
  match o with
  | Some x => P x
  | None => True
  end.

(** The fields gathered so far are normalised. *)
Definition fields_normal (f : Fields) : Prop :=
  collapsed f.(f_publisher)
  /\ opt_all (fun r => r <> [] /\ strip r = r) f.(f_pubdate_raw)
  /\ opt_all (fun p => forallb isdecimal p = true) f.(f_pages)
  /\ opt_all (fun p => p <> [] /\ collapsed p) f.(f_producer)
  /\ opt_all (fun p => p <> [] /\ collapsed p) f.(f_binding).

(** A character of a name: neither whitespace nor the separator ["/"]. *)
Definition name_char (c : char) : bool :=
  negb (isspace c) && negb (c =? slash).

(** A name as the fetcher stores it: non-empty and whitespace-collapsed. *)
Definition clean_name (n : str) : Prop := n <> [] /\ collapsed n.

(** The names gathered so far are clean. *)
Definition names_clean (f : Fields) : Prop :=
  Forall clean_name f.(f_authors) /\ Forall clean_name f.(f_translators).

(** The text [convert_pubdate] prints for a year, a month and a day. *)
Definition date_text (year month day : Z) : str :=
  zero_padded 4 year ++ [dash] ++ zero_padded 2 month ++ [dash]
  ++ zero_padded 2 day.

(** A book with every absent field bound to its empty value. *)
Definition with_defaults (b : Book) : Book :=
  mkBook (Some (or_empty b.(title))) (Some (or_empty b.(publisher)))
         (Some (or_nil b.(author))) (Some (or_nil b.(translator)))
         (Some (or_empty b.(pubdate))) (Some (or_empty b.(producer)))
         (Some (or_empty b.(binding))) (Some (or_empty b.(pages))).

(** ** Segments that give the same names *)

(** [u] begins with a character that is not whitespace. *)
Definition letter_start (u : str) : bool :=
  match u with
  | c :: _ => negb (isspace c)
  | [] => false
  end.

(** Two segments with the same words that stay so when a character is put
    in front of both. *)
Definition same_words (u v : str) : Prop :=
  words u = words v /\ letter_start u = letter_start v.

(** Two strings whose ["/"]-separated segments have the same words, one by
    one. *)
Definition same_segments (x y : str) : Prop :=
  match split slash x, split slash y with
  | u :: us, v :: vs => same_words u v /\ map words us = map words vs
  | _, _ => False
  end.

(** A segment that is kept: it has a character that is not whitespace. *)
Definition nonblank (v : str) : bool := truthy (strip v).

(** ** The shape YYYY-MM-DD *)

(** [d] is four digits, a dash, two digits, a dash and two digits. *)
Definition is_yyyy_mm_dd (d : str) : bool :=
  match d with
  | [y1; y2; y3; y4; s1; m1; m2; s2; d1; d2] =>
      is_ascii_digit y1 && is_ascii_digit y2 && is_ascii_digit y3
      && is_ascii_digit y4 && (s1 =? dash)
      && is_ascii_digit m1 && is_ascii_digit m2 && (s2 =? dash)
      && is_ascii_digit d1 && is_ascii_digit d2
  | _ => false
  end.

(** * Properties *)

(** ** Whitespace collapsing *)

Lemma lstrip_by_app1 p a c :
  lstrip_by p (a ++ [c]) =
  match lstrip_by p a with
  | [] => if p c then [] else [c]
  | r => r ++ [c]
  end.
Proof.
  induction a as [|x a IH]; simpl.
  - reflexivity.
  - destruct (p x); [exact IH | reflexivity].
Qed.

Lemma rstrip_by_cons p c s :
  rstrip_by p (c :: s) =
  match rstrip_by p s with
  | [] => if p c then [] else [c]
  | r => c :: r
  end.
Proof.
  unfold rstrip_by. simpl. rewrite lstrip_by_app1.
  destruct (lstrip_by p (rev s)) as [|y l] eqn:E; simpl.
  - destruct (p c); reflexivity.
  - rewrite rev_app_distr. simpl.
    destruct (rev l ++ [y]) eqn:E2.
    + destruct (rev l); discriminate.
    + reflexivity.
Qed.

Lemma isspace_space : isspace space = true.
Proof. reflexivity. Qed.

Lemma words_head_nonspace c t :
  isspace c = false -> exists w ws, words (c :: t) = (c :: w) :: ws.
Proof.
  intros Hc. simpl. rewrite Hc.
  destruct t as [|c' t'].
  - exists [], []. reflexivity.
  - destruct (isspace c').
    + exists [], (words (c' :: t')). reflexivity.
    + destruct (words (c' :: t')) as [|w ws].
      * exists [], []. reflexivity.
      * exists w, ws. reflexivity.
Qed.

Lemma words_is_word s : Forall is_word (words s).
Proof.
  induction s as [|c t IH]; simpl.
  - constructor.
  - destruct (isspace c) eqn:Hc; [exact IH|].
    assert (Hw1 : is_word [c]).
    { split; [discriminate | simpl; rewrite Hc; reflexivity]. }
    destruct t as [|c' t'].
    + constructor; [exact Hw1 | constructor].
    + destruct (isspace c') eqn:Hc'.
      * constructor; assumption.
      * destruct (words (c' :: t')) as [|w ws].
        -- constructor; [exact Hw1 | constructor].
        -- inversion IH as [|? ? [Hne Hall] Hrest]; subst.
           constructor; [|exact Hrest].
           split; [discriminate | simpl; rewrite Hc, Hall; reflexivity].
Qed.

Lemma join_space_nonempty w ws :
  is_word w -> join [space] (w :: ws) <> [].
Proof.
  intros [Hne _]. destruct w; [contradiction|].
  simpl. destruct ws; discriminate.
Qed.

Lemma join_cons_cons sep (p q : str) rest :
  join sep (p :: q :: rest) = p ++ sep ++ join sep (q :: rest).
Proof. reflexivity. Qed.

Lemma rstrip_sub_spaces b s :
  rstrip_by isspace (sub_spaces_from b s) =
  match words s with
  | [] => []
  | ws => (if negb b && head_is_space s then [space] else []) ++ join [space] ws
  end.
Proof.
  revert b. induction s as [|c t IH]; intros b.
  - reflexivity.
  - cbn [sub_spaces_from words head_is_space].
    destruct (isspace c) eqn:Hc.
    + destruct b.
      * rewrite IH. simpl. reflexivity.
      * rewrite rstrip_by_cons, IH. simpl negb. cbn [andb].
        destruct (words t) as [|w ws] eqn:Ew.
        -- rewrite isspace_space. reflexivity.
        -- pose proof (words_is_word t) as Hw. rewrite Ew in Hw.
           inversion Hw; subst.
           cbn [app].
           destruct (join [space] (w :: ws)) eqn:Ej.
           ++ exfalso. eapply join_space_nonempty; eauto.
           ++ reflexivity.
    + rewrite rstrip_by_cons, IH. rewrite andb_false_r. cbn [app].
      destruct t as [|c' t'].
      * simpl. rewrite Hc. reflexivity.
      * cbn [head_is_space]. destruct (isspace c') eqn:Hc'.
        -- rewrite andb_true_r. cbn [negb].
           assert (Hwt : words (c' :: t') = words t') by (simpl; rewrite Hc'; reflexivity).
           destruct (words (c' :: t')) as [|w ws] eqn:Ew.
           ++ rewrite Hc. reflexivity.
           ++ cbn [app]. rewrite join_cons_cons. reflexivity.
        -- rewrite andb_false_r. cbn [app].
           destruct (words_head_nonspace c' t' Hc') as [w [ws Ew]].
           rewrite Ew.
           destruct ws; reflexivity.
Qed.

Lemma lstrip_sub_spaces b s :
  lstrip_by isspace (sub_spaces_from b s) =
  sub_spaces_from false (lstrip_by isspace s).
Proof.
  revert b. induction s as [|c t IH]; intros b; simpl.
  - reflexivity.
  - destruct (isspace c) eqn:Hc.
    + destruct b; simpl; [apply IH|]. apply IH.
    + simpl. rewrite Hc. reflexivity.
Qed.

Lemma words_lstrip s : words (lstrip_by isspace s) = words s.
Proof.
  induction s as [|c t IH]; simpl.
  - reflexivity.
  - destruct (isspace c) eqn:Hc; [exact IH|].
    simpl. rewrite Hc. reflexivity.
Qed.

Lemma head_is_space_lstrip s : head_is_space (lstrip_by isspace s) = false.
Proof.
  induction s as [|c t IH]; simpl.
  - reflexivity.
  - destruct (isspace c) eqn:Hc; [exact IH|]. simpl. exact Hc.
Qed.

Lemma strip_sub_spaces s :
  strip (sub_spaces s) = join [space] (words s).
Proof.
  unfold strip, sub_spaces. rewrite lstrip_sub_spaces, rstrip_sub_spaces.
  rewrite head_is_space_lstrip, words_lstrip, andb_false_r.
  destruct (words s); reflexivity.
Qed.

Lemma collapse_spaces_words s :
  collapse_spaces (Some s) = join [space] (words s).
Proof.
  destruct s as [|c t]; [reflexivity|].
  unfold collapse_spaces. cbn [truthy_opt truthy negb].
  apply strip_sub_spaces.
Qed.

Lemma words_word_app w rest :
  is_word w ->
  words (w ++ space :: rest) = w :: words rest.
Proof.
  intros [Hne Hall]. induction w as [|c w IH]; [contradiction|].
  simpl in Hall. apply andb_prop in Hall. destruct Hall as [Hc Hall].
  apply negb_true_iff in Hc.
  cbn [app words]. rewrite Hc.
  destruct w as [|c' w'].
  - cbn [app]. rewrite isspace_space. reflexivity.
  - cbn [app]. pose proof Hall as Hall'. simpl in Hall'. apply andb_prop in Hall'.
    destruct Hall' as [Hc' _]. apply negb_true_iff in Hc'. rewrite Hc'.
    change (c' :: w' ++ space :: rest) with ((c' :: w') ++ space :: rest).
    rewrite IH; [reflexivity | discriminate | exact Hall].
Qed.

Lemma words_word w : is_word w -> words w = [w].
Proof.
  intros [Hne Hall]. induction w as [|c w IH]; [contradiction|].
  simpl in Hall. apply andb_prop in Hall. destruct Hall as [Hc Hall].
  apply negb_true_iff in Hc.
  cbn [words]. rewrite Hc.
  destruct w as [|c' w'].
  - reflexivity.
  - pose proof Hall as Hall'. simpl in Hall'. apply andb_prop in Hall'.
    destruct Hall' as [Hc' _]. apply negb_true_iff in Hc'. rewrite Hc'.
    rewrite IH; [reflexivity | discriminate | exact Hall].
Qed.

Lemma words_join ws :
  Forall is_word ws -> words (join [space] ws) = ws.
Proof.
  induction ws as [|w ws IH]; intros H.
  - reflexivity.
  - inversion H as [|? ? Hw Hws]; subst.
    destruct ws as [|w' ws'].
    + simpl. apply words_word. exact Hw.
    + rewrite join_cons_cons. cbn [app].
      rewrite words_word_app by exact Hw.
      rewrite IH by exact Hws. reflexivity.
Qed.

Lemma collapse_spaces_idempotent_str s :
  collapse_spaces (Some (collapse_spaces (Some s))) = collapse_spaces (Some s).
Proof.
  rewrite !collapse_spaces_words.
  rewrite words_join by apply words_is_word. reflexivity.
Qed.

Lemma concat_words s :
  concat (words s) = filter (fun c => negb (isspace c)) s.
Proof.
  induction s as [|c t IH]; simpl.
  - reflexivity.
  - destruct (isspace c) eqn:Hc; simpl; [exact IH|].
    destruct t as [|c' t'].
    + reflexivity.
    + destruct (isspace c') eqn:Hc'.
      * cbn [concat app]. f_equal. exact IH.
      * destruct (words_head_nonspace c' t' Hc') as [w [ws Ew]].
        rewrite Ew in *. cbn [concat app] in *. f_equal. exact IH.
Qed.

(** C7: [collapse_spaces] is idempotent; its result is the words of the input
    (the maximal runs of non-whitespace characters, unchanged and in order)
    joined by single spaces, hence every run of whitespace is collapsed to
    one space and leading and trailing whitespace is removed; absent and
    empty input give the empty string. *)
Theorem collapse_spaces_spec (text : option str) :
  collapse_spaces (Some (collapse_spaces text)) = collapse_spaces text
  /\ collapse_spaces text = join [space] (words (or_empty text))
  /\ Forall is_word (words (or_empty text))
  /\ concat (words (or_empty text))
     = filter (fun c => negb (isspace c)) (or_empty text)
  /\ collapse_spaces None = []
  /\ collapse_spaces (Some []) = [].
Proof.
  assert (E : collapse_spaces text = collapse_spaces (Some (or_empty text))).
  { destruct text as [[|c t]|]; reflexivity. }
  repeat split.
  - rewrite E. apply collapse_spaces_idempotent_str.
  - rewrite E. apply collapse_spaces_words.
  - apply words_is_word.
  - apply concat_words.
Qed.

(** ** Author and translator names *)

Lemma lstrip_by_all p s : forallb p s = true -> lstrip_by p s = [].
Proof.
  induction s as [|c t IH]; simpl; intros H.
  - reflexivity.
  - apply andb_prop in H. destruct H as [Hc Ht]. rewrite Hc. auto.
Qed.

Lemma words_nil_all_space s : words s = [] -> forallb isspace s = true.
Proof.
  induction s as [|c t IH]; intros H.
  - reflexivity.
  - simpl. destruct (isspace c) eqn:Hc.
    + simpl in H. rewrite Hc in H. auto.
    + destruct (words_head_nonspace c t Hc) as [w [ws E]].
      rewrite E in H. discriminate.
Qed.

Lemma strip_truthy_words s : truthy (strip s) = true -> words s <> [].
Proof.
  intros H E. apply words_nil_all_space in E.
  unfold strip in H. rewrite (lstrip_by_all _ _ E) in H. discriminate.
Qed.

Lemma collapse_spaces_nonempty s :
  words s <> [] -> collapse_spaces (Some s) <> [].
Proof.
  intros H. rewrite collapse_spaces_words.
  pose proof (words_is_word s) as Hw.
  destruct (words s) as [|w ws]; [contradiction|].
  inversion Hw; subst. apply join_space_nonempty. assumption.
Qed.

Lemma in_split_names n raw :
  In n (split_names raw) ->
  exists v, n = collapse_spaces (Some v) /\ truthy (strip v) = true.
Proof.
  unfold split_names. intros H. apply in_map_iff in H.
  destruct H as [v [Hv Hin]]. apply filter_In in Hin.
  exists v. split; [symmetry; exact Hv | apply Hin].
Qed.

Lemma split_names_nonempty raw :
  Forall (fun n => n <> []) (split_names raw).
Proof.
  apply Forall_forall. intros n Hin.
  destruct (in_split_names _ _ Hin) as [v [-> Hv]].
  apply collapse_spaces_nonempty, strip_truthy_words, Hv.
Qed.

Lemma split_names_collapsed raw :
  Forall (fun n => collapse_spaces (Some n) = n) (split_names raw).
Proof.
  apply Forall_forall. intros n Hin.
  destruct (in_split_names _ _ Hin) as [v [-> _]].
  apply collapse_spaces_idempotent_str.
Qed.

Lemma startswith_slash_in s :
  startswith (lit " / ") s = true -> In slash s.
Proof.
  destruct s as [|a [|b t]]; cbn [lit startswith list_ascii_of_string map];
    intros H; try discriminate H.
  - apply andb_prop in H. destruct H as [_ H]. discriminate H.
  - apply andb_prop in H. destruct H as [_ H].
    apply andb_prop in H. destruct H as [Hb _].
    apply N.eqb_eq in Hb. right. left. exact Hb.
Qed.

Lemma replace_no_slash s :
  ~ In slash s -> replace (lit " / ") (lit "/") s = s.
Proof.
  unfold replace. induction s as [|c t IH]; intros H.
  - reflexivity.
  - cbn [replace_from].
    destruct (startswith (lit " / ") (c :: t)) eqn:E.
    + exfalso. apply H, startswith_slash_in, E.
    + f_equal. apply IH. intros Hin. apply H. right. exact Hin.
Qed.

Lemma split_no_sep sep s : ~ In sep s -> split sep s = [s].
Proof.
  induction s as [|c t IH]; intros H.
  - reflexivity.
  - simpl. destruct (N.eqb_spec c sep) as [->|Hne].
    + exfalso. apply H. left. reflexivity.
    + rewrite IH; [reflexivity|]. intros Hin. apply H. right. exact Hin.
Qed.

Lemma split_names_single raw :
  ~ In slash raw -> truthy (strip raw) = true ->
  split_names raw = [collapse_spaces (Some raw)].
Proof.
  intros Hs Ht. unfold split_names.
  rewrite replace_no_slash by exact Hs.
  rewrite split_no_sep by exact Hs.
  simpl. rewrite Ht. reflexivity.
Qed.

Lemma lstrip_by_head p c t : p c = false -> lstrip_by p (c :: t) = c :: t.
Proof. intros H. simpl. rewrite H. reflexivity. Qed.

Lemma lstrip_by_head_false p s :
  match lstrip_by p s with
  | [] => True
  | c :: _ => p c = false
  end.
Proof.
  induction s as [|c t IH]; simpl; [exact I|].
  destruct (p c) eqn:E; [exact IH | exact E].
Qed.

Lemma lstrip_by_idempotent p s : lstrip_by p (lstrip_by p s) = lstrip_by p s.
Proof.
  pose proof (lstrip_by_head_false p s) as H.
  destruct (lstrip_by p s) as [|c t]; [reflexivity|].
  apply lstrip_by_head. exact H.
Qed.

Lemma rstrip_by_idempotent p s : rstrip_by p (rstrip_by p s) = rstrip_by p s.
Proof.
  unfold rstrip_by. rewrite rev_involutive, lstrip_by_idempotent. reflexivity.
Qed.

Lemma lstrip_rstrip_head p s :
  match s with [] => True | c :: _ => p c = false end ->
  lstrip_by p (rstrip_by p s) = rstrip_by p s.
Proof.
  destruct s as [|c t]; intros H; [reflexivity|].
  rewrite rstrip_by_cons. rewrite H.
  destruct (rstrip_by p t); apply lstrip_by_head; exact H.
Qed.

Lemma strip_idempotent s : strip (strip s) = strip s.
Proof.
  unfold strip.
  rewrite (lstrip_rstrip_head isspace (lstrip_by isspace s))
    by apply lstrip_by_head_false.
  apply rstrip_by_idempotent.
Qed.

Lemma raw_value_of_stripped span :
  strip (raw_value_of span) = raw_value_of span.
Proof. unfold raw_value_of. apply strip_idempotent. Qed.

Lemma route_authors label raw_value f :
  startswith label_author label = true ->
  f_authors (route label raw_value f) = split_names raw_value.
Proof. intros H. unfold route. rewrite H. reflexivity. Qed.

Lemma route_translators label raw_value f :
  startswith label_translator label = true ->
  f_translators (route label raw_value f) = split_names raw_value.
Proof.
  intros H. unfold route.
  destruct (startswith label_author label) eqn:Ha.
  - destruct label as [|c t]; [discriminate|].
    simpl in H, Ha. apply andb_prop in H. apply andb_prop in Ha.
    destruct H as [H _]. destruct Ha as [Ha _].
    apply N.eqb_eq in H. apply N.eqb_eq in Ha. rewrite H in Ha. discriminate.
  - rewrite H. reflexivity.
Qed.

Lemma process_label_single_author f span :
  startswith label_author (rstrip_chars colons span.(label_text)) = true ->
  raw_value_of span <> [] ->
  ~ In slash (raw_value_of span) ->
  f_authors (process_label f span)
  = [collapse_spaces (Some (raw_value_of span))].
Proof.
  intros Hl Hne Hs. unfold process_label.
  destruct (raw_value_of span) as [|c t] eqn:E; [contradiction|].
  cbn [truthy negb]. unfold route. rewrite Hl. cbn [f_authors].
  apply split_names_single; [exact Hs|].
  rewrite <- E, raw_value_of_stripped, E. reflexivity.
Qed.

Lemma process_label_single_translator f span :
  startswith label_translator (rstrip_chars colons span.(label_text)) = true ->
  raw_value_of span <> [] ->
  ~ In slash (raw_value_of span) ->
  f_translators (process_label f span)
  = [collapse_spaces (Some (raw_value_of span))].
Proof.
  intros Hl Hne Hs. unfold process_label.
  destruct (raw_value_of span) as [|c t] eqn:E; [contradiction|].
  cbn [truthy negb].
  rewrite (route_translators _ (c :: t) f Hl).
  apply split_names_single; [exact Hs|].
  rewrite <- E, raw_value_of_stripped, E. reflexivity.
Qed.

Lemma route_names_nonempty label raw_value f :
  names_nonempty f -> names_nonempty (route label raw_value f).
Proof.
  intros [Ha Ht]. unfold route.
  repeat match goal with
         | |- context [if ?b then _ else _] => destruct b
         end;
    split; simpl; auto using split_names_nonempty.
Qed.

Lemma process_label_names_nonempty f span :
  names_nonempty f -> names_nonempty (process_label f span).
Proof.
  intros H. unfold process_label.
  destruct (negb (truthy (raw_value_of span))); [exact H|].
  apply route_names_nonempty, H.
Qed.

Lemma fold_process_label_names_nonempty labels f :
  names_nonempty f -> names_nonempty (fold_left process_label labels f).
Proof.
  revert f. induction labels as [|span rest IH]; intros f H; simpl.
  - exact H.
  - apply IH, process_label_names_nonempty, H.
Qed.

Lemma book_of_response_fields w url resp b :
  book_of_response w url resp = Ok b ->
  exists title_text labels,
    resp.(status_code) = 200%Z
    /\ (BeautifulSoup w resp.(text)).(title_tag) = Some title_text
    /\ (BeautifulSoup w resp.(text)).(info_div) = Some labels
    /\ b = let f := fold_left process_label labels initial_fields in
           mkBook (Some (collapse_spaces (Some title_text)))
                  (Some f.(f_publisher)) (Some f.(f_authors))
                  (Some f.(f_translators)) f.(f_pubdate_raw) f.(f_producer)
                  f.(f_binding) f.(f_pages).
Proof.
  unfold book_of_response. intros H.
  destruct (status_code resp =? 404)%Z; [discriminate|].
  destruct (status_code resp =? 200)%Z eqn:E200; [|discriminate].
  simpl in H.
  destruct (title_tag (BeautifulSoup w (text resp))) as [title_text|];
    [|discriminate].
  destruct (info_div (BeautifulSoup w (text resp))) as [labels|];
    [|discriminate].
  exists title_text, labels. apply Z.eqb_eq in E200.
  inversion H. auto.
Qed.

Lemma fetch_book_inv w isbn tr b tr' :
  fetch_book_from_douban w isbn tr = (Ok b, tr') ->
  exists resp,
    requests_get w (douban_url isbn) = Ok resp
    /\ book_of_response w (douban_url isbn) resp = Ok b
    /\ tr' = tr ++ [Get (douban_url isbn) douban_headers 10].
Proof.
  unfold fetch_book_from_douban, io_bind, io_except, get, io_lift, io_raise.
  destruct (requests_get w (douban_url isbn)) as [resp|e] eqn:Eg.
  - intros H. exists resp. inversion H. auto.
  - destruct (is_RequestException e); discriminate.
Qed.

(** C10: every name of an authors or translators sequence is a non-empty
    string, for every raw value and in every book the fetcher returns; the
    empty and blank segments of ["A//B"] and ["A/"] are dropped. *)
Theorem split_names_no_empty_name :
  (forall raw_value, Forall (fun n => n <> []) (split_names raw_value))
  /\ (forall w isbn tr b tr' names,
         fetch_book_from_douban w isbn tr = (Ok b, tr') ->
         b.(author) = Some names \/ b.(translator) = Some names ->
         Forall (fun n => n <> []) names)
  /\ split_names (lit "A//B") = [lit "A"; lit "B"]
  /\ split_names (lit "A/") = [lit "A"].
Proof.
  split; [|split; [|split]].
  - apply split_names_nonempty.
  - intros w isbn tr b tr' names Hf Hn.
    destruct (fetch_book_inv _ _ _ _ _ Hf) as [resp [_ [Hb _]]].
    destruct (book_of_response_fields _ _ _ _ Hb)
      as [title_text [labels [_ [_ [_ ->]]]]].
    assert (Hinv : names_nonempty (fold_left process_label labels initial_fields)).
    { apply fold_process_label_names_nonempty. split; constructor. }
    destruct Hinv as [Ha Ht].
    simpl in Hn. destruct Hn as [Hn|Hn]; inversion Hn; subst; assumption.
  - vm_compute. reflexivity.
  - vm_compute. reflexivity.
Qed.

Lemma split_names_no_empty_name_witness :
  Forall (fun n => n <> []) [lit "A"; lit "B"].
Proof.
  apply (proj1 (proj2 split_names_no_empty_name)
           (sample_world (Ok (page_response 200)) (timeouts_then_created 0))
           sample_isbn [] sample_book
           [Get (douban_url sample_isbn) douban_headers 10]).
  - vm_compute. reflexivity.
  - left. reflexivity.
Defined.

(** ** Parsing and printing integers *)

Lemma py_int_raises s e : py_int s = Raise e -> e = ValueError.
Proof.
  unfold py_int.
  destruct (match lstrip_by is_ascii_space (map to_ascii_decimal s) with
            | [] => (false, lstrip_by is_ascii_space (map to_ascii_decimal s))
            | c :: t => _
            end) as [negative body].
  destruct body as [|c t]; [intros H; inversion H; reflexivity|].
  destruct (c =? underscore); [intros H; inversion H; reflexivity|].
  destruct (scan_digits false (c :: t)) as [[[|d ds] rest]|];
    try (intros H; inversion H; reflexivity).
  destruct (Nat.ltb _ _); [intros H; inversion H; reflexivity|].
  destruct (lstrip_by is_ascii_space rest); intros H; inversion H; reflexivity.
Qed.

Lemma scan_digits_small s : forall b ds rest,
  scan_digits b s = Some (ds, rest) -> Forall (fun d => d <= 9) ds.
Proof.
  induction s as [|c t IH]; intros b ds rest H; simpl in H.
  - destruct b; inversion H. constructor.
  - destruct (is_ascii_digit c) eqn:Hd.
    + destruct (scan_digits false t) as [[ds' rest']|] eqn:E; [|discriminate].
      inversion H; subst. constructor; [|eapply IH; eauto].
      unfold is_ascii_digit in Hd. apply andb_prop in Hd.
      destruct Hd as [H1 H2]. apply N.leb_le in H1, H2. lia.
    + destruct (c =? underscore).
      * destruct b; [discriminate|]. eapply IH; eauto.
      * destruct b; inversion H. constructor.
Qed.

Lemma digits_value_from_bound ds : forall acc,
  Forall (fun d => d <= 9) ds ->
  fold_left (fun a d => 10 * a + d) ds acc + 1
  <= (acc + 1) * 10 ^ N.of_nat (length ds).
Proof.
  induction ds as [|d ds IH]; intros acc H.
  - simpl. lia.
  - inversion H as [|? ? Hd Hds]; subst.
    cbn [fold_left length]. rewrite Nat2N.inj_succ, N.pow_succ_r'.
    specialize (IH (10 * acc + d) Hds).
    assert (0 < 10 ^ N.of_nat (length ds)).
    { apply N.neq_0_lt_0, N.pow_nonzero. discriminate. }
    nia.
Qed.

Lemma digits_value_lt ds :
  Forall (fun d => d <= 9) ds ->
  digits_value ds < 10 ^ N.of_nat (length ds).
Proof.
  intros H. pose proof (digits_value_from_bound ds 0 H) as B.
  unfold digits_value. lia.
Qed.

Lemma to_digits_aux_length fuel : forall n acc k,
  (1 <= k)%nat -> n < 10 ^ N.of_nat k ->
  (length (to_digits_aux fuel n acc) <= length acc + k)%nat.
Proof.
  induction fuel as [|f IH]; intros n acc k Hk Hn; simpl.
  - lia.
  - destruct (N.ltb_spec n 10) as [Hlt|Hge].
    + simpl. lia.
    + destruct k as [|[|k']].
      { lia. }
      { change (10 ^ N.of_nat 1) with 10 in Hn. lia. }
      specialize (IH (n / 10) ((48 + n mod 10) :: acc) (S k')).
      simpl length in IH.
      assert (Hdiv : n / 10 < 10 ^ N.of_nat (S k')).
      { apply N.Div0.div_lt_upper_bound.
        rewrite <- N.pow_succ_r', <- Nat2N.inj_succ. exact Hn. }
      specialize (IH ltac:(lia) Hdiv). lia.
Qed.

Lemma to_digits_length n k :
  (1 <= k)%nat -> n < 10 ^ N.of_nat k -> (length (to_digits n) <= k)%nat.
Proof.
  intros Hk Hn. unfold to_digits.
  exact (to_digits_aux_length (S (N.to_nat (N.log2 n))) n [] k Hk Hn).
Qed.

Lemma digits_value_from ds : forall acc,
  fold_left (fun a d => 10 * a + d) ds acc
  = acc * 10 ^ N.of_nat (length ds) + digits_value ds.
Proof.
  unfold digits_value.
  induction ds as [|d ds IH]; intros acc.
  - simpl. lia.
  - cbn [fold_left length]. rewrite IH, (IH (10 * 0 + d)).
    rewrite Nat2N.inj_succ, N.pow_succ_r'. lia.
Qed.

Lemma digits_value_cons d ds :
  digits_value (d :: ds) = d * 10 ^ N.of_nat (length ds) + digits_value ds.
Proof.
  unfold digits_value at 1. cbn [fold_left]. rewrite digits_value_from. lia.
Qed.

(** The characters of [to_digits n] are ASCII digits and write [n] in base
    ten: the fuel of [to_digits] is enough. *)
Lemma to_digits_aux_value fuel : forall n acc,
  n < 2 ^ N.of_nat fuel ->
  Forall (fun c => is_ascii_digit c = true) acc ->
  Forall (fun c => is_ascii_digit c = true) (to_digits_aux fuel n acc)
  /\ digits_value (map (fun c => c - 0x30) (to_digits_aux fuel n acc))
     = n * 10 ^ N.of_nat (length acc)
       + digits_value (map (fun c => c - 0x30) acc).
Proof.
  induction fuel as [|f IH]; intros n acc Hn Hacc.
  - change (2 ^ N.of_nat 0) with 1 in Hn. assert (n = 0) by lia. subst n.
    simpl. split; [exact Hacc | lia].
  - cbn [to_digits_aux]. destruct (N.ltb_spec n 10) as [Hlt|Hge].
    + split.
      * constructor; [|exact Hacc]. unfold is_ascii_digit.
        apply andb_true_intro. split; [apply N.leb_le | apply N.leb_le]; lia.
      * cbn [map]. rewrite digits_value_cons, length_map.
        replace (48 + n - 48) with n by lia. reflexivity.
    + pose proof (N.Div0.div_mod n 10) as Hdm.
      pose proof (N.mod_lt n 10 ltac:(discriminate)) as Hm.
      assert (Hn' : n / 10 < 2 ^ N.of_nat f).
      { rewrite Nat2N.inj_succ, N.pow_succ_r' in Hn.
        apply N.Div0.div_lt_upper_bound. clear - Hn. lia. }
      set (q := n / 10) in *. set (r := n mod 10) in *.
      clearbody q r.
      assert (Hacc' : Forall (fun c => is_ascii_digit c = true)
                             ((48 + r) :: acc)).
      { constructor; [|exact Hacc]. unfold is_ascii_digit.
        apply andb_true_intro. split; apply N.leb_le; lia. }
      destruct (IH q ((48 + r) :: acc) Hn' Hacc') as [F V].
      split; [exact F|]. rewrite V. cbn [map length].
      rewrite digits_value_cons, length_map.
      replace (48 + r - 48) with r by lia.
      rewrite Nat2N.inj_succ, N.pow_succ_r'. rewrite Hdm. unfold char in *.
      generalize (10 ^ N.of_nat (length acc)).
      generalize (digits_value (map (fun c : N => c - 48) acc)).
      intros v p. lia.
Qed.

Lemma to_digits_value n :
  Forall (fun c => is_ascii_digit c = true) (to_digits n)
  /\ digits_value (map (fun c => c - 0x30) (to_digits n)) = n.
Proof.
  assert (Hn : n < 2 ^ N.of_nat (S (N.to_nat (N.log2 n)))).
  { rewrite Nat2N.inj_succ, N2Nat.id.
    destruct n as [|p]; [reflexivity|].
    apply N.log2_spec. reflexivity. }
  destruct (to_digits_aux_value _ n [] Hn (Forall_nil _)) as [F V].
  split; [exact F|]. unfold to_digits. rewrite V.
  change (10 ^ N.of_nat (length (@nil char))) with 1.
  change (digits_value (map (fun c => c - 0x30) [])) with 0. lia.
Qed.

Lemma py_int_within_cap s z :
  py_int s = Ok z ->
  (length (to_digits (Z.abs_N z)) <= int_max_str_digits)%nat.
Proof.
  unfold py_int.
  destruct (match lstrip_by is_ascii_space (map to_ascii_decimal s) with
            | [] => (false, lstrip_by is_ascii_space (map to_ascii_decimal s))
            | c :: t => _
            end) as [negative body].
  destruct body as [|c t]; [discriminate|].
  destruct (c =? underscore); [discriminate|].
  destruct (scan_digits false (c :: t)) as [[[|d ds] rest]|] eqn:Es;
    try discriminate.
  destruct (Nat.ltb_spec int_max_str_digits (length (d :: ds))) as [|Hlen];
    [discriminate|].
  destruct (lstrip_by is_ascii_space rest); [|discriminate].
  intros H. inversion H as [Hz]. clear H Hz.
  pose proof (digits_value_lt _ (scan_digits_small _ _ _ _ Es)) as Hv.
  assert (E : Z.abs_N (if negative
                       then (- Z.of_N (digits_value (d :: ds)))%Z
                       else Z.of_N (digits_value (d :: ds)))
              = digits_value (d :: ds)).
  { destruct negative; [rewrite Zabs2N.inj_opp|]; apply Zabs2N.id. }
  rewrite E.
  etransitivity; [apply (to_digits_length _ (length (d :: ds))) | exact Hlen].
  - simpl. lia.
  - exact Hv.
Qed.

Lemma format_0d_ok width z :
  (length (to_digits (Z.abs_N z)) <= int_max_str_digits)%nat ->
  format_0d width z = Ok (zero_padded width z).
Proof.
  intros H. unfold format_0d.
  destruct (Nat.ltb_spec int_max_str_digits (length (to_digits (Z.abs_N z))));
    [lia | reflexivity].
Qed.

Lemma small_within_cap z :
  (1 <= z <= 31)%Z -> (length (to_digits (Z.abs_N z)) <= 2)%nat.
Proof.
  intros H. apply to_digits_length; [lia|].
  change (10 ^ N.of_nat 2) with 100. lia.
Qed.

Lemma format_0d_small width z :
  (1 <= z <= 31)%Z -> format_0d width z = Ok (zero_padded width z).
Proof.
  intros H. apply format_0d_ok.
  pose proof (small_within_cap z H) as L. unfold int_max_str_digits.
  unfold char in *. lia.
Qed.

Lemma zero_padded_small_length z :
  (1 <= z <= 31)%Z -> length (zero_padded 2 z) = 2%nat.
Proof.
  intros H. pose proof (small_within_cap z H) as L.
  unfold zero_padded. destruct (Z.ltb_spec z 0); [lia|].
  rewrite !length_app, repeat_length. cbn [length]. unfold char in *. lia.
Qed.

Lemma zero_padded_min_length width z :
  (width <= length (zero_padded width z))%nat.
Proof.
  unfold zero_padded. rewrite !length_app, repeat_length.
  unfold char. lia.
Qed.

(** ** Date conversion *)

Lemma split_nonempty sep s : exists p ps, split sep s = p :: ps.
Proof.
  induction s as [|c t [p [ps IH]]]; simpl.
  - eauto.
  - destruct (c =? sep); [eauto|]. rewrite IH. eauto.
Qed.

Lemma parse_or_default p :
  except_ValueError (py_int p) (Ok 1%Z) = Ok (int_or 1 p).
Proof.
  unfold int_or. destruct (py_int p) as [z|e] eqn:E; [reflexivity|].
  rewrite (py_int_raises _ _ E). reflexivity.
Qed.

Lemma spec_month_range parts : (1 <= spec_month parts <= 12)%Z.
Proof. unfold spec_month. lia. Qed.

Lemma spec_day_range parts : (1 <= spec_day parts <= 31)%Z.
Proof. unfold spec_day. lia. Qed.

Lemma convert_pubdate_unparseable rp e :
  py_int (hd [] (split dash (strip rp))) = Raise e ->
  convert_pubdate (Some rp) = Ok None.
Proof.
  intros H. unfold convert_pubdate.
  destruct rp as [|c t]; [reflexivity|].
  cbn [truthy_opt truthy negb].
  destruct (split_nonempty dash (strip (c :: t))) as [p0 [ps E]].
  rewrite E in *. cbn [getitem nth_error rbind hd] in *.
  rewrite H. rewrite (py_int_raises _ _ H). reflexivity.
Qed.

Lemma convert_pubdate_parseable (rp : str) (year : Z) :
  rp <> [] ->
  py_int (hd [] (split dash (strip rp))) = Ok year ->
  convert_pubdate (Some rp) =
  Ok (Some (zero_padded 4 year ++ [dash]
            ++ zero_padded 2 (spec_month (split dash (strip rp))) ++ [dash]
            ++ zero_padded 2 (spec_day (split dash (strip rp))))).
Proof.
  intros Hne H. unfold convert_pubdate.
  destruct rp as [|c t]; [contradiction|].
  cbn [truthy_opt truthy negb].
  pose proof (spec_month_range (split dash (strip (c :: t)))) as Hm.
  pose proof (spec_day_range (split dash (strip (c :: t)))) as Hd.
  destruct (split_nonempty dash (strip (c :: t))) as [p0 [ps E]].
  rewrite E in *. cbn [getitem nth_error rbind hd] in *.
  rewrite H.
  assert (Em : (if Nat.leb 2 (length (p0 :: ps))
                then except_ValueError
                       (rbind (getitem (p0 :: ps) 1) (fun p1 => py_int p1))
                       (Ok 1%Z)
                else Ok 1%Z)
               = Ok (match p0 :: ps with
                     | _ :: p1 :: _ => int_or 1 p1
                     | _ => 1%Z
                     end)).
  { destruct ps as [|p1 r]; [reflexivity|].
    cbn [length Nat.leb getitem nth_error rbind]. apply parse_or_default. }
  assert (Ed : (if Nat.eqb (length (p0 :: ps)) 3
                then except_ValueError
                       (rbind (getitem (p0 :: ps) 2) (fun p2 => py_int p2))
                       (Ok 1%Z)
                else Ok 1%Z)
               = Ok (match p0 :: ps with
                     | [_; _; p2] => int_or 1 p2
                     | _ => 1%Z
                     end)).
  { destruct ps as [|p1 [|p2 [|p3 r]]]; try reflexivity.
    cbn [length Nat.eqb getitem nth_error rbind]. apply parse_or_default. }
  rewrite Em, Ed. cbn [rbind].
  rewrite (format_0d_ok 4 year (py_int_within_cap _ _ H)).
  cbn [rbind].
  fold (spec_month (p0 :: ps)). fold (spec_day (p0 :: ps)).
  rewrite (format_0d_small 2 (spec_month (p0 :: ps))) by lia.
  rewrite (format_0d_small 2 (spec_day (p0 :: ps))) by lia.
  reflexivity.
Qed.

Lemma digits_value_zeros k ds :
  digits_value (repeat 0 k ++ ds) = digits_value ds.
Proof.
  unfold digits_value. induction k as [|k IH]; [reflexivity|].
  cbn [repeat app fold_left]. exact IH.
Qed.

Lemma zero_padded_reads_as width z :
  (0 <= z)%Z -> reads_as (zero_padded width z) z.
Proof.
  intros Hz. unfold reads_as, zero_padded.
  destruct (Z.ltb_spec z 0) as [|_]; [lia|]. cbn [app length].
  destruct (to_digits_value (Z.abs_N z)) as [F V].
  split.
  - apply Forall_app. split; [|exact F].
    apply Forall_forall. intros c Hc. apply repeat_spec in Hc. subst c.
    reflexivity.
  - rewrite map_app, map_repeat.
    change (48 - 48) with 0. rewrite digits_value_zeros, V.
    rewrite N2Z.inj_abs_N. lia.
Qed.

Lemma to_ascii_decimal_not_dash c : c <> dash -> to_ascii_decimal c <> dash.
Proof.
  intros H. unfold to_ascii_decimal, dash, space in *.
  destruct (N.ltb_spec c 127); [exact H|].
  destruct (isspace c); [discriminate|].
  destruct (decimal_value c); [lia | discriminate].
Qed.

Lemma in_lstrip_by p c s : In c (lstrip_by p s) -> In c s.
Proof.
  induction s as [|x t IH]; simpl; [auto|].
  destruct (p x); [right; auto | auto].
Qed.

Lemma py_int_nonneg s z : ~ In dash s -> py_int s = Ok z -> (0 <= z)%Z.
Proof.
  intros Hs. unfold py_int.
  assert (Hb : ~ In dash (lstrip_by is_ascii_space (map to_ascii_decimal s))).
  { intros Hin. apply in_lstrip_by in Hin. apply in_map_iff in Hin.
    destruct Hin as [c [Hc Hin]].
    destruct (N.eq_dec c dash) as [->|Hne]; [contradiction|].
    exact (to_ascii_decimal_not_dash c Hne Hc). }
  destruct (lstrip_by is_ascii_space (map to_ascii_decimal s)) as [|c t];
    [discriminate|].
  assert (Hc : (c =? 0x2D) = false).
  { apply N.eqb_neq. intros ->. apply Hb. left. reflexivity. }
  rewrite Hc.
  destruct (c =? 0x2B).
  - destruct t as [|c' t']; [discriminate|].
    destruct (c' =? underscore); [discriminate|].
    destruct (scan_digits false (c' :: t')) as [[[|d ds] rest]|];
      try discriminate.
    destruct (Nat.ltb _ _); [discriminate|].
    destruct (lstrip_by is_ascii_space rest); [|discriminate].
    intros H. inversion H. lia.
  - destruct (c =? underscore); [discriminate|].
    destruct (scan_digits false (c :: t)) as [[[|d ds] rest]|];
      try discriminate.
    destruct (Nat.ltb _ _); [discriminate|].
    destruct (lstrip_by is_ascii_space rest); [|discriminate].
    intros H. inversion H. lia.
Qed.

Lemma split_no_sep_in sep s : Forall (fun p => ~ In sep p) (split sep s).
Proof.
  induction s as [|c t IH]; simpl.
  - constructor; [intros [] | constructor].
  - destruct (N.eqb_spec c sep) as [->|Hne].
    + constructor; [intros [] | exact IH].
    + destruct (split sep t) as [|w ws].
      * constructor; [|constructor]. intros [H|[]]. contradiction.
      * inversion IH; subst. constructor; [|assumption].
        intros [H|H]; [contradiction | auto].
Qed.

Lemma year_nonneg (rp : str) year :
  py_int (hd [] (split dash (strip rp))) = Ok year -> (0 <= year)%Z.
Proof.
  pose proof (split_no_sep_in dash (strip rp)) as F.
  destruct (split_nonempty dash (strip rp)) as [p0 [ps E]].
  rewrite E in *. inversion F; subst. cbn [hd].
  apply py_int_nonneg. assumption.
Qed.

(** The claim of C1 fails on the code: the day of a three-segment date is
    kept. *)
Lemma convert_pubdate_keeps_day :
  split dash (strip (lit "2018-8-15")) = [lit "2018"; lit "8"; lit "15"]
  /\ py_int (lit "2018") = Ok 2018%Z
  /\ convert_pubdate (Some (lit "2018-8-15")) = Ok (Some (lit "2018-08-15"))
  /\ convert_pubdate (Some (lit "2018-8-15")) <> Ok (Some (lit "2018-08-01")).
Proof.
  repeat split; try (vm_compute; reflexivity).
  vm_compute. discriminate.
Qed.

(** C1, amended: for every input with exactly three segments whose first
    segment parses as the year, the day of the result is the parsed third
    segment (1 when unparseable) clamped into [1,31], and the month is the
    parsed second segment (1 when unparseable) clamped into [1,12]; a day
    between 1 and 31 is written as it is, so ["2018-8-15"] gives
    ["2018-08-15"]. *)
Theorem convert_pubdate_three_segments (rp p0 p1 p2 : str) (year : Z) :
  rp <> [] ->
  split dash (strip rp) = [p0; p1; p2] ->
  py_int p0 = Ok year ->
  convert_pubdate (Some rp) =
  Ok (Some (zero_padded 4 year ++ [dash]
            ++ zero_padded 2 (Z.max 1 (Z.min (int_or 1 p1) 12)) ++ [dash]
            ++ zero_padded 2 (Z.max 1 (Z.min (int_or 1 p2) 31))))
  /\ (forall day, py_int p2 = Ok day -> (1 <= day <= 31)%Z ->
        Z.max 1 (Z.min (int_or 1 p2) 31) = day).
Proof.
  intros Hne Hs Hy. split.
  - rewrite (convert_pubdate_parseable rp year Hne); rewrite Hs; [|exact Hy].
    reflexivity.
  - intros day Hd Hr. unfold int_or. rewrite Hd. lia.
Qed.

Lemma convert_pubdate_three_segments_witness :
  convert_pubdate (Some (lit "2018-8-15")) = Ok (Some (lit "2018-08-15")).
Proof.
  destruct (convert_pubdate_three_segments
              (lit "2018-8-15") (lit "2018") (lit "8") (lit "15") 2018%Z)
    as [E _].
  - discriminate.
  - vm_compute. reflexivity.
  - vm_compute. reflexivity.
  - refine (eq_trans E _). vm_compute. reflexivity.
Defined.

(** ** Building the payload *)

Lemma str_eqb_refl s : str_eqb s s = true.
Proof.
  induction s as [|c t IH]; simpl; [reflexivity|].
  rewrite N.eqb_refl. exact IH.
Qed.

Lemma dict_get_here k v rest : dict_get (VDict ((k, v) :: rest)) k = Some v.
Proof. simpl. rewrite str_eqb_refl. reflexivity. Qed.

Lemma dict_get_skip k' k v rest :
  str_eqb k' k = false ->
  dict_get (VDict ((k', v) :: rest)) k = dict_get (VDict rest) k.
Proof. intros H. simpl. rewrite H. reflexivity. Qed.

Lemma convert_pubdate_total raw_pubdate :
  exists d, convert_pubdate raw_pubdate = Ok d.
Proof.
  destruct raw_pubdate as [rp|]; [|exists None; reflexivity].
  destruct rp as [|c t]; [exists None; reflexivity|].
  destruct (py_int (hd [] (split dash (strip (c :: t))))) as [year|e] eqn:E.
  - eexists. apply (convert_pubdate_parseable (c :: t) year); [discriminate|].
    exact E.
  - exists None. apply (convert_pubdate_unparseable _ e E).
Qed.

Lemma number_property_eq v :
  number_property v =
  Ok (VDict [(lit "number",
              match v with
              | Some (c :: t) =>
                  match py_int (c :: t) with
                  | Ok n => VInt n
                  | Raise _ => VNone
                  end
              | _ => VNone
              end)]).
Proof.
  destruct v as [[|c t]|]; try reflexivity.
  unfold number_property.
  destruct (py_int (c :: t)) as [n|e] eqn:E; [reflexivity|].
  rewrite (py_int_raises _ _ E). reflexivity.
Qed.

Lemma build_notion_properties_eq book :
  exists d,
    convert_pubdate book.(pubdate) = Ok d
    /\ build_notion_properties book =
       Ok (VDict
             [(col_title, title_property (Some (or_empty book.(title))));
              (col_publisher,
               rich_text_property
                 (Some (collapse_spaces (Some (or_empty book.(publisher))))));
              (col_author,
               rich_text_property (Some (names_str (or_nil book.(author)))));
              (col_translator,
               rich_text_property (Some (names_str (or_nil book.(translator)))));
              (col_pubdate, date_property d);
              (col_producer,
               rich_text_property (Some (or_empty book.(producer))));
              (col_binding, select_property (Some (or_empty book.(binding))));
              (col_pages,
               VDict [(lit "number",
                       match match book.(pages) with
                             | Some p => strip p
                             | None => []
                             end with
                       | c :: t => match py_int (c :: t) with
                                   | Ok n => VInt n
                                   | Raise _ => VNone
                                   end
                       | [] => VNone
                       end)])]).
Proof.
  destruct (convert_pubdate_total book.(pubdate)) as [d Hd].
  exists d. split; [exact Hd|].
  unfold build_notion_properties. rewrite Hd. cbn [rbind].
  rewrite number_property_eq. cbn [rbind].
  destruct (match pages book with Some p => strip p | None => [] end);
    reflexivity.
Qed.

Ltac dict_lookup :=
  repeat (rewrite dict_get_skip by reflexivity); rewrite dict_get_here.

(** C3: [build_notion_properties] returns a payload for every book record,
    whichever fields are absent; the payload has exactly the eight columns,
    each once; an absent field gives the empty value of its column (empty
    title text, empty rich text, null date, null select, null number); and
    equal records give equal payloads. *)
Theorem build_notion_properties_total :
  (forall book : Book,
      exists fields,
        build_notion_properties book = Ok (VDict fields)
        /\ keys (VDict fields) = payload_columns
        /\ NoDup payload_columns
        /\ (book.(title) = None ->
            dict_get (VDict fields) col_title =
            Some (VDict [(lit "title",
                          VList [VDict [(lit "text",
                                         VDict [(lit "content", VStr [])])]])]))
        /\ (book.(publisher) = None ->
            dict_get (VDict fields) col_publisher =
            Some (VDict [(lit "rich_text", VList [])]))
        /\ (book.(author) = None ->
            dict_get (VDict fields) col_author =
            Some (VDict [(lit "rich_text", VList [])]))
        /\ (book.(translator) = None ->
            dict_get (VDict fields) col_translator =
            Some (VDict [(lit "rich_text", VList [])]))
        /\ (book.(pubdate) = None ->
            dict_get (VDict fields) col_pubdate =
            Some (VDict [(lit "date", VNone)]))
        /\ (book.(producer) = None ->
            dict_get (VDict fields) col_producer =
            Some (VDict [(lit "rich_text", VList [])]))
        /\ (book.(binding) = None ->
            dict_get (VDict fields) col_binding =
            Some (VDict [(lit "select", VNone)]))
        /\ (book.(pages) = None ->
            dict_get (VDict fields) col_pages =
            Some (VDict [(lit "number", VNone)])))
  /\ (forall book1 book2 : Book,
         book1 = book2 ->
         build_notion_properties book1 = build_notion_properties book2).
Proof.
  split.
  - intros book.
    destruct (build_notion_properties_eq book) as [d [Hd E]].
    eexists. split; [exact E|].
    split; [reflexivity|].
    split.
    { unfold payload_columns.
      repeat (constructor;
              [simpl; intros H;
               repeat (destruct H as [H|H]; [discriminate H|]); exact H|]).
      constructor. }
    repeat split; intros H; dict_lookup; rewrite H in *; try reflexivity.
    simpl in Hd. inversion Hd. reflexivity.
  - intros book1 book2 H. rewrite H. reflexivity.
Qed.

Lemma build_notion_properties_total_witness :
  exists fields,
    build_notion_properties empty_book = Ok (VDict fields)
    /\ dict_get (VDict fields) col_binding = Some (VDict [(lit "select", VNone)])
    /\ dict_get (VDict fields) col_pubdate = Some (VDict [(lit "date", VNone)])
    /\ build_notion_properties empty_book
       = build_notion_properties (mkBook None None None None None None None None).
Proof.
  destruct build_notion_properties_total as [Htotal Hdet].
  destruct (Htotal empty_book)
    as [fields [E [_ [_ [_ [_ [_ [_ [Hdate [_ [Hbinding _]]]]]]]]]]].
  exists fields. split; [exact E|].
  split; [apply Hbinding; reflexivity|].
  split; [apply Hdate; reflexivity|].
  apply Hdet. reflexivity.
Defined.

(** ** Decimal digits and page counts *)

Lemma decimal_value_block c d :
  decimal_value c = Some d ->
  exists z, In z decimal_zeros /\ z <= c /\ c < z + 10 /\ d = c - z.
Proof.
  unfold decimal_value.
  destruct (find (fun z => (z <=? c) && (c <? z + 10)) decimal_zeros)
    as [z|] eqn:E; [|discriminate].
  intros H. inversion H; subst. apply find_some in E.
  destruct E as [Hin Hb]. apply andb_prop in Hb. destruct Hb as [H1 H2].
  apply N.leb_le in H1. apply N.ltb_lt in H2. eauto.
Qed.

Lemma below_ten k :
  k < 10 -> In k [0; 1; 2; 3; 4; 5; 6; 7; 8; 9].
Proof.
  intros H.
  assert (C : k = 0 \/ k = 1 \/ k = 2 \/ k = 3 \/ k = 4 \/ k = 5 \/ k = 6
              \/ k = 7 \/ k = 8 \/ k = 9) by lia.
  simpl. intuition.
Qed.

Lemma decimal_blocks_no_space :
  forallb (fun z => forallb (fun k => negb (isspace (z + k)))
                            [0; 1; 2; 3; 4; 5; 6; 7; 8; 9])
          decimal_zeros = true.
Proof. vm_compute. reflexivity. Qed.

Lemma decimal_blocks_ascii :
  forallb (fun z => (z =? 0x30) || (127 <=? z)) decimal_zeros = true.
Proof. vm_compute. reflexivity. Qed.

Lemma decimal_not_space c d : decimal_value c = Some d -> isspace c = false.
Proof.
  intros H. destruct (decimal_value_block c d H) as [z [Hin [H1 [H2 Hd]]]].
  pose proof decimal_blocks_no_space as B.
  rewrite forallb_forall in B. specialize (B z Hin).
  assert (Hk : c - z < 10) by lia.
  rewrite forallb_forall in B. specialize (B (c - z) (below_ten _ Hk)).
  replace (z + (c - z)) with c in B by lia.
  apply negb_true_iff in B. exact B.
Qed.

Lemma isdecimal_not_space c : isdecimal c = true -> isspace c = false.
Proof.
  unfold isdecimal. destruct (decimal_value c) as [d|] eqn:E; [|discriminate].
  intros _. exact (decimal_not_space c d E).
Qed.

Lemma to_ascii_decimal_digit c d :
  decimal_value c = Some d -> d <= 9 /\ to_ascii_decimal c = 0x30 + d.
Proof.
  intros H. destruct (decimal_value_block c d H) as [z [Hin [H1 [H2 Hd]]]].
  split; [lia|].
  unfold to_ascii_decimal. destruct (N.ltb_spec c 127) as [Hlt|Hge].
  - pose proof decimal_blocks_ascii as B.
    rewrite forallb_forall in B. specialize (B z Hin).
    apply orb_prop in B. destruct B as [B|B].
    + apply N.eqb_eq in B. lia.
    + apply N.leb_le in B. lia.
  - rewrite (decimal_not_space c d H), H. reflexivity.
Qed.

Lemma map_to_ascii_decimal ds :
  forallb isdecimal ds = true ->
  map to_ascii_decimal ds = map (fun d => 0x30 + d) (decimal_values ds)
  /\ Forall (fun d => d <= 9) (decimal_values ds).
Proof.
  induction ds as [|c t IH]; simpl; intros H.
  - split; [reflexivity | constructor].
  - apply andb_prop in H. destruct H as [Hc Ht].
    destruct (IH Ht) as [E F]. unfold isdecimal in Hc.
    destruct (decimal_value c) as [d|] eqn:Ed; [|discriminate].
    destruct (to_ascii_decimal_digit c d Ed) as [Hd Ea].
    split; [rewrite Ea, E; reflexivity | constructor; assumption].
Qed.

Lemma ascii_digit_facts d :
  d <= 9 ->
  is_ascii_digit (0x30 + d) = true
  /\ is_ascii_space (0x30 + d) = false
  /\ (0x30 + d =? 0x2B) = false
  /\ (0x30 + d =? 0x2D) = false
  /\ (0x30 + d =? underscore) = false
  /\ 0x30 + d - 0x30 = d.
Proof.
  intros H. assert (H' : d < 10) by lia. apply below_ten in H'.
  simpl in H'.
  repeat (destruct H' as [H'|H']; [subst d; vm_compute; auto 10|]).
  contradiction.
Qed.

Lemma scan_digits_all vs :
  Forall (fun d => d <= 9) vs ->
  scan_digits false (map (fun d => 0x30 + d) vs) = Some (vs, []).
Proof.
  induction vs as [|d vs IH]; intros H.
  - reflexivity.
  - inversion H as [|? ? Hd Hvs]; subst.
    destruct (ascii_digit_facts d Hd) as [H1 [_ [_ [_ [_ H6]]]]].
    cbn [map scan_digits]. rewrite H1, (IH Hvs), H6. reflexivity.
Qed.

Lemma py_int_decimal ds :
  forallb isdecimal ds = true ->
  ds <> [] ->
  (length ds <= int_max_str_digits)%nat ->
  py_int ds = Ok (Z.of_N (digits_value (decimal_values ds))).
Proof.
  intros Hall Hne Hlen.
  destruct (map_to_ascii_decimal ds Hall) as [E F].
  unfold py_int. rewrite E.
  destruct ds as [|c t]; [contradiction|].
  cbn [decimal_values map] in *.
  set (d := match decimal_value c with Some d => d | None => 0 end) in *.
  set (vs := map (fun c => match decimal_value c with
                           | Some d => d | None => 0 end) t) in *.
  inversion F as [|? ? Hd Hvs]; subst.
  destruct (ascii_digit_facts d Hd) as [H1 [H2 [H3 [H4 [H5 H6]]]]].
  cbn [lstrip_by]. rewrite H2, H3, H4, H5.
  change (48 + d :: map (fun d => 48 + d) vs)
    with (map (fun d => 0x30 + d) (d :: vs)).
  rewrite (scan_digits_all (d :: vs) F).
  assert (L : length (d :: vs) = length (c :: t)).
  { unfold vs. simpl. rewrite length_map. reflexivity. }
  rewrite L.
  destruct (Nat.ltb_spec int_max_str_digits (length (c :: t))); [lia|].
  reflexivity.
Qed.

Lemma forallb_filter_same {A} (p : A -> bool) l :
  forallb p (filter p l) = true.
Proof.
  induction l as [|a l IH]; simpl; [reflexivity|].
  destruct (p a) eqn:E; simpl; [rewrite E|]; exact IH.
Qed.

Lemma filter_none {A} (p : A -> bool) l :
  (forall a, In a l -> p a = false) -> filter p l = [].
Proof.
  induction l as [|a l IH]; simpl; intros H; [reflexivity|].
  rewrite (H a (or_introl eq_refl)). apply IH. intros b Hb. apply H. auto.
Qed.

Lemma in_join_space c ws :
  In c (join [space] ws) -> c = space \/ In c (concat ws).
Proof.
  induction ws as [|w ws IH]; simpl.
  - intros [].
  - destruct ws as [|w' ws'].
    + intros H. right. rewrite app_nil_r. exact H.
    + intros H. apply in_app_or in H. destruct H as [H|H].
      * right. apply in_or_app. left. exact H.
      * destruct H as [H|H]; [left; symmetry; exact H|].
        destruct (IH H) as [Hs|Hc]; [left; exact Hs|].
        right. apply in_or_app. right. exact Hc.
Qed.

Lemma in_collapse_spaces c s :
  In c (collapse_spaces (Some s)) -> c = space \/ In c s.
Proof.
  rewrite collapse_spaces_words. intros H.
  destruct (in_join_space _ _ H) as [Hs|Hc]; [left; exact Hs|].
  right. rewrite concat_words in Hc. apply filter_In in Hc. apply Hc.
Qed.

Lemma extract_pages_digits raw : forallb isdecimal (extract_pages raw) = true.
Proof. apply forallb_filter_same. Qed.

Lemma extract_pages_no_digit raw :
  forallb (fun c => negb (isdecimal c)) raw = true -> extract_pages raw = [].
Proof.
  intros H. unfold extract_pages, sub_nondigits. apply filter_none.
  intros c Hc. destruct (in_collapse_spaces _ _ Hc) as [->|Hin].
  - reflexivity.
  - rewrite forallb_forall in H. apply negb_true_iff. apply H. exact Hin.
Qed.


Lemma strip_decimal ds : forallb isdecimal ds = true -> strip ds = ds.
Proof.
  intros H.
  assert (L : forall s, forallb isdecimal s = true -> lstrip_by isspace s = s).
  { intros [|c t] Hs; [reflexivity|]. simpl in Hs. apply andb_prop in Hs.
    apply lstrip_by_head, isdecimal_not_space, Hs. }
  unfold strip, rstrip_by. rewrite (L ds H).
  rewrite L; [apply rev_involutive|].
  rewrite forallb_forall in *. intros c Hc. apply H, in_rev, Hc.
Qed.

Lemma filter_join_space (p : char -> bool) ws :
  p space = false ->
  filter p (join [space] ws) = filter p (concat ws).
Proof.
  intros Hp. induction ws as [|w ws IH]; [reflexivity|].
  destruct ws as [|w' ws'].
  - simpl. rewrite app_nil_r. reflexivity.
  - rewrite join_cons_cons. cbn [concat].
    rewrite !filter_app, IH. cbn [filter concat]. rewrite Hp.
    rewrite filter_app. reflexivity.
Qed.

Lemma filter_filter_implies {A} (p q : A -> bool) l :
  (forall a, p a = true -> q a = true) ->
  filter p (filter q l) = filter p l.
Proof.
  intros H. induction l as [|a l IH]; [reflexivity|].
  simpl. destruct (q a) eqn:Eq.
  - simpl. rewrite IH. reflexivity.
  - destruct (p a) eqn:Ep; [|exact IH].
    rewrite (H a Ep) in Eq. discriminate.
Qed.

Lemma extract_pages_eq raw : extract_pages raw = filter isdecimal raw.
Proof.
  unfold extract_pages, sub_nondigits.
  rewrite collapse_spaces_words, filter_join_space by reflexivity.
  rewrite concat_words. apply filter_filter_implies.
  intros c Hc. rewrite (isdecimal_not_space c Hc). reflexivity.
Qed.

Lemma route_pages label raw_value f :
  startswith label_pages label = true ->
  f_pages (route label raw_value f) = Some (extract_pages raw_value).
Proof.
  intros H. unfold route.
  destruct label as [|c t]; [discriminate|].
  pose proof H as Hc. simpl in Hc. apply andb_prop in Hc.
  destruct Hc as [Hc _]. apply N.eqb_eq in Hc. subst c.
  rewrite H. reflexivity.
Qed.

(** C9: the page count kept by the fetcher is the decimal digits of the raw
    value, in order and nothing else (["338页"] gives ["338"], a value
    without digits gives [""]), and
    [build_notion_properties] turns a digit string into the number it
    writes in base ten, or into null when the string is empty or [int]
    rejects it. *)
Theorem pages_spec :
  (forall label raw_value f,
      startswith label_pages label = true ->
      f_pages (route label raw_value f) = Some (extract_pages raw_value))
  /\ (forall raw_value, extract_pages raw_value = filter isdecimal raw_value)
  /\ (forall raw_value, forallb isdecimal (extract_pages raw_value) = true)
  /\ (forall raw_value,
         forallb (fun c => negb (isdecimal c)) raw_value = true ->
         extract_pages raw_value = [])
  /\ extract_pages (lit "338" ++ [0x9875]) = lit "338"
  /\ (forall (book : Book) (ds : str),
         book.(pages) = Some ds ->
         forallb isdecimal ds = true ->
         exists fields,
           build_notion_properties book = Ok (VDict fields)
           /\ dict_get (VDict fields) col_pages =
              Some (VDict [(lit "number",
                            match ds with
                            | [] => VNone
                            | _ :: _ => match py_int ds with
                                        | Ok n => VInt n
                                        | Raise _ => VNone
                                        end
                            end)]))
  /\ (forall ds : str,
         forallb isdecimal ds = true ->
         ds <> [] ->
         (length ds <= int_max_str_digits)%nat ->
         py_int ds = Ok (Z.of_N (digits_value (decimal_values ds)))).
Proof.
  split; [exact route_pages|].
  split; [exact extract_pages_eq|].
  split; [exact extract_pages_digits|].
  split; [exact extract_pages_no_digit|].
  split; [vm_compute; reflexivity|].
  split; [|exact py_int_decimal].
  intros book ds Hp Hd.
  destruct (build_notion_properties_eq book) as [d [_ E]].
  eexists. split; [exact E|].
  dict_lookup. rewrite Hp, (strip_decimal ds Hd).
  destruct ds; reflexivity.
Qed.

Lemma pages_spec_witness :
  f_pages (route label_pages (lit "338" ++ [0x9875]) initial_fields)
  = Some (lit "338")
  /\ extract_pages (lit "n/a") = []
  /\ (exists fields,
         build_notion_properties sample_book = Ok (VDict fields)
         /\ dict_get (VDict fields) col_pages
            = Some (VDict [(lit "number", VInt 338)]))
  /\ py_int (lit "338") = Ok 338%Z.
Proof.
  destruct pages_spec as [Hroute [_ [_ [Hnone [Hex [Hbuild Hint]]]]]].
  split; [|split; [|split]].
  - rewrite (Hroute label_pages (lit "338" ++ [0x9875]) initial_fields);
      [rewrite Hex; reflexivity | reflexivity].
  - apply Hnone. vm_compute. reflexivity.
  - destruct (Hbuild sample_book (lit "338")) as [fields [E G]];
      [reflexivity | vm_compute; reflexivity |].
    exists fields. split; [exact E|].
    refine (eq_trans G _). vm_compute. reflexivity.
  - refine (eq_trans (Hint (lit "338") _ _ _) _).
    + vm_compute. reflexivity.
    + discriminate.
    + unfold int_max_str_digits. simpl. lia.
    + vm_compute. reflexivity.
Defined.

(** ** The retry loop *)

Lemma posts_sent_app tr ev :
  posts_sent (tr ++ ev) = (posts_sent tr + posts_sent ev)%nat.
Proof. unfold posts_sent. rewrite filter_app, length_app. reflexivity. Qed.

Lemma sleeps_app tr ev : sleeps (tr ++ ev) = sleeps tr ++ sleeps ev.
Proof. apply filter_app. Qed.

Lemma timed_out_attempts_succ request first count :
  timed_out_attempts request first (S count) =
  timed_out_attempt request first ++ timed_out_attempts request (S first) count.
Proof. reflexivity. Qed.

Lemma posts_sent_timed_out token db props first count :
  posts_sent (timed_out_attempts (notion_post token db props) first count)
  = count.
Proof.
  revert first. induction count as [|n IH]; intros first.
  - reflexivity.
  - rewrite timed_out_attempts_succ, posts_sent_app, IH. reflexivity.
Qed.

Lemma sleeps_timed_out token db props first count :
  sleeps (timed_out_attempts (notion_post token db props) first count)
  = repeat (Sleep 2) count.
Proof.
  revert first. induction count as [|n IH]; intros first.
  - reflexivity.
  - rewrite timed_out_attempts_succ, sleeps_app, IH. reflexivity.
Qed.

Lemma leading_timeouts_le outcomes start budget :
  (leading_timeouts outcomes start budget <= budget)%nat.
Proof.
  revert start. induction budget as [|b IH]; intros start; simpl.
  - lia.
  - destruct (outcomes start) as [|[]]; try lia.
    specialize (IH (S start)). lia.
Qed.

Section RetryLoop.

Variable w : World.
Variables token db : str.
Variable props : value.
Hypothesis token_given : truthy token = true.
Hypothesis db_given : truthy db = true.

Lemma post_attempts_run :
  forall n first last tr,
    let url := NOTION_BASE_URL ++ lit "/pages" in
    let payload :=
      VDict [(lit "parent", VDict [(lit "database_id", VStr db)]);
             (lit "properties", props)] in
    let k := leading_timeouts (requests_post w) (posts_sent tr) n in
    let tr1 := tr ++ timed_out_attempts (notion_post token db props) first k in
    post_attempts w url token payload (seq first n) last tr =
    if Nat.eqb k n
    then (Raise (RuntimeError
                   (NotionTimeout
                      (last_error_after (requests_post w) (posts_sent tr)
                                        last k))),
          tr1)
    else (requests_post w (posts_sent tr + k)%nat,
          tr1 ++ [notion_post token db props]).
Proof.
  induction n as [|m IH]; intros first last tr; cbv zeta.
  - simpl. unfold io_raise. rewrite app_nil_r. reflexivity.
  - cbn [seq post_attempts leading_timeouts].
    unfold io_except at 1. unfold io_bind at 1. unfold io_lift at 1.
    unfold notion_headers. rewrite token_given. cbn [negb].
    unfold post at 1.
    fold (notion_post token db props).
    destruct (requests_post w (posts_sent tr)) as [resp|e] eqn:Eo.
    + cbn [Nat.eqb timed_out_attempts seq flat_map].
      rewrite app_nil_r, Nat.add_0_r, Eo. reflexivity.
    + destruct e as [| |detail|detail|detail|msg]; cbn [is_ReadTimeout];
        try (cbn [Nat.eqb timed_out_attempts seq flat_map];
             rewrite app_nil_r, Nat.add_0_r, Eo; reflexivity).
      unfold io_bind at 1. unfold warn at 1.
      unfold io_bind at 1. unfold sleep at 1.
      specialize (IH (S first) (Some (str_of_exn (ReadTimeout detail)))
                    (((tr ++ [notion_post token db props])
                        ++ [Warn (first + 1)]) ++ [Sleep 2])).
      cbv zeta in IH. rewrite IH. clear IH.
      assert (Ep : posts_sent
                     (((tr ++ [notion_post token db props])
                         ++ [Warn (first + 1)]) ++ [Sleep 2])
                   = S (posts_sent tr)).
      { rewrite !posts_sent_app.
        change (posts_sent [notion_post token db props]) with 1%nat.
        change (posts_sent [Warn (first + 1)]) with 0%nat.
        change (posts_sent [Sleep 2]) with 0%nat. lia. }
      rewrite Ep.
      set (k := leading_timeouts (requests_post w) (S (posts_sent tr)) m).
      rewrite timed_out_attempts_succ. unfold timed_out_attempt.
      cbn [Nat.eqb].
      assert (El : last_error_after (requests_post w) (S (posts_sent tr))
                     (Some (str_of_exn (ReadTimeout detail))) k
                   = last_error_after (requests_post w) (posts_sent tr)
                       last (S k)).
      { destruct k as [|j]; simpl.
        - rewrite Nat.add_0_r, Eo. reflexivity.
        - rewrite Nat.add_succ_r. reflexivity. }
      rewrite El.
      replace (S (posts_sent tr) + k)%nat with (posts_sent tr + S k)%nat by lia.
      rewrite <- !app_assoc. cbn [app].
      reflexivity.
Qed.

Lemma create_notion_page_run tr :
  let k := leading_timeouts (requests_post w) (posts_sent tr) 3 in
  let tr1 := tr ++ timed_out_attempts (notion_post token db props) 0 k in
  create_notion_page w token db props tr =
  if Nat.eqb k 3
  then (Raise (RuntimeError
                 (NotionTimeout
                    (last_error_after (requests_post w) (posts_sent tr)
                                      None k))),
        tr1)
  else (finish (requests_post w (posts_sent tr + k)%nat),
        tr1 ++ [notion_post token db props]).
Proof.
  cbv zeta. unfold create_notion_page. rewrite db_given.
  cbn [negb]. unfold io_bind.
  pose proof (post_attempts_run 3 0%nat None tr) as R.
  cbv zeta in R. rewrite R. clear R.
  destruct (Nat.eqb (leading_timeouts (requests_post w) (posts_sent tr) 3) 3);
    [reflexivity|].
  destruct (requests_post w _) as [resp|e]; [|reflexivity].
  cbn [finish]. destruct (negb (status_code resp =? 200)%Z); reflexivity.
Qed.

End RetryLoop.

Lemma create_notion_page_no_database w token props tr :
  create_notion_page w token [] props tr
  = (Raise (RuntimeError NotionDatabaseIdEmpty), tr).
Proof. reflexivity. Qed.

Lemma create_notion_page_no_token w db props tr :
  truthy db = true ->
  create_notion_page w [] db props tr
  = (Raise (RuntimeError NotionTokenEmpty), tr).
Proof.
  intros H. unfold create_notion_page. rewrite H. reflexivity.
Qed.


Lemma leading_timeouts_exact outcomes : forall budget start k,
  (forall i, (i < k)%nat -> timed_out (outcomes (start + i)%nat) = true) ->
  (k <= budget)%nat ->
  k = budget \/ timed_out (outcomes (start + k)%nat) = false ->
  leading_timeouts outcomes start budget = k.
Proof.
  induction budget as [|b IH]; intros start k Hto Hle Hend.
  - simpl. lia.
  - simpl. destruct k as [|j].
    + destruct Hend as [Hend|Hend]; [discriminate|].
      rewrite Nat.add_0_r in Hend.
      destruct (outcomes start) as [|[]]; try reflexivity. discriminate.
    + pose proof (Hto 0%nat ltac:(lia)) as H0. rewrite Nat.add_0_r in H0.
      destruct (outcomes start) as [|[]]; try discriminate.
      f_equal. apply IH.
      * intros i Hi. specialize (Hto (S i) ltac:(lia)).
        rewrite Nat.add_succ_r in Hto. exact Hto.
      * lia.
      * destruct Hend as [Hend|Hend]; [left; lia|right].
        rewrite Nat.add_succ_r in Hend. exact Hend.
Qed.

(** C4: [create_notion_page] sends at most three requests, whatever the
    store answers.  With a token and a database id, it sends one request
    per read timeout met, each followed by a pause of two seconds, and stops
    at the first answer that is not a read timeout: three timeouts in a row
    raise the timeout error after exactly three requests; a page created on
    the second or third attempt is returned; any other exception leaves
    the function at once. *)
Theorem create_notion_page_retries :
  (forall w token db props tr,
      exists ev,
        snd (create_notion_page w token db props tr) = tr ++ ev
        /\ (posts_sent ev <= 3)%nat)
  /\ (forall w token db props tr,
         truthy token = true -> truthy db = true ->
         let k := leading_timeouts (requests_post w) (posts_sent tr) 3 in
         let tr1 := tr ++ timed_out_attempts (notion_post token db props) 0 k in
         create_notion_page w token db props tr =
         if Nat.eqb k 3
         then (Raise (RuntimeError
                        (NotionTimeout
                           (Some (str_of_outcome
                                    (requests_post w (posts_sent tr + 2)%nat))))),
               tr1)
         else (finish (requests_post w (posts_sent tr + k)%nat),
               tr1 ++ [notion_post token db props]))
  /\ (forall w token db props tr,
         truthy token = true -> truthy db = true ->
         (forall i, (i < 3)%nat ->
                    timed_out (requests_post w (posts_sent tr + i)%nat) = true) ->
         exists d ev,
           create_notion_page w token db props tr
           = (Raise (RuntimeError (NotionTimeout (Some d))), tr ++ ev)
           /\ posts_sent ev = 3%nat
           /\ sleeps ev = [Sleep 2; Sleep 2; Sleep 2])
  /\ (forall w token db props tr k resp page,
         truthy token = true -> truthy db = true ->
         (k < 3)%nat ->
         (forall i, (i < k)%nat ->
                    timed_out (requests_post w (posts_sent tr + i)%nat) = true) ->
         requests_post w (posts_sent tr + k)%nat = Ok resp ->
         resp.(status_code) = 200%Z ->
         resp.(json) = Ok page ->
         exists ev,
           create_notion_page w token db props tr = (Ok page, tr ++ ev)
           /\ posts_sent ev = S k
           /\ sleeps ev = repeat (Sleep 2) k)
  /\ (forall w token db props tr k e,
         truthy token = true -> truthy db = true ->
         (k < 3)%nat ->
         (forall i, (i < k)%nat ->
                    timed_out (requests_post w (posts_sent tr + i)%nat) = true) ->
         requests_post w (posts_sent tr + k)%nat = Raise e ->
         is_ReadTimeout e = false ->
         exists ev,
           create_notion_page w token db props tr = (Raise e, tr ++ ev)
           /\ posts_sent ev = S k
           /\ sleeps ev = repeat (Sleep 2) k).
Proof.
  assert (Hpost1 : forall token db props,
             posts_sent [notion_post token db props] = 1%nat) by reflexivity.
  assert (Hsleep1 : forall token db props,
             sleeps [notion_post token db props] = []) by reflexivity.
  split; [|split; [|split; [|split]]].
  - intros w token db props tr.
    destruct db as [|c t].
    { exists []. rewrite create_notion_page_no_database, app_nil_r.
      split; [reflexivity | unfold posts_sent; simpl; lia]. }
    destruct token as [|c' t'].
    { exists []. rewrite create_notion_page_no_token, app_nil_r by reflexivity.
      split; [reflexivity | unfold posts_sent; simpl; lia]. }
    pose proof (create_notion_page_run w (c' :: t') (c :: t) props
                  eq_refl eq_refl tr) as R.
    cbv zeta in R. rewrite R. clear R.
    pose proof (leading_timeouts_le (requests_post w) (posts_sent tr) 3) as Hk.
    destruct (Nat.eqb_spec
                (leading_timeouts (requests_post w) (posts_sent tr) 3) 3)
      as [E|E].
    + eexists. split; [reflexivity|].
      rewrite posts_sent_timed_out. lia.
    + eexists. split; [cbn [snd]; rewrite <- app_assoc; reflexivity|].
      rewrite posts_sent_app, posts_sent_timed_out, Hpost1. lia.
  - intros w token db props tr Htok Hdb.
    pose proof (create_notion_page_run w token db props Htok Hdb tr) as R.
    cbv zeta in *. rewrite R.
    destruct (Nat.eqb_spec
                (leading_timeouts (requests_post w) (posts_sent tr) 3) 3)
      as [E|E]; [rewrite E|]; reflexivity.
  - intros w token db props tr Htok Hdb Hto.
    pose proof (create_notion_page_run w token db props Htok Hdb tr) as R.
    cbv zeta in R.
    rewrite (leading_timeouts_exact (requests_post w) 3 (posts_sent tr) 3 Hto)
      in R by (auto; lia).
    cbn [Nat.eqb last_error_after] in R.
    eexists. eexists. split; [exact R|].
    rewrite posts_sent_timed_out, sleeps_timed_out. split; reflexivity.
  - intros w token db props tr k resp page Htok Hdb Hk Hto Hresp Hst Hjs.
    pose proof (create_notion_page_run w token db props Htok Hdb tr) as R.
    cbv zeta in R.
    rewrite (leading_timeouts_exact (requests_post w) 3 (posts_sent tr) k Hto)
      in R; [|lia|right; rewrite Hresp; reflexivity].
    destruct (Nat.eqb_spec k 3) as [E|_]; [lia|].
    rewrite Hresp in R. cbn [finish] in R. rewrite Hst, Hjs in R.
    cbn [Z.eqb Pos.eqb negb] in R.
    rewrite <- app_assoc in R.
    eexists. split; [exact R|].
    rewrite posts_sent_app, sleeps_app, posts_sent_timed_out, sleeps_timed_out,
      Hpost1, Hsleep1, app_nil_r.
    split; [lia | reflexivity].
  - intros w token db props tr k e Htok Hdb Hk Hto Hresp He.
    pose proof (create_notion_page_run w token db props Htok Hdb tr) as R.
    cbv zeta in R.
    rewrite (leading_timeouts_exact (requests_post w) 3 (posts_sent tr) k Hto)
      in R; [|lia|right; rewrite Hresp; exact He].
    destruct (Nat.eqb_spec k 3) as [E|_]; [lia|].
    rewrite Hresp in R. cbn [finish] in R.
    rewrite <- app_assoc in R.
    eexists. split; [exact R|].
    rewrite posts_sent_app, sleeps_app, posts_sent_timed_out, sleeps_timed_out,
      Hpost1, Hsleep1, app_nil_r.
    split; [lia | reflexivity].
Qed.

Lemma create_notion_page_retries_witness :
  (exists ev,
      create_notion_page
        (sample_world (Ok (page_response 200)) (timeouts_then_created 2))
        (lit "secret") (lit "db") VNone []
      = (Ok created_page, [] ++ ev)
      /\ posts_sent ev = 3%nat
      /\ sleeps ev = [Sleep 2; Sleep 2])
  /\ (exists d ev,
         create_notion_page
           (sample_world (Ok (page_response 200)) (timeouts_then_created 3))
           (lit "secret") (lit "db") VNone []
         = (Raise (RuntimeError (NotionTimeout (Some d))), [] ++ ev)
         /\ posts_sent ev = 3%nat
         /\ sleeps ev = [Sleep 2; Sleep 2; Sleep 2])
  /\ (exists ev,
         create_notion_page
           (sample_world (Ok (page_response 200))
                         (fun _ => Raise (RequestException (lit "refused"))))
           (lit "secret") (lit "db") VNone []
         = (Raise (RequestException (lit "refused")), [] ++ ev)
         /\ posts_sent ev = 1%nat
         /\ sleeps ev = [])
  /\ snd (create_notion_page
            (sample_world (Ok (page_response 200)) (timeouts_then_created 1))
            (lit "secret") (lit "db") VNone [])
     = [notion_post (lit "secret") (lit "db") VNone; Warn 1; Sleep 2;
        notion_post (lit "secret") (lit "db") VNone].
Proof.
  destruct create_notion_page_retries as [_ [Hrun [Hthree [Hok Hexn]]]].
  split; [|split; [|split]].
  - apply (Hok (sample_world (Ok (page_response 200)) (timeouts_then_created 2))
               (lit "secret") (lit "db") VNone [] 2%nat created_response
               created_page); try reflexivity.
    + lia.
    + intros i Hi. destruct i as [|[|i]]; [reflexivity | reflexivity | lia].
  - apply (Hthree
             (sample_world (Ok (page_response 200)) (timeouts_then_created 3))
             (lit "secret") (lit "db") VNone []); try reflexivity.
    intros i Hi. destruct i as [|[|[|i]]]; try reflexivity. lia.
  - apply (Hexn (sample_world (Ok (page_response 200))
                              (fun _ => Raise (RequestException (lit "refused"))))
                (lit "secret") (lit "db") VNone [] 0%nat
                (RequestException (lit "refused"))); try reflexivity.
    + lia.
    + intros i Hi. lia.
  - rewrite (Hrun (sample_world (Ok (page_response 200))
                                (timeouts_then_created 1))
                  (lit "secret") (lit "db") VNone [] eq_refl eq_refl).
    reflexivity.
Defined.

(** ** Errors of the fetcher *)

Lemma fetch_book_run w isbn tr :
  fetch_book_from_douban w isbn tr =
  (match requests_get w (douban_url isbn) with
   | Ok resp => book_of_response w (douban_url isbn) resp
   | Raise e =>
       if is_RequestException e
       then Raise (RuntimeError (DoubanNetworkError (str_of_exn e)))
       else Raise e
   end,
   tr ++ [Get (douban_url isbn) douban_headers 10]).
Proof.
  unfold fetch_book_from_douban, io_bind, io_except, get, io_lift, io_raise.
  destruct (requests_get w (douban_url isbn)) as [resp|e]; [reflexivity|].
  destruct (is_RequestException e); reflexivity.
Qed.

Lemma book_of_response_ok w url resp title_text labels :
  resp.(status_code) = 200%Z ->
  (BeautifulSoup w resp.(text)).(title_tag) = Some title_text ->
  (BeautifulSoup w resp.(text)).(info_div) = Some labels ->
  exists b, book_of_response w url resp = Ok b.
Proof.
  intros Hs Ht Hi. unfold book_of_response. rewrite Hs, Ht, Hi.
  eexists. reflexivity.
Qed.

(** C5: the outcome of [fetch_book_from_douban], case by case.  A request
    exception gives the network error; a response with status 404, and no
    other response, gives the not-found error; any other status than 200
    gives the bad-status error with the first 200 characters of the body;
    a page without the title element or without the info block gives the
    page-structure errors; a book is returned exactly when the status is
    200 and both are present.  One GET is sent in every case. *)
Theorem fetch_book_from_douban_errors (w : World) (isbn : str)
  (tr : list event) :
  let url := douban_url isbn in
  let run := fetch_book_from_douban w isbn tr in
  snd run = tr ++ [Get url douban_headers 10]
  /\ (forall e,
         requests_get w url = Raise e -> is_RequestException e = true ->
         fst run = Raise (RuntimeError (DoubanNetworkError (str_of_exn e))))
  /\ (forall resp,
         requests_get w url = Ok resp ->
         (fst run = Raise (RuntimeError (DoubanNotFound url))
          <-> resp.(status_code) = 404%Z))
  /\ (forall resp,
         requests_get w url = Ok resp ->
         resp.(status_code) <> 404%Z -> resp.(status_code) <> 200%Z ->
         fst run = Raise (RuntimeError
                            (DoubanBadStatus resp.(status_code)
                                             (firstn 200 resp.(text))))
         /\ (length (firstn 200 resp.(text)) <= 200)%nat)
  /\ (forall resp,
         requests_get w url = Ok resp ->
         resp.(status_code) = 200%Z ->
         (BeautifulSoup w resp.(text)).(title_tag) = None ->
         fst run = Raise (RuntimeError TitleTagMissing))
  /\ (forall resp,
         requests_get w url = Ok resp ->
         resp.(status_code) = 200%Z ->
         (BeautifulSoup w resp.(text)).(title_tag) <> None ->
         (BeautifulSoup w resp.(text)).(info_div) = None ->
         fst run = Raise (RuntimeError InfoDivMissing))
  /\ ((exists b, fst run = Ok b)
      <-> (exists resp,
              requests_get w url = Ok resp
              /\ resp.(status_code) = 200%Z
              /\ (BeautifulSoup w resp.(text)).(title_tag) <> None
              /\ (BeautifulSoup w resp.(text)).(info_div) <> None)).
Proof.
  cbv zeta. rewrite fetch_book_run. cbn [fst snd].
  split; [reflexivity|].
  split.
  { intros e He Hr. rewrite He, Hr. reflexivity. }
  split.
  { intros resp Hg. rewrite Hg. unfold book_of_response.
    destruct (Z.eqb_spec (status_code resp) 404) as [E|E].
    - split; auto.
    - split; [|contradiction].
      destruct (negb (status_code resp =? 200)%Z); [discriminate|].
      destruct (title_tag _); [|discriminate].
      destruct (info_div _); discriminate. }
  split.
  { intros resp Hg H404 H200. rewrite Hg. unfold book_of_response.
    destruct (Z.eqb_spec (status_code resp) 404); [contradiction|].
    destruct (Z.eqb_spec (status_code resp) 200); [contradiction|].
    split; [reflexivity|]. apply firstn_le_length. }
  split.
  { intros resp Hg Hs Ht. rewrite Hg. unfold book_of_response.
    rewrite Hs, Ht. reflexivity. }
  split.
  { intros resp Hg Hs Ht Hi. rewrite Hg. unfold book_of_response.
    rewrite Hs, Hi. cbn [Z.eqb Pos.eqb negb].
    destruct (title_tag _); [reflexivity | contradiction]. }
  split.
  - intros [b Hb].
    destruct (requests_get w (douban_url isbn)) as [resp|e].
    + exists resp. split; [reflexivity|].
      destruct (book_of_response_fields _ _ _ _ Hb)
        as [title_text [labels [Hs [Ht [Hi _]]]]].
      rewrite Ht, Hi. repeat split; [exact Hs | discriminate | discriminate].
    + destruct (is_RequestException e); discriminate.
  - intros [resp [Hg [Hs [Ht Hi]]]]. rewrite Hg.
    destruct (title_tag _) as [title_text|] eqn:Et; [|contradiction].
    destruct (info_div _) as [labels|] eqn:Ei; [|contradiction].
    exact (book_of_response_ok w _ resp title_text labels Hs Et Ei).
Qed.

Lemma fetch_book_from_douban_errors_witness :
  fst (fetch_book_from_douban
         (sample_world (Raise (RequestException (lit "no route")))
                       (timeouts_then_created 0))
         sample_isbn [])
  = Raise (RuntimeError (DoubanNetworkError (lit "no route")))
  /\ fst (fetch_book_from_douban
            (sample_world (Ok (page_response 404)) (timeouts_then_created 0))
            sample_isbn [])
     = Raise (RuntimeError (DoubanNotFound (douban_url sample_isbn)))
  /\ fst (fetch_book_from_douban
            (sample_world (Ok (page_response 503)) (timeouts_then_created 0))
            sample_isbn [])
     = Raise (RuntimeError (DoubanBadStatus 503 (lit "<html>")))
  /\ (exists b,
         fst (fetch_book_from_douban
                (sample_world (Ok (page_response 200))
                              (timeouts_then_created 0))
                sample_isbn [])
         = Ok b)
  /\ fst (fetch_book_from_douban
            (mkWorld (fun _ => Ok (page_response 200))
                     (fun _ => mkSoup None None) (timeouts_then_created 0))
            sample_isbn [])
     = Raise (RuntimeError TitleTagMissing)
  /\ fst (fetch_book_from_douban
            (mkWorld (fun _ => Ok (page_response 200))
                     (fun _ => mkSoup (Some (lit "T")) None)
                     (timeouts_then_created 0))
            sample_isbn [])
     = Raise (RuntimeError InfoDivMissing).
Proof.
  split; [|split; [|split; [|split; [|split]]]].
  - pose proof (fetch_book_from_douban_errors
                  (sample_world (Raise (RequestException (lit "no route")))
                                (timeouts_then_created 0))
                  sample_isbn []) as H.
    cbv zeta in H. destruct H as [_ [H _]].
    apply (H (RequestException (lit "no route"))); reflexivity.
  - pose proof (fetch_book_from_douban_errors
                  (sample_world (Ok (page_response 404))
                                (timeouts_then_created 0))
                  sample_isbn []) as H.
    cbv zeta in H. destruct H as [_ [_ [H _]]].
    apply (H (page_response 404)); reflexivity.
  - pose proof (fetch_book_from_douban_errors
                  (sample_world (Ok (page_response 503))
                                (timeouts_then_created 0))
                  sample_isbn []) as H.
    cbv zeta in H. destruct H as [_ [_ [_ [H _]]]].
    apply (H (page_response 503)); [reflexivity | discriminate | discriminate].
  - pose proof (fetch_book_from_douban_errors
                  (sample_world (Ok (page_response 200))
                                (timeouts_then_created 0))
                  sample_isbn []) as H.
    cbv zeta in H. destruct H as [_ [_ [_ [_ [_ [_ H]]]]]].
    apply H. exists (page_response 200).
    repeat split; try reflexivity; discriminate.
  - pose proof (fetch_book_from_douban_errors
                  (mkWorld (fun _ => Ok (page_response 200))
                           (fun _ => mkSoup None None)
                           (timeouts_then_created 0))
                  sample_isbn []) as H.
    cbv zeta in H. destruct H as [_ [_ [_ [_ [H _]]]]].
    apply (H (page_response 200)); reflexivity.
  - pose proof (fetch_book_from_douban_errors
                  (mkWorld (fun _ => Ok (page_response 200))
                           (fun _ => mkSoup (Some (lit "T")) None)
                           (timeouts_then_created 0))
                  sample_isbn []) as H.
    cbv zeta in H. destruct H as [_ [_ [_ [_ [_ [H _]]]]]].
    apply (H (page_response 200)); try reflexivity. discriminate.
Defined.

(** ** Empty inputs *)

(** The claim of C6 fails on the code when the token and the database id
    are both empty: the database id is tested first, so its error is the
    one raised. *)
Lemma create_notion_page_both_empty :
  create_notion_page
    (sample_world (Ok (page_response 200)) (timeouts_then_created 0))
    [] [] VNone []
  = (Raise (RuntimeError NotionDatabaseIdEmpty), [])
  /\ create_notion_page
       (sample_world (Ok (page_response 200)) (timeouts_then_created 0))
       [] [] VNone []
     <> (Raise (RuntimeError NotionTokenEmpty), []).
Proof.
  split; [reflexivity | discriminate].
Qed.

(** C6, amended: empty inputs are refused before anything is sent.
    [run_import] with an empty ISBN raises its error and leaves the trace
    as it was; [create_notion_page] raises the database-id error when the
    database id is empty and the token error when the token is empty and
    the database id is not, in both cases without any event; so an empty
    token or database id always ends in one of the two errors. *)
Theorem empty_inputs_rejected :
  (forall w token db tr,
      run_import w token db [] tr = (Raise (RuntimeError IsbnEmpty), tr))
  /\ (forall w token props tr,
         create_notion_page w token [] props tr
         = (Raise (RuntimeError NotionDatabaseIdEmpty), tr))
  /\ (forall w db props tr,
         truthy db = true ->
         create_notion_page w [] db props tr
         = (Raise (RuntimeError NotionTokenEmpty), tr))
  /\ (forall w token db props tr,
         token = [] \/ db = [] ->
         exists m,
           create_notion_page w token db props tr = (Raise (RuntimeError m), tr)
           /\ (m = NotionTokenEmpty \/ m = NotionDatabaseIdEmpty)).
Proof.
  split; [reflexivity|].
  split; [exact create_notion_page_no_database|].
  split; [exact create_notion_page_no_token|].
  intros w token db props tr H.
  destruct db as [|c t].
  - exists NotionDatabaseIdEmpty.
    rewrite create_notion_page_no_database. auto.
  - destruct H as [->|H]; [|discriminate].
    exists NotionTokenEmpty.
    rewrite create_notion_page_no_token by reflexivity. auto.
Qed.

Lemma empty_inputs_rejected_witness :
  create_notion_page
    (sample_world (Ok (page_response 200)) (timeouts_then_created 0))
    [] (lit "db") VNone []
  = (Raise (RuntimeError NotionTokenEmpty), [])
  /\ (exists m,
         create_notion_page
           (sample_world (Ok (page_response 200)) (timeouts_then_created 0))
           [] [] VNone []
         = (Raise (RuntimeError m), [])
         /\ (m = NotionTokenEmpty \/ m = NotionDatabaseIdEmpty)).
Proof.
  destruct empty_inputs_rejected as [_ [_ [Htok Hany]]].
  split.
  - apply Htok. reflexivity.
  - apply Hany. left. reflexivity.
Defined.

(** * Further properties *)

(** ** The entry point *)

Lemma run_import_run w token db isbn tr :
  isbn <> [] ->
  run_import w token db isbn tr =
  match fst (fetch_book_from_douban w isbn tr) with
  | Raise e => (Raise e, tr ++ [Get (douban_url isbn) douban_headers 10])
  | Ok b =>
      match build_notion_properties b with
      | Raise e => (Raise e, tr ++ [Get (douban_url isbn) douban_headers 10])
      | Ok props =>
          match create_notion_page w token db props
                  (tr ++ [Get (douban_url isbn) douban_headers 10]) with
          | (Ok page, tr') => (Ok (mkImportResult b props page), tr')
          | (Raise e, tr') => (Raise e, tr')
          end
      end
  end.
Proof.
  intros Hne. unfold run_import.
  destruct isbn as [|c t]; [contradiction|]. cbn [truthy negb].
  unfold io_bind at 1. rewrite fetch_book_run. cbn [fst].
  destruct (match requests_get w (douban_url (c :: t)) with
            | Ok resp => _ | Raise e => _ end) as [b|e]; [|reflexivity].
  unfold io_bind at 1. unfold io_lift at 1.
  destruct (build_notion_properties b) as [props|e]; [|reflexivity].
  unfold io_bind, io_ret.
  destruct (create_notion_page w token db props _) as [[page|e] tr'];
    reflexivity.
Qed.

Lemma build_notion_properties_ok b :
  exists props, build_notion_properties b = Ok props.
Proof.
  destruct (build_notion_properties_eq b) as [d [_ Hp]]. eauto.
Qed.

Lemma posts_sent_after_get tr url headers timeout :
  posts_sent (tr ++ [Get url headers timeout]) = posts_sent tr.
Proof. rewrite posts_sent_app. unfold posts_sent at 2. simpl. lia. Qed.

(** X1: a run with non-empty arguments, a catalog page with its title and
    info block, and a store that creates the page after fewer than three
    read timeouts returns the book read from the page, the payload built
    from that book and the page of the store; it sends one GET and then
    the POSTs, the last of which carries the payload. *)
Theorem run_import_success w token db isbn tr resp title_text labels k
  resp' created :
  isbn <> [] -> truthy token = true -> truthy db = true ->
  requests_get w (douban_url isbn) = Ok resp ->
  resp.(status_code) = 200%Z ->
  (BeautifulSoup w resp.(text)).(title_tag) = Some title_text ->
  (BeautifulSoup w resp.(text)).(info_div) = Some labels ->
  (k < 3)%nat ->
  (forall i, (i < k)%nat ->
             timed_out (requests_post w (posts_sent tr + i)%nat) = true) ->
  requests_post w (posts_sent tr + k)%nat = Ok resp' ->
  resp'.(status_code) = 200%Z ->
  resp'.(json) = Ok created ->
  exists b props,
    book_of_response w (douban_url isbn) resp = Ok b
    /\ build_notion_properties b = Ok props
    /\ run_import w token db isbn tr =
       (Ok (mkImportResult b props created),
        tr ++ [Get (douban_url isbn) douban_headers 10]
           ++ timed_out_attempts (notion_post token db props) 0 k
           ++ [notion_post token db props]).
Proof.
  intros Hne Htok Hdb Hget Hs Ht Hi Hk Hto Hpost Hs' Hj.
  destruct (book_of_response_ok w (douban_url isbn) resp title_text labels
              Hs Ht Hi) as [b Hb].
  destruct (build_notion_properties_ok b) as [props Hp].
  exists b, props. split; [exact Hb|]. split; [exact Hp|].
  rewrite (run_import_run w token db isbn tr Hne), fetch_book_run.
  cbn [fst]. rewrite Hget, Hb, Hp.
  pose proof (create_notion_page_run w token db props Htok Hdb
                (tr ++ [Get (douban_url isbn) douban_headers 10])) as R.
  cbv zeta in R. rewrite posts_sent_after_get in R.
  rewrite (leading_timeouts_exact (requests_post w) 3 (posts_sent tr) k Hto)
    in R; [|lia|right; rewrite Hpost; reflexivity].
  destruct (Nat.eqb_spec k 3) as [E|_]; [lia|].
  rewrite Hpost in R. cbn [finish] in R. rewrite Hs', Hj in R.
  cbn [Z.eqb Pos.eqb negb] in R.
  rewrite R. rewrite <- !app_assoc. reflexivity.
Qed.

Lemma run_import_success_witness :
  exists props,
    build_notion_properties sample_book = Ok props
    /\ run_import
         (sample_world (Ok (page_response 200)) (timeouts_then_created 2))
         (lit "secret") (lit "db") sample_isbn []
       = (Ok (mkImportResult sample_book props created_page),
          [] ++ [Get (douban_url sample_isbn) douban_headers 10]
             ++ timed_out_attempts (notion_post (lit "secret") (lit "db") props)
                                   0 2
             ++ [notion_post (lit "secret") (lit "db") props]).
Proof.
  destruct (run_import_success
              (sample_world (Ok (page_response 200)) (timeouts_then_created 2))
              (lit "secret") (lit "db") sample_isbn []
              (page_response 200) (lit "The  Title")
              match info_div sample_soup with Some l => l | None => [] end
              2%nat created_response created_page)
    as [b [props [Hb [Hp Hr]]]]; try reflexivity.
  - discriminate.
  - lia.
  - intros i Hi. destruct i as [|[|i]]; [reflexivity | reflexivity | lia].
  - assert (Eb : b = sample_book).
    { vm_compute in Hb. inversion Hb. reflexivity. }
    subst b. exists props. split; [exact Hp | exact Hr].
Defined.

(** X2: a run with a non-empty ISBN always sends the GET first.  When the
    fetcher fails the run raises the same error and nothing is posted; an
    empty token or database id is only found out after the page has been
    fetched and read, and nothing is posted then either. *)
Theorem run_import_aborts w token db isbn tr :
  isbn <> [] ->
  (exists ev,
      snd (run_import w token db isbn tr)
      = tr ++ Get (douban_url isbn) douban_headers 10 :: ev
      /\ (posts_sent ev <= 3)%nat)
  /\ (forall e,
         fst (fetch_book_from_douban w isbn tr) = Raise e ->
         run_import w token db isbn tr
         = (Raise e, tr ++ [Get (douban_url isbn) douban_headers 10]))
  /\ (forall b,
         fst (fetch_book_from_douban w isbn tr) = Ok b ->
         token = [] \/ db = [] ->
         exists m,
           run_import w token db isbn tr
           = (Raise (RuntimeError m),
              tr ++ [Get (douban_url isbn) douban_headers 10])
           /\ (m = NotionTokenEmpty \/ m = NotionDatabaseIdEmpty)).
Proof.
  intros Hne. rewrite (run_import_run w token db isbn tr Hne).
  split; [|split].
  - destruct (fst (fetch_book_from_douban w isbn tr)) as [b|e].
    + destruct (build_notion_properties_ok b) as [props Hp]. rewrite Hp.
      set (tr1 := tr ++ [Get (douban_url isbn) douban_headers 10]).
      assert (Hc : exists ev,
                 snd (create_notion_page w token db props tr1) = tr1 ++ ev
                 /\ (posts_sent ev <= 3)%nat).
      { destruct db as [|c t].
        { exists []. rewrite create_notion_page_no_database, app_nil_r.
          split; [reflexivity | unfold posts_sent; simpl; lia]. }
        destruct token as [|c' t'].
        { exists []. rewrite create_notion_page_no_token, app_nil_r
            by reflexivity.
          split; [reflexivity | unfold posts_sent; simpl; lia]. }
        pose proof (create_notion_page_run w (c' :: t') (c :: t) props
                      eq_refl eq_refl tr1) as R.
        cbv zeta in R. rewrite R. clear R.
        pose proof (leading_timeouts_le (requests_post w) (posts_sent tr1) 3)
          as Hk.
        destruct (Nat.eqb_spec
                    (leading_timeouts (requests_post w) (posts_sent tr1) 3) 3)
          as [E|E].
        - eexists. split; [reflexivity|].
          rewrite posts_sent_timed_out. lia.
        - eexists. split; [cbn [snd]; rewrite <- app_assoc; reflexivity|].
          rewrite posts_sent_app, posts_sent_timed_out.
          change (posts_sent [notion_post (c' :: t') (c :: t) props])
            with 1%nat. lia. }
      destruct Hc as [ev [He Hn]]. exists ev.
      destruct (create_notion_page w token db props tr1) as [[page|e] tr'];
        cbn [snd] in *; subst tr'; unfold tr1; rewrite <- app_assoc;
        split; auto.
    + exists []. split; [reflexivity | unfold posts_sent; simpl; lia].
  - intros e He. rewrite He. reflexivity.
  - intros b Hb Hemp. rewrite Hb.
    destruct (build_notion_properties_ok b) as [props Hp]. rewrite Hp.
    destruct db as [|c t].
    + exists NotionDatabaseIdEmpty.
      rewrite create_notion_page_no_database. auto.
    + destruct Hemp as [->|H]; [|discriminate].
      exists NotionTokenEmpty.
      rewrite create_notion_page_no_token by reflexivity. auto.
Qed.

Lemma run_import_aborts_witness :
  run_import (sample_world (Ok (page_response 404)) (timeouts_then_created 0))
             (lit "secret") (lit "db") sample_isbn []
  = (Raise (RuntimeError (DoubanNotFound (douban_url sample_isbn))),
     [] ++ [Get (douban_url sample_isbn) douban_headers 10])
  /\ (exists m,
         run_import
           (sample_world (Ok (page_response 200)) (timeouts_then_created 0))
           [] (lit "db") sample_isbn []
         = (Raise (RuntimeError m),
            [] ++ [Get (douban_url sample_isbn) douban_headers 10])
         /\ (m = NotionTokenEmpty \/ m = NotionDatabaseIdEmpty)).
Proof.
  split.
  - destruct (run_import_aborts
                (sample_world (Ok (page_response 404))
                              (timeouts_then_created 0))
                (lit "secret") (lit "db") sample_isbn [])
      as [_ [H _]]; [discriminate|].
    apply H. reflexivity.
  - destruct (run_import_aborts
                (sample_world (Ok (page_response 200))
                              (timeouts_then_created 0))
                [] (lit "db") sample_isbn [])
      as [_ [_ H]]; [discriminate|].
    apply (H sample_book); [vm_compute; reflexivity | left; reflexivity].
Defined.

(** ** Answers of the store *)

(** X3: an answer of the store is never retried.  After fewer than three
    read timeouts, an answer whose status is not 200 raises the creation
    error with the status and at most the first 500 characters of the
    body, and an answer with status 200 gives the outcome of [resp.json()]
    as it is, a decoding error included; in both cases the answered request
    is the last one sent. *)
Theorem create_notion_page_answer w token db props tr k resp :
  truthy token = true -> truthy db = true ->
  (k < 3)%nat ->
  (forall i, (i < k)%nat ->
             timed_out (requests_post w (posts_sent tr + i)%nat) = true) ->
  requests_post w (posts_sent tr + k)%nat = Ok resp ->
  let tr' := tr ++ timed_out_attempts (notion_post token db props) 0 k
                ++ [notion_post token db props] in
  (resp.(status_code) <> 200%Z ->
   create_notion_page w token db props tr
   = (Raise (RuntimeError
               (NotionCreateFailed resp.(status_code)
                                   (firstn 500 resp.(text)))),
      tr'))
  /\ (resp.(status_code) = 200%Z ->
      create_notion_page w token db props tr = (resp.(json), tr'))
  /\ (length (firstn 500 resp.(text)) <= 500)%nat
  /\ posts_sent (timed_out_attempts (notion_post token db props) 0 k
                 ++ [notion_post token db props]) = S k.
Proof.
  intros Htok Hdb Hk Hto Hpost. cbv zeta.
  pose proof (create_notion_page_run w token db props Htok Hdb tr) as R.
  cbv zeta in R.
  rewrite (leading_timeouts_exact (requests_post w) 3 (posts_sent tr) k Hto)
    in R; [|lia|right; rewrite Hpost; reflexivity].
  destruct (Nat.eqb_spec k 3) as [E|_]; [lia|].
  rewrite Hpost in R. cbn [finish] in R. rewrite <- app_assoc in R.
  split; [|split; [|split]].
  - intros Hs. rewrite R.
    destruct (Z.eqb_spec (status_code resp) 200); [contradiction|].
    reflexivity.
  - intros Hs. rewrite R, Hs. reflexivity.
  - apply firstn_le_length.
  - rewrite posts_sent_app, posts_sent_timed_out.
    change (posts_sent [notion_post token db props]) with 1%nat. lia.
Qed.

Lemma create_notion_page_answer_witness :
  create_notion_page
    (sample_world (Ok (page_response 200))
                  (fun _ => Ok (mkResponse 400 (lit "bad request") (Ok VNone))))
    (lit "secret") (lit "db") VNone []
  = (Raise (RuntimeError (NotionCreateFailed 400 (lit "bad request"))),
     [notion_post (lit "secret") (lit "db") VNone])
  /\ create_notion_page
       (sample_world (Ok (page_response 200))
                     (fun _ => Ok (mkResponse 200 (lit "<html>")
                                              (Raise (RequestException
                                                        (lit "not JSON"))))))
       (lit "secret") (lit "db") VNone []
     = (Raise (RequestException (lit "not JSON")),
        [notion_post (lit "secret") (lit "db") VNone]).
Proof.
  split.
  - pose proof (create_notion_page_answer
                  (sample_world (Ok (page_response 200))
                     (fun _ => Ok (mkResponse 400 (lit "bad request")
                                              (Ok VNone))))
                  (lit "secret") (lit "db") VNone [] 0%nat
                  (mkResponse 400 (lit "bad request") (Ok VNone))
                  eq_refl eq_refl) as H.
    cbv zeta in H.
    destruct H as [H _]; [lia | intros i Hi; lia | reflexivity |].
    refine (eq_trans (H _) _); [discriminate | reflexivity].
  - pose proof (create_notion_page_answer
                  (sample_world (Ok (page_response 200))
                     (fun _ => Ok (mkResponse 200 (lit "<html>")
                                      (Raise (RequestException
                                                (lit "not JSON"))))))
                  (lit "secret") (lit "db") VNone [] 0%nat
                  (mkResponse 200 (lit "<html>")
                              (Raise (RequestException (lit "not JSON"))))
                  eq_refl eq_refl) as H.
    cbv zeta in H.
    destruct H as [_ [H _]]; [lia | intros i Hi; lia | reflexivity |].
    refine (eq_trans (H _) _); reflexivity.
Defined.

(** ** The value of a label *)

Lemma collect_value_parts_until_br before stop after :
  name_is stop (lit "br") = true ->
  Forall (fun n => name_is n (lit "br") = false) before ->
  collect_value_parts (before ++ stop :: after) = collect_value_parts before.
Proof.
  intros Hstop Hb. induction before as [|n rest IH].
  - simpl. rewrite Hstop. reflexivity.
  - inversion Hb as [|? ? Hn Hrest]; subst. specialize (IH Hrest).
    cbn [app collect_value_parts]. rewrite Hn, IH. reflexivity.
Qed.

Lemma collect_value_parts_nonempty siblings :
  Forall (fun p => p <> []) (collect_value_parts siblings).
Proof.
  induction siblings as [|n rest IH]; cbn [collect_value_parts].
  - constructor.
  - destruct (name_is n (lit "br")); [constructor|].
    destruct (name_is n (lit "a")).
    + destruct n as [name [|c t] markup|s]; try exact IH.
      constructor; [discriminate | exact IH].
    + destruct (truthy (strip (node_str n))); [|exact IH].
      destruct (strip (replace (lit "&nbsp;") (lit " ") (strip (node_str n))))
        as [|c t] eqn:E; [exact IH|].
      cbn [truthy andb].
      destruct (negb (str_eqb (c :: t) (lit "/"))); [|exact IH].
      constructor; [discriminate | exact IH].
Qed.

(** X4: the value of a label is read from the siblings that come before the
    first [<br>] only, every part gathered from them is non-empty, and the
    value has no whitespace at either end. *)
Theorem raw_value_of_until_br label before stop after :
  name_is stop (lit "br") = true ->
  Forall (fun n => name_is n (lit "br") = false) before ->
  raw_value_of (mkLabelSpan label (before ++ stop :: after))
  = raw_value_of (mkLabelSpan label before)
  /\ Forall (fun p => p <> []) (collect_value_parts (before ++ stop :: after))
  /\ strip (raw_value_of (mkLabelSpan label (before ++ stop :: after)))
     = raw_value_of (mkLabelSpan label (before ++ stop :: after)).
Proof.
  intros Hstop Hb. split; [|split].
  - unfold raw_value_of. cbn [next_siblings].
    rewrite (collect_value_parts_until_br before stop after Hstop Hb).
    reflexivity.
  - apply collect_value_parts_nonempty.
  - apply raw_value_of_stripped.
Qed.

Lemma raw_value_of_until_br_witness :
  raw_value_of
    (mkLabelSpan label_publisher
       ([NavigableString (lit ": P ")]
          ++ br :: [NavigableString (lit "next line")]))
  = lit "P".
Proof.
  destruct (raw_value_of_until_br label_publisher
              [NavigableString (lit ": P ")] br
              [NavigableString (lit "next line")]) as [H _].
  - reflexivity.
  - repeat constructor.
  - refine (eq_trans H _). vm_compute. reflexivity.
Defined.

(** ** One label, one field *)

Lemma startswith_firstn p s :
  startswith p s = true -> firstn (length p) s = p.
Proof.
  revert s. induction p as [|x p IH]; intros s H; [reflexivity|].
  destruct s as [|c t]; [discriminate|].
  simpl in H. apply andb_prop in H. destruct H as [Hc Ht].
  apply N.eqb_eq in Hc. subst c. simpl. f_equal. apply IH. exact Ht.
Qed.

Lemma startswith_common p q s :
  startswith p s = true -> startswith q s = true ->
  firstn (Nat.min (length p) (length q)) p
  = firstn (Nat.min (length p) (length q)) q.
Proof.
  intros Hp Hq. apply startswith_firstn in Hp. apply startswith_firstn in Hq.
  assert (F : forall m r, (m <= length r)%nat -> firstn (length r) s = r ->
                          firstn m r = firstn m s).
  { intros m r Hm Hr. rewrite <- Hr at 1. rewrite firstn_firstn.
    f_equal. lia. }
  rewrite (F _ p (Nat.le_min_l _ _) Hp), (F _ q (Nat.le_min_r _ _) Hq).
  reflexivity.
Qed.

Lemma label_prefixes_exclusive label p q :
  In p label_prefixes -> In q label_prefixes ->
  startswith p label = true -> startswith q label = true -> p = q.
Proof.
  intros Hp Hq Sp Sq.
  pose proof (startswith_common p q label Sp Sq) as E. clear - Hp Hq E.
  simpl in Hp, Hq.
  repeat (destruct Hp as [Hp|Hp]; [subst p|]); try contradiction;
    repeat (destruct Hq as [Hq|Hq]; [subst q|]); try contradiction;
    try reflexivity; vm_compute in E; discriminate E.
Qed.

Lemma startswith_other label p q :
  In p label_prefixes -> In q label_prefixes -> p <> q ->
  startswith p label = true -> startswith q label = false.
Proof.
  intros Hp Hq Hne Sp. destruct (startswith q label) eqn:Sq; [|reflexivity].
  exfalso. apply Hne. exact (label_prefixes_exclusive label p q Hp Hq Sp Sq).
Qed.

Ltac not_prefix q H :=
  match type of H with
  | startswith ?p ?l = true =>
      rewrite (startswith_other l p q
                 ltac:(unfold label_prefixes; simpl; tauto)
                 ltac:(unfold label_prefixes; simpl; tauto)
                 ltac:(let E := fresh in
                       intro E; vm_compute in E; discriminate E)
                 H)
  end.

(** X5: at most one prefix of the chain matches a label, so the order of
    the tests does not matter, and a label sets its own field and leaves all
    the other fields as they were; a label that matches no prefix changes
    nothing. *)
Theorem route_one_field label raw_value f :
  (forall p q,
      In p label_prefixes -> In q label_prefixes ->
      startswith p label = true -> startswith q label = true -> p = q)
  /\ (startswith label_author label = true ->
      route label raw_value f =
      mkFields f.(f_publisher) f.(f_pubdate_raw) (split_names raw_value)
               f.(f_translators) f.(f_pages) f.(f_producer) f.(f_binding))
  /\ (startswith label_translator label = true ->
      route label raw_value f =
      mkFields f.(f_publisher) f.(f_pubdate_raw) f.(f_authors)
               (split_names raw_value) f.(f_pages) f.(f_producer)
               f.(f_binding))
  /\ (startswith label_publisher label = true ->
      route label raw_value f =
      mkFields (collapse_spaces (Some raw_value)) f.(f_pubdate_raw)
               f.(f_authors) f.(f_translators) f.(f_pages) f.(f_producer)
               f.(f_binding))
  /\ (startswith label_pubdate label = true ->
      route label raw_value f =
      mkFields f.(f_publisher) (Some raw_value) f.(f_authors)
               f.(f_translators) f.(f_pages) f.(f_producer) f.(f_binding))
  /\ (startswith label_producer label = true ->
      route label raw_value f =
      mkFields f.(f_publisher) f.(f_pubdate_raw) f.(f_authors)
               f.(f_translators) f.(f_pages)
               (Some (collapse_spaces (Some raw_value))) f.(f_binding))
  /\ (startswith label_binding label = true ->
      route label raw_value f =
      mkFields f.(f_publisher) f.(f_pubdate_raw) f.(f_authors)
               f.(f_translators) f.(f_pages) f.(f_producer)
               (Some (collapse_spaces (Some raw_value))))
  /\ (startswith label_pages label = true ->
      route label raw_value f =
      mkFields f.(f_publisher) f.(f_pubdate_raw) f.(f_authors)
               f.(f_translators) (Some (extract_pages raw_value))
               f.(f_producer) f.(f_binding))
  /\ (known_label label = false -> route label raw_value f = f).
Proof.
  split; [exact (label_prefixes_exclusive label)|].
  repeat split; intros H; unfold route.
  - rewrite H. reflexivity.
  - not_prefix label_author H. rewrite H. reflexivity.
  - not_prefix label_author H. not_prefix label_translator H.
    rewrite H. reflexivity.
  - not_prefix label_author H. not_prefix label_translator H.
    not_prefix label_publisher H. rewrite H. reflexivity.
  - not_prefix label_author H. not_prefix label_translator H.
    not_prefix label_publisher H. not_prefix label_pubdate H.
    rewrite H. reflexivity.
  - not_prefix label_author H. not_prefix label_translator H.
    not_prefix label_publisher H. not_prefix label_pubdate H.
    not_prefix label_producer H. rewrite H. reflexivity.
  - not_prefix label_author H. not_prefix label_translator H.
    not_prefix label_publisher H. not_prefix label_pubdate H.
    not_prefix label_producer H. not_prefix label_binding H.
    rewrite H. reflexivity.
  - unfold known_label, label_prefixes in H. cbn [existsb] in H.
    repeat (apply orb_false_elim in H; destruct H as [?H H]).
    repeat match goal with E : startswith _ label = false |- _ =>
                             rewrite E; clear E end.
    reflexivity.
Qed.

Lemma route_one_field_witness :
  route (label_pubdate ++ lit ":") (lit "2018-8") initial_fields
  = mkFields [] (Some (lit "2018-8")) [] [] None None None
  /\ route (lit "ISBN") (lit "9787020002207") initial_fields = initial_fields
  /\ label_publisher = label_publisher.
Proof.
  destruct (route_one_field (label_pubdate ++ lit ":") (lit "2018-8")
              initial_fields) as [Hex [_ [_ [_ [Hd _]]]]].
  destruct (route_one_field (lit "ISBN") (lit "9787020002207")
              initial_fields) as [_ [_ [_ [_ [_ [_ [_ [_ Hu]]]]]]]].
  destruct (route_one_field (label_publisher ++ lit ":") [] initial_fields)
    as [Hex' _].
  split; [|split].
  - refine (eq_trans (Hd _) _); reflexivity.
  - apply Hu. reflexivity.
  - apply (Hex' label_publisher label_publisher);
      try (simpl; tauto); reflexivity.
Defined.

(** ** The fields of a fetched book *)

Lemma collapsed_collapse s : collapsed (collapse_spaces (Some s)).
Proof. apply collapse_spaces_idempotent_str. Qed.

Lemma stripped_collapse_nonempty raw :
  raw <> [] -> strip raw = raw -> collapse_spaces (Some raw) <> [].
Proof.
  intros Hne Hs. apply collapse_spaces_nonempty, strip_truthy_words.
  rewrite Hs. destruct raw; [contradiction | reflexivity].
Qed.

Lemma route_fields_normal label raw f :
  raw <> [] -> strip raw = raw ->
  fields_normal f -> fields_normal (route label raw f).
Proof.
  intros Hne Hs (Hpub & Hdate & Hpages & Hprod & Hbind).
  pose proof (collapsed_collapse raw) as Hc.
  pose proof (stripped_collapse_nonempty raw Hne Hs) as Hn.
  unfold route.
  repeat match goal with
         | |- context [if ?b then _ else _] => destruct b
         end;
    unfold fields_normal; cbn [f_publisher f_pubdate_raw f_pages f_producer
                               f_binding opt_all];
    repeat split; auto using extract_pages_digits.
Qed.

Lemma process_label_fields_normal f span :
  fields_normal f -> fields_normal (process_label f span).
Proof.
  intros H. unfold process_label.
  destruct (raw_value_of span) as [|c t] eqn:E; [exact H|].
  cbn [truthy negb]. apply route_fields_normal; [discriminate| |exact H].
  rewrite <- E. apply raw_value_of_stripped.
Qed.

Lemma fold_process_label_fields_normal labels f :
  fields_normal f -> fields_normal (fold_left process_label labels f).
Proof.
  revert f. induction labels as [|span rest IH]; intros f H; simpl.
  - exact H.
  - apply IH, process_label_fields_normal, H.
Qed.

(** X6: every book the fetcher returns binds its title, publisher, author
    and translator keys; its title, publisher, producer and binding are
    whitespace-collapsed, producer and binding are non-empty when present,
    the raw date is non-empty without whitespace at its ends, and the page
    count is made of decimal digits only. *)
Theorem fetched_book_normal w isbn tr b tr' :
  fetch_book_from_douban w isbn tr = (Ok b, tr') ->
  (exists t p a tl,
      b.(title) = Some t /\ b.(publisher) = Some p
      /\ b.(author) = Some a /\ b.(translator) = Some tl
      /\ collapsed t /\ collapsed p)
  /\ opt_all (fun r => r <> [] /\ strip r = r) b.(pubdate)
  /\ opt_all (fun p => p <> [] /\ collapsed p) b.(producer)
  /\ opt_all (fun p => p <> [] /\ collapsed p) b.(binding)
  /\ opt_all (fun p => forallb isdecimal p = true) b.(pages).
Proof.
  intros Hf.
  destruct (fetch_book_inv _ _ _ _ _ Hf) as [resp [_ [Hb _]]].
  destruct (book_of_response_fields _ _ _ _ Hb)
    as [title_text [labels [_ [_ [_ ->]]]]].
  assert (Hn : fields_normal (fold_left process_label labels initial_fields)).
  { apply fold_process_label_fields_normal.
    unfold fields_normal, initial_fields. cbn. repeat split. }
  destruct Hn as (Hpub & Hdate & Hpages & Hprod & Hbind).
  cbv zeta. cbn [title publisher author translator pubdate producer binding
                 pages].
  split; [|auto].
  do 4 eexists. repeat split; try reflexivity; [|exact Hpub].
  apply collapsed_collapse.
Qed.

Lemma fetched_book_normal_witness :
  opt_all (fun p => forallb isdecimal p = true) sample_book.(pages)
  /\ opt_all (fun r => r <> [] /\ strip r = r) sample_book.(pubdate).
Proof.
  destruct (fetched_book_normal
              (sample_world (Ok (page_response 200)) (timeouts_then_created 0))
              sample_isbn [] sample_book
              [Get (douban_url sample_isbn) douban_headers 10])
    as [_ [Hd [_ [_ Hp]]]].
  - vm_compute. reflexivity.
  - split; [exact Hp | exact Hd].
Defined.

(** ** Pages without usable labels *)

Lemma process_label_ignored f span :
  raw_value_of span = []
  \/ known_label (rstrip_chars colons span.(label_text)) = false ->
  process_label f span = f.
Proof.
  intros [H|H]; unfold process_label.
  - rewrite H. reflexivity.
  - destruct (negb (truthy (raw_value_of span))); [reflexivity|].
    unfold known_label, label_prefixes in H. cbn [existsb] in H.
    repeat (apply orb_false_elim in H; destruct H as [?H H]).
    unfold route.
    repeat match goal with E : startswith _ _ = false |- _ =>
                             rewrite E; clear E end.
    reflexivity.
Qed.

(** X7: labels that are unknown or have an empty value are skipped: a page
    whose info block holds only such labels, or none, gives a book with the
    collapsed title, an empty publisher, no authors, no translators and
    nothing else. *)
Theorem fetch_book_defaults w isbn tr resp title_text labels :
  requests_get w (douban_url isbn) = Ok resp ->
  resp.(status_code) = 200%Z ->
  (BeautifulSoup w resp.(text)).(title_tag) = Some title_text ->
  (BeautifulSoup w resp.(text)).(info_div) = Some labels ->
  Forall (fun span =>
            raw_value_of span = []
            \/ known_label (rstrip_chars colons span.(label_text)) = false)
         labels ->
  fst (fetch_book_from_douban w isbn tr)
  = Ok (mkBook (Some (collapse_spaces (Some title_text))) (Some [])
               (Some []) (Some []) None None None None).
Proof.
  intros Hg Hs Ht Hi Hl. rewrite fetch_book_run. cbn [fst]. rewrite Hg.
  unfold book_of_response. rewrite Hs, Ht, Hi. cbn [Z.eqb Pos.eqb negb].
  assert (E : fold_left process_label labels initial_fields = initial_fields).
  { clear - Hl. generalize initial_fields.
    induction Hl as [|span rest H _ IH]; intros f.
    - reflexivity.
    - cbn [fold_left]. rewrite (process_label_ignored f span H). apply IH. }
  rewrite E. reflexivity.
Qed.

Lemma fetch_book_defaults_witness :
  fst (fetch_book_from_douban
         (mkWorld (fun _ => Ok (page_response 200))
                  (fun _ => mkSoup (Some (lit " A  Book "))
                              (Some [mkLabelSpan (lit "ISBN:")
                                       [NavigableString (lit " 978"); br];
                                     mkLabelSpan (label_author ++ lit ":")
                                       [NavigableString (lit " : "); br]]))
                  (timeouts_then_created 0))
         sample_isbn [])
  = Ok (mkBook (Some (lit "A Book")) (Some []) (Some []) (Some [])
               None None None None).
Proof.
  refine (eq_trans
            (fetch_book_defaults
               (mkWorld (fun _ => Ok (page_response 200))
                  (fun _ => mkSoup (Some (lit " A  Book "))
                              (Some [mkLabelSpan (lit "ISBN:")
                                       [NavigableString (lit " 978"); br];
                                     mkLabelSpan (label_author ++ lit ":")
                                       [NavigableString (lit " : "); br]]))
                  (timeouts_then_created 0))
               sample_isbn [] (page_response 200) (lit " A  Book ")
               [mkLabelSpan (lit "ISBN:") [NavigableString (lit " 978"); br];
                mkLabelSpan (label_author ++ lit ":")
                  [NavigableString (lit " : "); br]]
               eq_refl eq_refl eq_refl eq_refl _) _).
  - constructor; [right; reflexivity|].
    constructor; [left; reflexivity|]. constructor.
  - vm_compute. reflexivity.
Defined.

(** ** What the names keep of the raw value *)

Lemma filter_collapse_spaces (p : char -> bool) s :
  (forall c, p c = true -> isspace c = false) ->
  filter p (collapse_spaces (Some s)) = filter p s.
Proof.
  intros H.
  assert (Hs : p space = false).
  { destruct (p space) eqn:E; [|reflexivity].
    apply H in E. discriminate. }
  rewrite collapse_spaces_words, filter_join_space by exact Hs.
  rewrite concat_words. apply filter_filter_implies.
  intros c Hc. rewrite (H c Hc). reflexivity.
Qed.

Lemma startswith_app old s :
  startswith old s = true -> s = old ++ skipn (length old) s.
Proof.
  revert s. induction old as [|x old IH]; intros s H; [reflexivity|].
  destruct s as [|c t]; [discriminate|].
  simpl in H. apply andb_prop in H. destruct H as [Hc Ht].
  apply N.eqb_eq in Hc. subst c. simpl. f_equal. apply IH. exact Ht.
Qed.

Lemma filter_replace_from (p : char -> bool) old new :
  old <> [] -> filter p old = filter p new ->
  forall s skip,
    filter p (replace_from old new skip s) = filter p (skipn skip s).
Proof.
  intros Hne Hf. induction s as [|c t IH]; intros skip.
  - destruct skip; reflexivity.
  - cbn [replace_from]. destruct skip as [|k].
    + destruct (startswith old (c :: t)) eqn:E.
      * rewrite filter_app, IH, <- Hf.
        apply startswith_app in E. cbn [skipn].
        transitivity (filter p (old ++ skipn (length old) (c :: t)));
          [|rewrite <- E; reflexivity].
        rewrite filter_app. f_equal.
        destruct old as [|x old']; [contradiction|]. reflexivity.
      * cbn [skipn filter]. rewrite (IH O). reflexivity.
    + cbn [skipn]. apply IH.
Qed.

Lemma filter_replace (p : char -> bool) old new s :
  old <> [] -> filter p old = filter p new ->
  filter p (replace old new s) = filter p s.
Proof.
  intros Hne Hf. unfold replace.
  rewrite (filter_replace_from p old new Hne Hf s O). reflexivity.
Qed.

Lemma concat_split sep s :
  concat (split sep s) = filter (fun c => negb (c =? sep)) s.
Proof.
  induction s as [|c t IH]; [reflexivity|].
  simpl. destruct (c =? sep); simpl; [exact IH|].
  destruct (split sep t) as [|w ws]; simpl in *; [rewrite <- IH|rewrite <- IH];
    reflexivity.
Qed.

Lemma lstrip_by_nil_all p s : lstrip_by p s = [] -> forallb p s = true.
Proof.
  induction s as [|c t IH]; simpl; [reflexivity|].
  destruct (p c); [exact IH | discriminate].
Qed.

Lemma strip_nil_all_space s : strip s = [] -> forallb isspace s = true.
Proof.
  unfold strip, rstrip_by. intros H.
  assert (H' : lstrip_by isspace (rev (lstrip_by isspace s)) = []).
  { destruct (lstrip_by isspace (rev (lstrip_by isspace s))) as [|x l];
      [reflexivity|].
    simpl in H. destruct (rev l); discriminate. }
  apply lstrip_by_nil_all in H'.
  pose proof (lstrip_by_head_false isspace s) as Hh.
  destruct (lstrip_by isspace s) as [|c t] eqn:E.
  - apply lstrip_by_nil_all. exact E.
  - rewrite forallb_forall in H'.
    rewrite (H' c) in Hh; [discriminate|].
    rewrite <- in_rev. left. reflexivity.
Qed.

Lemma filter_all_false {A} (p q : A -> bool) l :
  forallb q l = true -> (forall a, p a = true -> q a = false) ->
  filter p l = [].
Proof.
  intros Hq H. apply filter_none. intros a Ha.
  rewrite forallb_forall in Hq. specialize (Hq a Ha).
  destruct (p a) eqn:E; [|reflexivity]. rewrite (H a E) in Hq. discriminate.
Qed.

Lemma name_char_not_space c : name_char c = true -> isspace c = false.
Proof.
  unfold name_char. intros H. apply andb_prop in H. destruct H as [H _].
  apply negb_true_iff. exact H.
Qed.

Lemma filter_names segments :
  filter name_char
    (concat (map (fun v => collapse_spaces (Some v))
                 (filter (fun v => truthy (strip v)) segments)))
  = filter name_char (concat segments).
Proof.
  induction segments as [|v rest IH]; [reflexivity|].
  cbn [filter concat]. rewrite filter_app, <- IH.
  destruct (strip v) as [|c t] eqn:E; cbn [truthy].
  - apply strip_nil_all_space in E.
    rewrite (filter_all_false name_char isspace v E name_char_not_space).
    reflexivity.
  - cbn [map concat]. rewrite filter_app.
    rewrite (filter_collapse_spaces name_char v name_char_not_space).
    reflexivity.
Qed.

(** X8: splitting an author or translator value loses nothing but
    whitespace and ["/"]: the characters of the names that are neither, read
    in order, are those of the raw value; no name contains ["/"], and no
    name begins or ends with whitespace. *)
Theorem split_names_content raw_value :
  filter name_char (concat (split_names raw_value))
  = filter name_char raw_value
  /\ Forall (fun n => ~ In slash n) (split_names raw_value)
  /\ Forall (fun n => strip n = n) (split_names raw_value).
Proof.
  split; [|split].
  - unfold split_names. rewrite filter_names, concat_split.
    rewrite (filter_filter_implies name_char (fun c => negb (c =? slash))).
    + apply filter_replace; [discriminate | reflexivity].
    + intros c H. unfold name_char in H. apply andb_prop in H. apply H.
  - apply Forall_forall. intros n Hn. unfold split_names in Hn.
    apply in_map_iff in Hn. destruct Hn as [v [<- Hv]].
    apply filter_In in Hv. destruct Hv as [Hv _].
    pose proof (split_no_sep_in slash
                  (replace (lit " / ") (lit "/") raw_value)) as F.
    rewrite Forall_forall in F. specialize (F v Hv).
    intros Hin. apply in_collapse_spaces in Hin.
    destruct Hin as [Hin|Hin]; [discriminate | contradiction].
  - apply Forall_forall. intros n Hn.
    destruct (in_split_names _ _ Hn) as [v [-> _]].
    destruct v as [|c t]; [reflexivity|].
    unfold collapse_spaces. cbn [truthy_opt truthy negb].
    apply strip_idempotent.
Qed.

Lemma split_names_content_witness :
  filter name_char (concat (split_names (lit " A x / / B/")))
  = lit "AxB".
Proof.
  refine (eq_trans (proj1 (split_names_content (lit " A x / / B/"))) _).
  vm_compute. reflexivity.
Defined.

(** ** Names in the payload *)

Lemma join_space_app (v w : list str) :
  v <> [] -> w <> [] ->
  join [space] (v ++ w) = join [space] v ++ [space] ++ join [space] w.
Proof.
  intros Hv Hw. induction v as [|x v IH]; [contradiction|].
  destruct v as [|y v'].
  - destruct w as [|z w']; [contradiction|]. reflexivity.
  - change ((x :: y :: v') ++ w) with (x :: (y :: v') ++ w).
    cbn [app] in *. rewrite !join_cons_cons.
    rewrite IH by discriminate. rewrite <- !app_assoc. reflexivity.
Qed.

Lemma words_with_comma ws :
  ws <> [] -> Forall is_word ws ->
  exists v, v <> [] /\ Forall is_word v
            /\ join [space] v = join [space] ws ++ lit ",".
Proof.
  induction ws as [|w ws IH]; intros Hne Hw; [contradiction|].
  inversion Hw as [|? ? [Hwn Hwa] Hrest]; subst.
  destruct ws as [|w2 r].
  - exists [w ++ lit ","]. split; [discriminate|]. split; [|reflexivity].
    constructor; [|constructor]. split.
    + destruct w; discriminate.
    + rewrite forallb_app, Hwa. reflexivity.
  - destruct (IH ltac:(discriminate) Hrest) as [v [Hv [Fv Ev]]].
    exists (w :: v). split; [discriminate|]. split.
    + constructor; [split; assumption | exact Fv].
    + destruct v as [|v1 v']; [contradiction|].
      rewrite !join_cons_cons, Ev, <- !app_assoc. reflexivity.
Qed.

Lemma clean_name_words n :
  clean_name n -> words n <> [] /\ join [space] (words n) = n.
Proof.
  intros [Hne Hc]. unfold collapsed in Hc.
  rewrite collapse_spaces_words in Hc. split; [|exact Hc].
  intros E. rewrite E in Hc. simpl in Hc. auto.
Qed.

Lemma join_comma_words names :
  names <> [] -> Forall clean_name names ->
  exists v, v <> [] /\ Forall is_word v
            /\ join (lit ", ") names = join [space] v.
Proof.
  induction names as [|n rest IH]; intros Hne Hc; [contradiction|].
  inversion Hc as [|? ? Hn Hrest]; subst.
  destruct (clean_name_words n Hn) as [Hwn En].
  destruct rest as [|m rest'].
  - exists (words n). split; [exact Hwn|]. split; [apply words_is_word|].
    simpl. symmetry. exact En.
  - destruct (IH ltac:(discriminate) Hrest) as [v [Hv [Fv Ev]]].
    destruct (words_with_comma (words n) Hwn (words_is_word n))
      as [u [Hu [Fu Eu]]].
    exists (u ++ v). split; [destruct u; [contradiction | discriminate]|].
    split; [apply Forall_app; split; assumption|].
    rewrite join_space_app by assumption.
    rewrite Eu, En, <- Ev. rewrite join_cons_cons.
    rewrite <- !app_assoc. reflexivity.
Qed.

Lemma names_str_clean names :
  Forall clean_name names -> names_str names = join (lit ", ") names.
Proof.
  intros Hc. destruct names as [|n rest]; [reflexivity|].
  unfold names_str.
  destruct (join_comma_words (n :: rest) ltac:(discriminate) Hc)
    as [v [_ [Fv Ev]]].
  rewrite Ev, collapse_spaces_words, words_join by exact Fv. reflexivity.
Qed.

Lemma split_names_clean raw : Forall clean_name (split_names raw).
Proof.
  pose proof (split_names_nonempty raw) as H1.
  pose proof (split_names_collapsed raw) as H2.
  rewrite Forall_forall in *. intros n Hn. split; [apply H1 | apply H2]; auto.
Qed.

Lemma route_names_clean label raw_value f :
  names_clean f -> names_clean (route label raw_value f).
Proof.
  intros [Ha Ht]. unfold route.
  repeat match goal with
         | |- context [if ?b then _ else _] => destruct b
         end;
    split; simpl; auto using split_names_clean.
Qed.

Lemma fold_process_label_names_clean labels f :
  names_clean f -> names_clean (fold_left process_label labels f).
Proof.
  revert f. induction labels as [|span rest IH]; intros f H; simpl.
  - exact H.
  - apply IH. unfold process_label.
    destruct (negb (truthy (raw_value_of span))); [exact H|].
    apply route_names_clean, H.
Qed.

Lemma fetched_names_clean w isbn tr b tr' :
  fetch_book_from_douban w isbn tr = (Ok b, tr') ->
  Forall clean_name (or_nil b.(author))
  /\ Forall clean_name (or_nil b.(translator)).
Proof.
  intros Hf.
  destruct (fetch_book_inv _ _ _ _ _ Hf) as [resp [_ [Hb _]]].
  destruct (book_of_response_fields _ _ _ _ Hb)
    as [title_text [labels [_ [_ [_ ->]]]]].
  cbv zeta. cbn [author translator or_nil].
  apply fold_process_label_names_clean. split; constructor.
Qed.

(** X9: the payload lists the names as they are.  For names that are
    non-empty and whitespace-collapsed the text of the column is the names
    joined by [", "], untouched by the collapsing; the names of every book
    the fetcher returns are such, so its author and translator columns hold
    exactly that text (and are empty when there is no name). *)
Theorem payload_names :
  (forall names,
      Forall clean_name names -> names_str names = join (lit ", ") names)
  /\ (forall w isbn tr b tr',
         fetch_book_from_douban w isbn tr = (Ok b, tr') ->
         exists fields,
           build_notion_properties b = Ok (VDict fields)
           /\ dict_get (VDict fields) col_author
              = Some (rich_text_property
                        (Some (join (lit ", ") (or_nil b.(author)))))
           /\ dict_get (VDict fields) col_translator
              = Some (rich_text_property
                        (Some (join (lit ", ") (or_nil b.(translator)))))).
Proof.
  split; [exact names_str_clean|].
  intros w isbn tr b tr' Hf.
  destruct (fetched_names_clean _ _ _ _ _ Hf) as [Ha Ht].
  destruct (build_notion_properties_eq b) as [d [_ E]].
  eexists. split; [exact E|]. split; dict_lookup.
  - rewrite (names_str_clean _ Ha). reflexivity.
  - rewrite (names_str_clean _ Ht). reflexivity.
Qed.

Lemma payload_names_witness :
  names_str [lit "Dan Brown"; lit "B"] = lit "Dan Brown, B"
  /\ exists fields,
       build_notion_properties sample_book = Ok (VDict fields)
       /\ dict_get (VDict fields) col_author
          = Some (rich_text_property (Some (lit "A, B"))).
Proof.
  destruct payload_names as [Hn Hb]. split.
  - refine (eq_trans (Hn _ _) _); [|reflexivity].
    repeat constructor; try discriminate; vm_compute; reflexivity.
  - destruct (Hb (sample_world (Ok (page_response 200))
                               (timeouts_then_created 0))
                 sample_isbn [] sample_book
                 [Get (douban_url sample_isbn) douban_headers 10])
      as [fields [E [Ha _]]].
    + vm_compute. reflexivity.
    + exists fields. split; [exact E | exact Ha].
Defined.

(** ** Dates that are already normal *)

Lemma ascii_digit_decimal c :
  is_ascii_digit c = true ->
  decimal_value c = Some (c - 0x30) /\ isspace c = false /\ c <> dash.
Proof.
  intros H. unfold is_ascii_digit in H. apply andb_prop in H.
  destruct H as [H1 H2]. apply N.leb_le in H1, H2.
  assert (Hk : c - 48 < 10) by lia.
  pose proof (below_ten _ Hk) as Hin.
  replace c with (48 + (c - 48)) by lia.
  simpl in Hin.
  repeat (destruct Hin as [Hin|Hin];
          [rewrite <- Hin; vm_compute; repeat split; discriminate|]).
  contradiction.
Qed.

Lemma ascii_digits_decimal ds :
  Forall (fun c => is_ascii_digit c = true) ds ->
  forallb isdecimal ds = true
  /\ decimal_values ds = map (fun c => c - 0x30) ds
  /\ forallb (fun c => negb (isspace c)) ds = true
  /\ ~ In dash ds.
Proof.
  induction 1 as [|c ds Hc _ IH].
  - repeat split. intros [].
  - destruct IH as (H1 & H2 & H3 & H4).
    destruct (ascii_digit_decimal c Hc) as (D1 & D2 & D3).
    unfold decimal_values in *. cbn [forallb map]. unfold isdecimal at 1.
    rewrite D1, D2, H1, H2, H3. repeat split.
    intros [E|E]; contradiction.
Qed.

Lemma py_int_reads_as field z :
  reads_as field z -> field <> [] ->
  (length field <= int_max_str_digits)%nat ->
  py_int field = Ok z.
Proof.
  intros [F V] Hne Hlen.
  destruct (ascii_digits_decimal field F) as (H1 & H2 & _).
  rewrite (py_int_decimal field H1 Hne Hlen), H2, V. reflexivity.
Qed.

Lemma zero_padded_length width z :
  (0 <= z)%Z ->
  length (zero_padded width z)
  = Nat.max width (length (to_digits (Z.abs_N z))).
Proof.
  intros Hz. unfold zero_padded. destruct (Z.ltb_spec z 0); [lia|].
  rewrite !length_app, repeat_length. cbn [length]. unfold char. lia.
Qed.

Lemma py_int_zero_padded width z :
  (0 <= z)%Z -> (1 <= width <= int_max_str_digits)%nat ->
  (length (to_digits (Z.abs_N z)) <= int_max_str_digits)%nat ->
  py_int (zero_padded width z) = Ok z.
Proof.
  intros Hz Hw Hc.
  pose proof (zero_padded_length width z Hz) as L.
  apply py_int_reads_as.
  - apply zero_padded_reads_as. exact Hz.
  - intros E. rewrite E in L. simpl in L. lia.
  - rewrite L. lia.
Qed.

Lemma split_app_sep sep a b :
  ~ In sep a -> split sep (a ++ sep :: b) = a :: split sep b.
Proof.
  induction a as [|c a IH]; intros H.
  - simpl. rewrite N.eqb_refl. reflexivity.
  - cbn [app split]. destruct (N.eqb_spec c sep) as [->|Hne].
    + exfalso. apply H. left. reflexivity.
    + rewrite IH; [reflexivity|]. intros Hin. apply H. right. exact Hin.
Qed.

Lemma strip_no_space s :
  forallb (fun c => negb (isspace c)) s = true -> strip s = s.
Proof.
  intros H.
  assert (L : forall u, forallb (fun c => negb (isspace c)) u = true ->
                        lstrip_by isspace u = u).
  { intros [|c t] Hu; [reflexivity|]. simpl in Hu. apply andb_prop in Hu.
    apply lstrip_by_head, negb_true_iff, Hu. }
  unfold strip, rstrip_by. rewrite (L s H).
  rewrite L; [apply rev_involutive|].
  rewrite forallb_forall in *. intros c Hc. apply H. rewrite in_rev. exact Hc.
Qed.

Lemma convert_pubdate_date_text year month day :
  (0 <= year)%Z ->
  (length (to_digits (Z.abs_N year)) <= int_max_str_digits)%nat ->
  (1 <= month <= 12)%Z -> (1 <= day <= 31)%Z ->
  convert_pubdate (Some (date_text year month day))
  = Ok (Some (date_text year month day)).
Proof.
  intros Hy Hc Hm Hd.
  destruct (zero_padded_reads_as 4 year Hy) as [Fy _].
  destruct (zero_padded_reads_as 2 month ltac:(lia)) as [Fm _].
  destruct (zero_padded_reads_as 2 day ltac:(lia)) as [Fd _].
  destruct (ascii_digits_decimal _ Fy) as (_ & _ & Sy & Dy).
  destruct (ascii_digits_decimal _ Fm) as (_ & _ & Sm & Dm).
  destruct (ascii_digits_decimal _ Fd) as (_ & _ & Sd & Dd).
  assert (Ey : py_int (zero_padded 4 year) = Ok year).
  { apply py_int_zero_padded; [exact Hy | unfold int_max_str_digits; lia
                               | exact Hc]. }
  assert (Em : py_int (zero_padded 2 month) = Ok month).
  { apply py_int_zero_padded; [lia | unfold int_max_str_digits; lia|].
    pose proof (small_within_cap month ltac:(lia)).
    unfold int_max_str_digits, char in *. lia. }
  assert (Ed : py_int (zero_padded 2 day) = Ok day).
  { apply py_int_zero_padded; [lia | unfold int_max_str_digits; lia|].
    pose proof (small_within_cap day ltac:(lia)).
    unfold int_max_str_digits, char in *. lia. }
  assert (Es : strip (date_text year month day) = date_text year month day).
  { apply strip_no_space. unfold date_text.
    rewrite !forallb_app, Sy, Sm, Sd. reflexivity. }
  assert (Ep : split dash (date_text year month day)
               = [zero_padded 4 year; zero_padded 2 month;
                  zero_padded 2 day]).
  { unfold date_text. cbn [app].
    rewrite (split_app_sep dash _ _ Dy), (split_app_sep dash _ _ Dm),
      (split_no_sep dash _ Dd). reflexivity. }
  assert (Hne : date_text year month day <> []).
  { unfold date_text. intros E. apply app_eq_nil in E. destruct E as [_ E].
    discriminate E. }
  rewrite (convert_pubdate_parseable _ year Hne); rewrite Es, Ep;
    [|exact Ey].
  unfold spec_month, spec_day, int_or. rewrite Em, Ed.
  replace (Z.max 1 (Z.min month 12)) with month by lia.
  replace (Z.max 1 (Z.min day 31)) with day by lia.
  reflexivity.
Qed.

Lemma convert_pubdate_inv raw d :
  convert_pubdate raw = Ok (Some d) ->
  exists year month day,
    d = date_text year month day
    /\ (0 <= year)%Z
    /\ (length (to_digits (Z.abs_N year)) <= int_max_str_digits)%nat
    /\ (1 <= month <= 12)%Z /\ (1 <= day <= 31)%Z.
Proof.
  intros H. destruct raw as [rp|]; [|discriminate].
  destruct rp as [|c t]; [discriminate|].
  destruct (py_int (hd [] (split dash (strip (c :: t))))) as [year|e] eqn:E.
  - rewrite (convert_pubdate_parseable (c :: t) year) in H;
      [|discriminate|exact E].
    inversion H. exists year, (spec_month (split dash (strip (c :: t)))),
      (spec_day (split dash (strip (c :: t)))).
    split; [reflexivity|]. split; [exact (year_nonneg _ _ E)|].
    split; [exact (py_int_within_cap _ _ E)|].
    split; [apply spec_month_range | apply spec_day_range].
  - rewrite (convert_pubdate_unparseable _ e E) in H. discriminate.
Qed.

(** X10: a date that [convert_pubdate] has produced is left as it is when
    converted again. *)
Theorem convert_pubdate_idempotent raw d :
  convert_pubdate raw = Ok (Some d) ->
  convert_pubdate (Some d) = Ok (Some d).
Proof.
  intros H.
  destruct (convert_pubdate_inv raw d H)
    as (year & month & day & -> & Hy & Hc & Hm & Hd).
  apply convert_pubdate_date_text; assumption.
Qed.

Lemma convert_pubdate_idempotent_witness :
  convert_pubdate (Some (lit "2018-08-01")) = Ok (Some (lit "2018-08-01")).
Proof.
  apply (convert_pubdate_idempotent (Some (lit " 2018-8"))).
  vm_compute. reflexivity.
Defined.

Lemma to_digits_short n k :
  (length (to_digits n) <= k)%nat -> n < 10 ^ N.of_nat k.
Proof.
  intros H. destruct (to_digits_value n) as [F V].
  assert (Fs : Forall (fun d => d <= 9)
                      (map (fun c => c - 0x30) (to_digits n))).
  { apply Forall_forall. intros d Hd. apply in_map_iff in Hd.
    destruct Hd as [c [<- Hc]]. rewrite Forall_forall in F.
    specialize (F c Hc). unfold is_ascii_digit in F.
    apply andb_prop in F. destruct F as [F1 F2].
    apply N.leb_le in F1, F2. lia. }
  pose proof (digits_value_lt _ Fs) as B. rewrite V, length_map in B.
  eapply N.lt_le_trans; [exact B|].
  apply N.pow_le_mono_r; [discriminate|]. unfold char in *. lia.
Qed.

(** X11: the text of a date has ten characters exactly when the year is at
    most 9999; a later year makes it longer, never shorter. *)
Theorem convert_pubdate_length (rp : str) (year : Z) d :
  py_int (hd [] (split dash (strip rp))) = Ok year ->
  convert_pubdate (Some rp) = Ok (Some d) ->
  (10 <= length d)%nat
  /\ (length d = 10%nat <-> (year <= 9999)%Z).
Proof.
  intros Hy H.
  assert (Hne : rp <> []) by (intros ->; discriminate H).
  rewrite (convert_pubdate_parseable rp year Hne Hy) in H.
  injection H as <-.
  pose proof (year_nonneg _ _ Hy) as Hpos.
  pose proof (spec_month_range (split dash (strip rp))) as Hm.
  pose proof (spec_day_range (split dash (strip rp))) as Hdy.
  rewrite length_app. cbn [length]. rewrite length_app. cbn [length].
  rewrite (zero_padded_small_length (spec_month _)) by lia.
  rewrite (zero_padded_small_length (spec_day _)) by lia.
  rewrite (zero_padded_length 4 year Hpos). cbn [length].
  split; [lia|].
  split; intros E.
  - assert (L : (length (to_digits (Z.abs_N year)) <= 4)%nat) by lia.
    apply to_digits_short in L. change (10 ^ N.of_nat 4) with 10000 in L. lia.
  - assert (L : (length (to_digits (Z.abs_N year)) <= 4)%nat).
    { apply to_digits_length; [lia|].
      change (10 ^ N.of_nat 4) with 10000. lia. }
    lia.
Qed.

Lemma convert_pubdate_length_witness :
  length (lit "2018-08-01") = 10%nat
  /\ (10 <= length (lit "12345-01-01"))%nat.
Proof.
  split.
  - apply (convert_pubdate_length (lit "2018-8") 2018%Z (lit "2018-08-01"));
      try (vm_compute; reflexivity). lia.
  - apply (convert_pubdate_length (lit "12345") 12345%Z (lit "12345-01-01"));
      vm_compute; reflexivity.
Defined.

(** ** Absent, empty and blank fields *)

Lemma or_empty_idempotent o : or_empty (Some (or_empty o)) = or_empty o.
Proof. destruct o as [[|c t]|]; reflexivity. Qed.

Lemma convert_pubdate_or_empty o :
  convert_pubdate (Some (or_empty o)) = convert_pubdate o.
Proof. destruct o as [[|c t]|]; reflexivity. Qed.

Lemma strip_blank s : forallb isspace s = true -> strip s = [].
Proof.
  intros H. unfold strip. rewrite (lstrip_by_all _ _ H). reflexivity.
Qed.

Lemma convert_pubdate_blank s :
  forallb isspace s = true -> convert_pubdate (Some s) = Ok None.
Proof.
  intros H. apply (convert_pubdate_unparseable s ValueError).
  rewrite (strip_blank s H). reflexivity.
Qed.

Lemma collapse_spaces_blank s :
  forallb isspace s = true -> collapse_spaces (Some s) = [].
Proof.
  intros H. destruct s as [|c t]; [reflexivity|].
  unfold collapse_spaces. cbn [truthy_opt truthy negb].
  unfold strip, sub_spaces. rewrite lstrip_sub_spaces.
  rewrite (lstrip_by_all _ _ H). reflexivity.
Qed.

(** X12: the payload does not tell an absent field from an empty one, and
    a publisher, a raw date or a page count made of whitespace only counts
    as absent too. *)
Theorem build_notion_properties_defaults :
  (forall b,
      build_notion_properties (with_defaults b) = build_notion_properties b)
  /\ (forall t p a tl d pr bi pg blank,
         forallb isspace blank = true ->
         build_notion_properties (mkBook t (Some blank) a tl d pr bi pg)
         = build_notion_properties (mkBook t None a tl d pr bi pg)
         /\ build_notion_properties (mkBook t p a tl (Some blank) pr bi pg)
            = build_notion_properties (mkBook t p a tl None pr bi pg)
         /\ build_notion_properties (mkBook t p a tl d pr bi (Some blank))
            = build_notion_properties (mkBook t p a tl d pr bi None)).
Proof.
  split.
  - intros [t p a tl d pr bi pg]. unfold build_notion_properties, with_defaults.
    cbn [title publisher author translator pubdate producer binding pages
         or_nil].
    rewrite !or_empty_idempotent, convert_pubdate_or_empty.
    destruct pg as [[|c x]|]; reflexivity.
  - intros t p a tl d pr bi pg blank H.
    unfold build_notion_properties.
    cbn [title publisher author translator pubdate producer binding pages].
    split; [|split].
    + assert (E : collapse_spaces (Some (or_empty (Some blank))) = []).
      { destruct blank as [|c x]; [reflexivity|].
        apply (collapse_spaces_blank (c :: x) H). }
      rewrite E. reflexivity.
    + rewrite (convert_pubdate_blank blank H). reflexivity.
    + rewrite (strip_blank blank H). reflexivity.
Qed.

Lemma build_notion_properties_defaults_witness :
  build_notion_properties
    (mkBook (Some (lit "T")) (Some (lit "  ")) None None (Some (lit " "))
            None None (Some [0x3000]))
  = build_notion_properties
      (mkBook (Some (lit "T")) None None None None None None None).
Proof.
  destruct build_notion_properties_defaults as [_ H].
  destruct (H (Some (lit "T")) None None None (Some (lit " ")) None None
              (Some [0x3000]) (lit "  ") eq_refl) as [H1 _].
  destruct (H (Some (lit "T")) None None None None None None
              (Some [0x3000]) (lit " ") eq_refl) as [_ [H2 _]].
  destruct (H (Some (lit "T")) None None None None None None None
              [0x3000] eq_refl) as [_ [_ H3]].
  exact (eq_trans H1 (eq_trans H2 H3)).
Defined.

(** ** The page count of a fetched book *)

Lemma decimal_no_dash ds : forallb isdecimal ds = true -> ~ In dash ds.
Proof.
  intros H Hin. rewrite forallb_forall in H. specialize (H dash Hin).
  vm_compute in H. discriminate.
Qed.

(** X13: in the payload built from a book the fetcher returned, the page
    count is null or a natural number: never negative, and null exactly
    when the book has no digits for it or [int] refuses them. *)
Theorem fetched_page_count w isbn tr b tr' :
  fetch_book_from_douban w isbn tr = (Ok b, tr') ->
  exists fields,
    build_notion_properties b = Ok (VDict fields)
    /\ (dict_get (VDict fields) col_pages = Some (VDict [(lit "number", VNone)])
        /\ (or_empty b.(pages) = []
            \/ exists e, py_int (or_empty b.(pages)) = Raise e)
        \/ exists n,
             dict_get (VDict fields) col_pages
             = Some (VDict [(lit "number", VInt n)])
             /\ (0 <= n)%Z
             /\ py_int (or_empty b.(pages)) = Ok n).
Proof.
  intros Hf.
  assert (Hp : opt_all (fun p => forallb isdecimal p = true) b.(pages)).
  { destruct (fetch_book_inv _ _ _ _ _ Hf) as [resp [_ [Hb _]]].
    destruct (book_of_response_fields _ _ _ _ Hb)
      as [title_text [labels [_ [_ [_ ->]]]]].
    assert (Hn : fields_normal
                   (fold_left process_label labels initial_fields)).
    { apply fold_process_label_fields_normal.
      unfold fields_normal, initial_fields. cbn. repeat split. }
    apply Hn. }
  destruct (build_notion_properties_eq b) as [d [_ E]].
  eexists. split; [exact E|]. dict_lookup.
  destruct (pages b) as [ds|]; cbn [opt_all or_empty] in *.
  - rewrite (strip_decimal ds Hp).
    destruct ds as [|c t]; [left; split; [reflexivity | left; reflexivity]|].
    destruct (py_int (c :: t)) as [n|e] eqn:Ei.
    + right. exists n. split; [reflexivity|]. split; [|reflexivity].
      exact (py_int_nonneg _ _ (decimal_no_dash _ Hp) Ei).
    + left. split; [reflexivity|]. right. exists e. reflexivity.
  - left. split; [reflexivity | left; reflexivity].
Qed.

Lemma fetched_page_count_witness :
  exists fields,
    build_notion_properties sample_book = Ok (VDict fields)
    /\ dict_get (VDict fields) col_pages
       = Some (VDict [(lit "number", VInt 338)]).
Proof.
  destruct (fetched_page_count
              (sample_world (Ok (page_response 200)) (timeouts_then_created 0))
              sample_isbn [] sample_book
              [Get (douban_url sample_isbn) douban_headers 10])
    as [fields [E H]].
  - vm_compute. reflexivity.
  - exists fields. split; [exact E|].
    destruct H as [[_ [H|[e H]]]|[n [H [_ Hn]]]].
    + vm_compute in H. discriminate H.
    + vm_compute in H. discriminate H.
    + vm_compute in Hn. injection Hn as <-. exact H.
Defined.

(** ** Labels that occur more than once *)




(** * Splitting at every separator *)

Lemma words_cons c u :
  words (c :: u) =
  if isspace c then words u
  else if letter_start u
       then match words u with
            | w :: ws => (c :: w) :: ws
            | [] => [[c]]
            end
       else [c] :: words u.
Proof.
  cbn [words]. destruct (isspace c); [reflexivity|].
  destruct u as [|c' t]; [reflexivity|].
  cbn [letter_start]. destruct (isspace c'); reflexivity.
Qed.

Lemma same_words_cons c u v :
  same_words u v -> same_words (c :: u) (c :: v).
Proof.
  intros [Hw Hl]. split; [|reflexivity].
  rewrite !words_cons, Hw, Hl. reflexivity.
Qed.

Lemma same_segments_cons c x y :
  same_segments x y -> same_segments (c :: x) (c :: y).
Proof.
  unfold same_segments. cbn [split].
  destruct (split slash x) as [|u us]; [intros []|].
  destruct (split slash y) as [|v vs]; [intros []|].
  intros [Hw Ht]. destruct (c =? slash).
  - split; [split; reflexivity|]. cbn [map]. destruct Hw as [Hw _].
    rewrite Hw, Ht. reflexivity.
  - split; [apply same_words_cons; exact Hw | exact Ht].
Qed.

Lemma replace_from_skipn old new s : forall skip,
  replace_from old new skip s = replace_from old new O (skipn skip s).
Proof.
  induction s as [|c t IH]; intros skip.
  - destruct skip; reflexivity.
  - destruct skip as [|k]; [reflexivity|].
    cbn [replace_from skipn]. apply IH.
Qed.

Lemma replace_same_segments n : forall s,
  (length s <= n)%nat ->
  same_segments (replace (lit " / ") (lit "/") s) s.
Proof.
  induction n as [|n IH]; intros s Hl.
  - destruct s; [|simpl in Hl; lia]. vm_compute. auto.
  - destruct s as [|c t]; [vm_compute; auto|].
    unfold replace. cbn [replace_from].
    destruct (startswith (lit " / ") (c :: t)) eqn:E.
    + pose proof (startswith_app _ _ E) as Es.
      change (length (lit " / ")) with 3%nat in Es.
      rewrite replace_from_skipn.
      change (Nat.pred (length (lit " / "))) with 2%nat.
      change (skipn 2 t) with (skipn 3 (c :: t)).
      set (b := skipn 3 (c :: t)) in *.
      assert (Hb : (length b <= n)%nat).
      { apply (f_equal (@length char)) in Es. rewrite length_app in Es.
        change (length (lit " / ")) with 3%nat in Es.
        simpl in Hl, Es. unfold char in *. lia. }
      specialize (IH b Hb). unfold replace in IH.
      rewrite Es. clear Es E Hl Hb.
      unfold same_segments in *.
      change (lit "/" ++ replace_from (lit " / ") (lit "/") 0 b)
        with (slash :: replace_from (lit " / ") (lit "/") 0 b).
      change (lit " / " ++ b) with (space :: slash :: space :: b).
      cbn [split].
      change (space =? slash) with false. rewrite N.eqb_refl. cbn iota.
      destruct (split slash (replace_from (lit " / ") (lit "/") 0 b))
        as [|u us]; [contradiction|].
      destruct (split slash b) as [|v vs]; [contradiction|].
      destruct IH as [[Hw _] Ht].
      split; [split; reflexivity|].
      cbn [map]. rewrite words_cons. change (isspace space) with true.
      cbn iota. rewrite Hw, Ht. reflexivity.
    + apply same_segments_cons. apply (IH t). simpl in Hl. lia.
Qed.

Lemma replace_words_of_segments s :
  map words (split slash (replace (lit " / ") (lit "/") s))
  = map words (split slash s).
Proof.
  pose proof (replace_same_segments (length s) s (Nat.le_refl _)) as H.
  unfold same_segments in H.
  destruct (split slash (replace (lit " / ") (lit "/") s)) as [|u us];
    [contradiction|].
  destruct (split slash s) as [|v vs]; [contradiction|].
  destruct H as [[Hw _] Ht]. cbn [map]. rewrite Hw, Ht. reflexivity.
Qed.

Lemma words_all_space s : forallb isspace s = true -> words s = [].
Proof.
  induction s as [|c t IH]; [reflexivity|].
  simpl. intros H. apply andb_prop in H. destruct H as [Hc Ht].
  rewrite Hc. apply IH. exact Ht.
Qed.

Lemma nonblank_words v :
  nonblank v = match words v with [] => false | _ :: _ => true end.
Proof.
  unfold nonblank. destruct (strip v) as [|c t] eqn:E.
  - rewrite (words_all_space v (strip_nil_all_space v E)). reflexivity.
  - assert (H : truthy (strip v) = true) by (rewrite E; reflexivity).
    apply strip_truthy_words in H.
    destruct (words v); [contradiction | reflexivity].
Qed.

Lemma names_of_words segments :
  map (fun v => collapse_spaces (Some v)) (filter nonblank segments)
  = map (join [space])
        (filter (fun ws => match ws with [] => false | _ :: _ => true end)
                (map words segments)).
Proof.
  induction segments as [|v rest IH]; [reflexivity|].
  cbn [filter map]. rewrite nonblank_words.
  destruct (words v) as [|w ws] eqn:E.
  - exact IH.
  - cbn [map]. rewrite IH, collapse_spaces_words, E. reflexivity.
Qed.

Lemma split_names_every_slash raw :
  split_names raw
  = map (fun v => collapse_spaces (Some v))
        (filter nonblank (split slash raw)).
Proof.
  unfold split_names. fold nonblank.
  rewrite !names_of_words, replace_words_of_segments. reflexivity.
Qed.

Lemma join_split sep s : join [sep] (split sep s) = s.
Proof.
  induction s as [|c t IH]; [reflexivity|].
  cbn [split]. destruct (split_nonempty sep t) as [w [ws E]].
  rewrite E in *. destruct (N.eqb_spec c sep) as [->|Hne].
  - rewrite join_cons_cons, IH. reflexivity.
  - destruct ws as [|w' ws']; simpl in *; rewrite IH; reflexivity.
Qed.

Lemma split_join sep segments :
  segments <> [] -> Forall (fun p => ~ In sep p) segments ->
  split sep (join [sep] segments) = segments.
Proof.
  induction segments as [|p rest IH]; intros Hne Hf; [contradiction|].
  inversion Hf as [|? ? Hp Hrest]; subst.
  destruct rest as [|q rest'].
  - simpl. apply split_no_sep. exact Hp.
  - rewrite join_cons_cons.
    change (p ++ [sep] ++ join [sep] (q :: rest'))
      with (p ++ sep :: join [sep] (q :: rest')).
    rewrite (split_app_sep sep p _ Hp).
    rewrite (IH ltac:(discriminate) Hrest). reflexivity.
Qed.

(** C8: an author or translator value is split at every ["/"], in order,
    into its whitespace-collapsed names.  The fetcher stores
    [split_names raw_value] for an author label and for a translator label;
    a value made of segments without ["/"] joined by ["/"], as every value
    is in exactly one way, gives the collapsed segments in their order,
    blank ones left out (replacing [" / "] by ["/"] first changes nothing);
    every name is whitespace-collapsed; ["A / B"] gives [["A"; "B"]] and a
    value without ["/"] gives the single collapsed name, both for a
    non-blank string and for the value of a label in the loop of the
    fetcher. *)
Theorem split_names_spec :
  (forall label raw_value f,
      startswith label_author label = true ->
      f_authors (route label raw_value f) = split_names raw_value)
  /\ (forall label raw_value f,
         startswith label_translator label = true ->
         f_translators (route label raw_value f) = split_names raw_value)
  /\ (forall raw_value,
         Forall (fun n => collapse_spaces (Some n) = n) (split_names raw_value))
  /\ split_names (lit "A / B") = [lit "A"; lit "B"]
  /\ (forall raw_value,
         ~ In slash raw_value -> truthy (strip raw_value) = true ->
         split_names raw_value = [collapse_spaces (Some raw_value)])
  /\ (forall f span,
         startswith label_author (rstrip_chars colons span.(label_text)) = true ->
         raw_value_of span <> [] ->
         ~ In slash (raw_value_of span) ->
         f_authors (process_label f span)
         = [collapse_spaces (Some (raw_value_of span))])
  /\ (forall f span,
         startswith label_translator (rstrip_chars colons span.(label_text))
         = true ->
         raw_value_of span <> [] ->
         ~ In slash (raw_value_of span) ->
         f_translators (process_label f span)
         = [collapse_spaces (Some (raw_value_of span))])
  /\ (forall segments : list str,
         segments <> [] ->
         Forall (fun p => ~ In slash p) segments ->
         split_names (join [slash] segments)
         = map (fun v => collapse_spaces (Some v))
               (filter (fun v => truthy (strip v)) segments))
  /\ (forall raw_value,
         join [slash] (split slash raw_value) = raw_value
         /\ split slash raw_value <> []
         /\ Forall (fun p => ~ In slash p) (split slash raw_value))
  /\ (forall segments segments' : list str,
         segments <> [] -> segments' <> [] ->
         Forall (fun p => ~ In slash p) segments ->
         Forall (fun p => ~ In slash p) segments' ->
         join [slash] segments = join [slash] segments' ->
         segments = segments')
  /\ split_names (lit "A/B / C//D e/") = [lit "A"; lit "B"; lit "C"; lit "D e"].
Proof.
  split; [exact route_authors|].
  split; [exact route_translators|].
  split; [exact split_names_collapsed|].
  split; [vm_compute; reflexivity|].
  split; [exact split_names_single|].
  split; [exact process_label_single_author|].
  split; [exact process_label_single_translator|].
  split.
  { intros segments Hne Hf.
    rewrite split_names_every_slash, (split_join slash segments Hne Hf).
    reflexivity. }
  split.
  { intros raw_value. split; [apply join_split|].
    split; [|apply split_no_sep_in].
    destruct (split_nonempty slash raw_value) as [p [ps E]]. rewrite E.
    discriminate. }
  split.
  { intros segments segments' Hne Hne' Hf Hf' E.
    rewrite <- (split_join slash segments Hne Hf).
    rewrite <- (split_join slash segments' Hne' Hf'). rewrite E.
    reflexivity. }
  vm_compute. reflexivity.
Qed.

Lemma split_names_spec_witness :
  f_authors (route label_author (lit "A / B") initial_fields) = [lit "A"; lit "B"]
  /\ f_translators (route label_translator (lit "A / B") initial_fields)
     = [lit "A"; lit "B"]
  /\ split_names (lit "Dan Brown") = [lit "Dan Brown"]
  /\ f_authors
       (process_label initial_fields
          (mkLabelSpan (label_author ++ lit ":")
                       [NavigableString (lit " Dan  Brown "); br]))
     = [lit "Dan Brown"]
  /\ f_translators
       (process_label initial_fields
          (mkLabelSpan (label_translator ++ lit ":")
                       [NavigableString (lit " Dan  Brown "); br]))
     = [lit "Dan Brown"]
  /\ split_names (join [slash] [lit "A "; lit "  "; lit " B  b"; lit "C"])
     = [lit "A"; lit "B b"; lit "C"]
  /\ [lit "A"; lit "B"] = [lit "A"; lit "B"].
Proof.
  assert (Hno : forall s : str,
             forallb (fun c => negb (c =? slash)) s = true -> ~ In slash s).
  { intros s H Hin. rewrite forallb_forall in H. specialize (H slash Hin).
    rewrite N.eqb_refl in H. discriminate. }
  destruct split_names_spec
    as [Ha [Ht [_ [Hex [Hs [Hpa [Hpt [Hseg [_ [Huniq _]]]]]]]]]].
  split; [|split; [|split; [|split; [|split; [|split]]]]].
  - rewrite (Ha label_author (lit "A / B") initial_fields);
      [exact Hex | reflexivity].
  - rewrite (Ht label_translator (lit "A / B") initial_fields);
      [exact Hex | reflexivity].
  - rewrite (Hs (lit "Dan Brown")).
    + vm_compute. reflexivity.
    + apply Hno. vm_compute. reflexivity.
    + vm_compute. reflexivity.
  - rewrite Hpa.
    + vm_compute. reflexivity.
    + vm_compute. reflexivity.
    + vm_compute. discriminate.
    + apply Hno. vm_compute. reflexivity.
  - rewrite Hpt.
    + vm_compute. reflexivity.
    + vm_compute. reflexivity.
    + vm_compute. discriminate.
    + apply Hno. vm_compute. reflexivity.
  - rewrite Hseg.
    + vm_compute. reflexivity.
    + discriminate.
    + repeat (constructor; [apply Hno; vm_compute; reflexivity|]).
      constructor.
  - apply Huniq; try discriminate; try reflexivity;
      repeat (constructor; [apply Hno; vm_compute; reflexivity|]);
      constructor.
Defined.

(** * The shape of a date *)

Lemma is_yyyy_mm_dd_length d : is_yyyy_mm_dd d = true -> length d = 10%nat.
Proof.
  unfold is_yyyy_mm_dd.
  do 10 (destruct d as [|? d]; [discriminate|]).
  destruct d; [reflexivity | discriminate].
Qed.

Lemma date_text_shape year month day :
  (0 <= year)%Z -> (1 <= month <= 31)%Z -> (1 <= day <= 31)%Z ->
  (is_yyyy_mm_dd (date_text year month day) = true <-> (year <= 9999)%Z).
Proof.
  intros Hy Hm Hd.
  pose proof (zero_padded_length 4 year Hy) as Ly.
  pose proof (zero_padded_small_length month Hm) as Lm.
  pose proof (zero_padded_small_length day Hd) as Ld.
  destruct (zero_padded_reads_as 4 year Hy) as [Fy _].
  destruct (zero_padded_reads_as 2 month ltac:(lia)) as [Fm _].
  destruct (zero_padded_reads_as 2 day ltac:(lia)) as [Fd _].
  unfold date_text. split.
  - intros H. apply is_yyyy_mm_dd_length in H.
    rewrite length_app in H. cbn [app length] in H.
    rewrite length_app in H. cbn [length] in H.
    assert (L : (length (to_digits (Z.abs_N year)) <= 4)%nat)
      by (unfold char in *; lia).
    apply to_digits_short in L. change (10 ^ N.of_nat 4) with 10000 in L. lia.
  - intros H.
    assert (L : (length (to_digits (Z.abs_N year)) <= 4)%nat).
    { apply to_digits_length; [lia|].
      change (10 ^ N.of_nat 4) with 10000. lia. }
    assert (Ly' : length (zero_padded 4 year) = 4%nat)
      by (unfold char in *; lia).
    destruct (zero_padded 4 year) as [|y1 [|y2 [|y3 [|y4 [|? ?]]]]];
      try discriminate Ly'.
    destruct (zero_padded 2 month) as [|m1 [|m2 [|? ?]]]; try discriminate Lm.
    destruct (zero_padded 2 day) as [|d1 [|d2 [|? ?]]]; try discriminate Ld.
    repeat match goal with
           | F : Forall _ (_ :: _) |- _ => inversion F; subst; clear F
           end.
    cbn [app is_yyyy_mm_dd].
    repeat match goal with
           | E : is_ascii_digit _ = true |- _ => rewrite E; clear E
           end.
    rewrite N.eqb_refl. reflexivity.
Qed.

(** The claim of C2 fails on the code for a year above 9999: the year is
    printed in full, so the text is not of the shape YYYY-MM-DD. *)
Lemma convert_pubdate_long_year :
  py_int (lit "12345") = Ok 12345%Z
  /\ convert_pubdate (Some (lit "12345")) = Ok (Some (lit "12345-01-01"))
  /\ is_yyyy_mm_dd (lit "12345-01-01") = false
  /\ length (lit "12345-01-01") = 11%nat.
Proof. repeat split; vm_compute; reflexivity. Qed.

(** C2, amended: [convert_pubdate] on every input; the segments are those
    of the input without its outer whitespace.  Absent and empty input give
    [None]; a first segment that [int] rejects gives [None]; otherwise the
    result is the year padded with zeros to at least four digits, the month
    and the day each written with two digits, joined by ["-"], where the
    month is the parsed second segment (1 when missing or unparseable)
    clamped into [1,12] and the day is clamped into [1,31]; the three fields
    are made of digits and read back as the year, the month and the day;
    the year is never negative, and the text has the shape YYYY-MM-DD
    exactly when the year is at most 9999, a longer year being printed in
    full. *)
Theorem convert_pubdate_spec :
  convert_pubdate None = Ok None
  /\ convert_pubdate (Some []) = Ok None
  /\ (forall (rp : str) (e : exn),
         py_int (hd [] (split dash (strip rp))) = Raise e ->
         convert_pubdate (Some rp) = Ok None)
  /\ (forall (rp : str) (year : Z),
         rp <> [] ->
         py_int (hd [] (split dash (strip rp))) = Ok year ->
         let parts := split dash (strip rp) in
         let d := zero_padded 4 year ++ [dash]
                  ++ zero_padded 2 (spec_month parts) ++ [dash]
                  ++ zero_padded 2 (spec_day parts) in
         convert_pubdate (Some rp) = Ok (Some d)
         /\ (1 <= spec_month parts <= 12)%Z
         /\ (1 <= spec_day parts <= 31)%Z
         /\ (4 <= length (zero_padded 4 year))%nat
         /\ length (zero_padded 2 (spec_month parts)) = 2%nat
         /\ length (zero_padded 2 (spec_day parts)) = 2%nat
         /\ reads_as (zero_padded 4 year) year
         /\ reads_as (zero_padded 2 (spec_month parts)) (spec_month parts)
         /\ reads_as (zero_padded 2 (spec_day parts)) (spec_day parts)
         /\ (0 <= year)%Z
         /\ length (zero_padded 4 year)
            = Nat.max 4 (length (to_digits (Z.abs_N year)))
         /\ (length (zero_padded 4 year) = 4%nat <-> (year <= 9999)%Z)
         /\ (is_yyyy_mm_dd d = true <-> (year <= 9999)%Z))
  /\ convert_pubdate (Some (lit "2018")) = Ok (Some (lit "2018-01-01"))
  /\ convert_pubdate (Some (lit "2018-8")) = Ok (Some (lit "2018-08-01"))
  /\ convert_pubdate (Some (lit "2018-13")) = Ok (Some (lit "2018-12-01"))
  /\ convert_pubdate (Some (lit "abc")) = Ok None.
Proof.
  split; [reflexivity|]. split; [reflexivity|].
  split; [exact convert_pubdate_unparseable|].
  split.
  - intros rp year Hne H parts d.
    pose proof (spec_month_range parts) as Hm.
    pose proof (spec_day_range parts) as Hd.
    pose proof (year_nonneg rp year H) as Hy.
    pose proof (zero_padded_length 4 year Hy) as Ly.
    split; [exact (convert_pubdate_parseable rp year Hne H)|].
    split; [exact Hm|]. split; [exact Hd|].
    split; [apply zero_padded_min_length|].
    split; [apply zero_padded_small_length; lia|].
    split; [apply zero_padded_small_length; lia|].
    split; [apply zero_padded_reads_as, Hy|].
    split; [apply zero_padded_reads_as; lia|].
    split; [apply zero_padded_reads_as; lia|].
    split; [exact Hy|].
    split; [exact Ly|].
    split; [|apply (date_text_shape year); [exact Hy | lia | lia]].
    rewrite Ly. split; intros E.
    + assert (L : (length (to_digits (Z.abs_N year)) <= 4)%nat) by lia.
      apply to_digits_short in L. change (10 ^ N.of_nat 4) with 10000 in L.
      lia.
    + assert (L : (length (to_digits (Z.abs_N year)) <= 4)%nat).
      { apply to_digits_length; [lia|].
        change (10 ^ N.of_nat 4) with 10000. lia. }
      lia.
  - repeat split; vm_compute; reflexivity.
Qed.

Lemma convert_pubdate_spec_witness :
  convert_pubdate (Some (lit "x-8")) = Ok None
  /\ convert_pubdate (Some (lit " 2018-40-7 ")) = Ok (Some (lit "2018-12-07"))
  /\ is_yyyy_mm_dd (lit "2018-12-07") = true.
Proof.
  destruct convert_pubdate_spec as [_ [_ [Hbad [Hgood _]]]].
  assert (Hne : lit " 2018-40-7 " <> []) by discriminate.
  assert (Hy : py_int (hd [] (split dash (strip (lit " 2018-40-7 "))))
               = Ok 2018%Z) by (vm_compute; reflexivity).
  pose proof (Hgood (lit " 2018-40-7 ") 2018%Z Hne Hy) as H.
  cbv zeta in H.
  destruct H as [E [_ [_ [_ [_ [_ [_ [_ [_ [_ [_ [_ Hshape]]]]]]]]]]]].
  split; [|split].
  - apply (Hbad (lit "x-8") ValueError). vm_compute. reflexivity.
  - refine (eq_trans E _). vm_compute. reflexivity.
  - refine (eq_trans _ (proj2 Hshape _)); [vm_compute; reflexivity | lia].
Defined.
